(** * SIP indicator API: a shallow embedding of the route handlers

    The handlers of [project/api/routes/indicator.py] and
    [project/api/routes/indicator_status.py] are embedded as functions
    from the committed database and the request to an outcome and the
    database the request leaves behind.  Tables are ordered lists of
    rows, so [Query.first()] is the first matching row. *)

From Stdlib Require Import ZArith List String Bool Lia Permutation Sorted.
Import ListNotations.
Open Scope Z_scope.

(** ** Rows of [project.models] *)

(** IndicatorType, IndicatorConfidence, IndicatorImpact, IndicatorStatus,
    Tag and IntelSource all are a primary key and a [value]. *)
Record Taxon := mkTaxon {
  tx_id : Z;
  tx_value : string }.

Record Campaign := mkCampaign {
  campaign_id : Z;
  campaign_name : string }.

Record IntelReference := mkIntelReference {
  reference_id : Z;
  reference : string;
  _intel_source_id : Z }.

Record User := mkUser {
  user_id : Z;
  username : string;
  active : bool }.

(** An Indicator, as the ORM object the handlers build and mutate.  The
    relationships are held by the primary keys of the related rows; the
    three defaulted references are [None] until they are assigned.  A
    many-to-many relationship stands for the indicator's rows of its
    association table, in the order of the table; a read of it has no
    ORDER BY, so what the properties say of one is who its members are. *)
Record Indicator := mkIndicator {
  ind_id : Z;
  _type_id : Z;
  _user_id : Z;
  ind_value : string;
  ind_campaigns : list Z;
  case_sensitive : bool;
  _confidence_id : option Z;
  _impact_id : option Z;
  ind_references : list Z;
  _status_id : option Z;
  substring : bool;
  ind_tags : list Z;
  created_time : Z;
  modified_time : Z }.

(** The committed database. *)
Record Store := mkStore {
  indicator_types : list Taxon;
  indicator_confidences : list Taxon;
  indicator_impacts : list Taxon;
  indicator_statuses : list Taxon;
  tags : list Taxon;
  intel_sources : list Taxon;
  campaigns : list Campaign;
  intel_references : list IntelReference;
  users : list User;
  indicators : list Indicator }.

Definition with_indicators (s : Store) (l : list Indicator) : Store :=
  mkStore (indicator_types s) (indicator_confidences s) (indicator_impacts s)
          (indicator_statuses s) (tags s) (intel_sources s) (campaigns s)
          (intel_references s) (users s) l.

Definition with_indicator_statuses (s : Store) (l : list Taxon) : Store :=
  mkStore (indicator_types s) (indicator_confidences s) (indicator_impacts s)
          l (tags s) (intel_sources s) (campaigns s)
          (intel_references s) (users s) (indicators s).

(** ** Responses *)

Inductive Body :=
| Msg (msg : string)
| JIndicator (i : Indicator)
| JTaxon (r : Taxon)
| JTaxons (rs : list Taxon)
| JCollection (items : list Indicator)
| NoBody.

Record Response := mkResponse {
  status_code : Z;
  body : Body;
  location : option (string * Z) }.

Definition error_response (code : Z) (msg : string) : Response :=
  mkResponse code (Msg msg) None.

Definition jsonify (b : Body) : Response := mkResponse 200 b None.

(** Exceptions no handler catches leave the view function; the framework
    answers them, and the session is discarded with the request. *)
Inductive Exn := IntegrityError | FlushError.

Inductive Outcome :=
| Responded (r : Response)
| Unhandled (e : Exn).

Definition status_of (o : Outcome) : option Z :=
  match o with
  | Responded r => Some (status_code r)
  | Unhandled _ => None
  end.

(** A view function either goes on with a value or has returned. *)
Inductive Step (A : Type) :=
| Continue (a : A)
| Finish (o : Outcome).
Arguments Continue {A} a.
Arguments Finish {A} o.

Definition bind {A B} (m : Step A) (k : A -> Step B) : Step B :=
  match m with
  | Continue a => k a
  | Finish o => Finish o
  end.

Notation "'do' x <- m ; k" := (bind m (fun x => k))
  (at level 10, x name, m at level 100, k at level 200).

Definition abort {A} (code : Z) (msg : string) : Step A :=
  Finish (Responded (error_response code msg)).

(** [row = q.first(); if not row: return error_response(code, msg)] *)
Definition first_or {A} (row : option A) (code : Z) (msg : string) : Step A :=
  match row with
  | Some r => Continue r
  | None => abort code msg
  end.

(** ['... {}'.format(arg)]: every template of the handlers ends in its
    one placeholder. *)
Definition format (template arg : string) : string := String.append template arg.

(** ** Queries *)

Definition by_value (v : string) (r : Taxon) : bool := String.eqb (tx_value r) v.

(** [Model.query.filter_by(value=v).first()] *)
Definition first_by_value (rows : list Taxon) (v : string) : option Taxon :=
  find (by_value v) rows.

(** [Model.query.get(id)] *)
Definition get_taxon (rows : list Taxon) (i : Z) : option Taxon :=
  find (fun r => tx_id r =? i) rows.

Definition get_indicator (s : Store) (i : Z) : option Indicator :=
  find (fun r => ind_id r =? i) (indicators s).

(** [Model.query.order_by(Model.id).limit(1).first()] *)
Fixpoint insert_by_id (r : Taxon) (rows : list Taxon) : list Taxon :=
  match rows with
  | [] => [r]
  | x :: rest => if tx_id r <? tx_id x then r :: x :: rest
                 else x :: insert_by_id r rest
  end.

Definition order_by_id (rows : list Taxon) : list Taxon :=
  fold_right insert_by_id [] rows.

Definition first_by_id (rows : list Taxon) : option Taxon :=
  hd_error (firstn 1 (order_by_id rows)).

(** The primary key the database hands to an inserted row. *)
Definition next_id (ids : list Z) : Z := fold_right Z.max 0 ids + 1.

(** ** The request/session discipline *)

(** A view function that reaches its commit leaves the committed store
    it produced; one that returns early or raises leaves the store it
    found, since the session is removed with the request. *)
Definition run (s : Store) (m : Step (Response * Store)) : Outcome * Store :=
  match m with
  | Continue (r, s') => (Responded r, s')
  | Finish o => (o, s)
  end.

(** ** indicator_status.py *)

Record ValueData := mkValueData { v_value : string }.

(** [db.session.add(IndicatorStatus(value=v)); db.session.commit()] *)
Definition commit_add_status (s : Store) (v : string) : Taxon * Store :=
  let r := mkTaxon (next_id (map tx_id (indicator_statuses s))) v in
  (r, with_indicator_statuses s (indicator_statuses s ++ [r])).

(** [row.value = v; db.session.commit()] *)
Definition commit_update_status (s : Store) (row : Taxon) (v : string)
  : Taxon * Store :=
  let r := mkTaxon (tx_id row) v in
  (r, with_indicator_statuses s
        (map (fun x => if tx_id x =? tx_id row then r else x)
             (indicator_statuses s))).

(** The foreign key [indicator._status_id]. *)
Definition status_referenced (s : Store) (i : Z) : bool :=
  existsb (fun ind => match _status_id ind with
                      | Some k => k =? i
                      | None => false
                      end) (indicators s).

(** [db.session.delete(row); db.session.commit()] *)
Definition commit_delete_status (s : Store) (row : Taxon) : Exn + Store :=
  if status_referenced s (tx_id row) then inl IntegrityError
  else inr (with_indicator_statuses s
              (filter (fun x => negb (tx_id x =? tx_id row))
                      (indicator_statuses s))).

Definition create_indicator_status (s : Store) (data : ValueData)
  : Outcome * Store :=
  run s (
    (* Verify this value does not already exist. *)
    let existing := first_by_value (indicator_statuses s) (v_value data) in
    match existing with
    | Some _ => abort 409 "Indicator status already exists"
    | None =>
      (* Create and add the new value. *)
      let (indicator_status, s') := commit_add_status s (v_value data) in
      Continue (mkResponse 201 (JTaxon indicator_status)
                  (Some ("api.read_indicator_status"%string,
                         tx_id indicator_status)), s')
    end).

Definition read_indicator_status (s : Store) (indicator_status_id : Z)
  : Outcome * Store :=
  run s (
    do indicator_status <-
      first_or (get_taxon (indicator_statuses s) indicator_status_id)
               404 "Indicator status ID not found";
    Continue (jsonify (JTaxon indicator_status), s)).

Definition read_indicator_statuses (s : Store) : Outcome * Store :=
  run s (Continue (jsonify (JTaxons (indicator_statuses s)), s)).

Definition update_indicator_status (s : Store) (indicator_status_id : Z)
  (data : ValueData) : Outcome * Store :=
  run s (
    (* Verify the ID exists. *)
    do indicator_status <-
      first_or (get_taxon (indicator_statuses s) indicator_status_id)
               404 "Indicator status ID not found";
    (* Verify this value does not already exist. *)
    let existing := first_by_value (indicator_statuses s) (v_value data) in
    match existing with
    | Some _ => abort 409 "Indicator status already exists"
    | None =>
      (* Set the new value. *)
      let (indicator_status, s') :=
        commit_update_status s indicator_status (v_value data) in
      Continue (jsonify (JTaxon indicator_status), s')
    end).

Definition delete_indicator_status (s : Store) (indicator_status_id : Z)
  : Outcome * Store :=
  run s (
    do indicator_status <-
      first_or (get_taxon (indicator_statuses s) indicator_status_id)
               404 "Indicator status ID not found";
    match commit_delete_status s indicator_status with
    | inr s' => Continue (mkResponse 204 NoBody None, s')
    | inl IntegrityError =>
      (* db.session.rollback() *)
      abort 409 "Unable to delete indicator status due to foreign key constraints"
    | inl e => Finish (Unhandled e)
    end).

(** ** indicator.py *)

(** The JSON body of POST /indicators once [validate_schema(create_schema)]
    has accepted it: three required strings, the rest optional. *)
Record CreateData := mkCreateData {
  c_campaigns : option (list string);
  c_case_sensitive : option bool;
  c_confidence : option string;
  c_impact : option string;
  c_references : option (list string);
  c_status : option string;
  c_substring : option bool;
  c_tags : option (list string);
  c_username : string;
  c_type : string;
  c_value : string }.

(** The JSON body of PUT /indicators/<id> under [update_schema]. *)
Record UpdateData := mkUpdateData {
  u_campaigns : option (list string);
  u_case_sensitive : option bool;
  u_confidence : option string;
  u_impact : option string;
  u_references : option (list string);
  u_status : option string;
  u_substring : option bool;
  u_tags : option (list string);
  u_username : option string }.

(** Attribute assignment on the ORM object. *)
Definition set_id (i : Indicator) (v : Z) : Indicator :=
  mkIndicator v (_type_id i) (_user_id i) (ind_value i) (ind_campaigns i)
    (case_sensitive i) (_confidence_id i) (_impact_id i) (ind_references i)
    (_status_id i) (substring i) (ind_tags i) (created_time i) (modified_time i).

Definition set_user (i : Indicator) (v : Z) : Indicator :=
  mkIndicator (ind_id i) (_type_id i) v (ind_value i) (ind_campaigns i)
    (case_sensitive i) (_confidence_id i) (_impact_id i) (ind_references i)
    (_status_id i) (substring i) (ind_tags i) (created_time i) (modified_time i).

Definition set_campaigns (i : Indicator) (v : list Z) : Indicator :=
  mkIndicator (ind_id i) (_type_id i) (_user_id i) (ind_value i) v
    (case_sensitive i) (_confidence_id i) (_impact_id i) (ind_references i)
    (_status_id i) (substring i) (ind_tags i) (created_time i) (modified_time i).

Definition set_case_sensitive (i : Indicator) (v : bool) : Indicator :=
  mkIndicator (ind_id i) (_type_id i) (_user_id i) (ind_value i) (ind_campaigns i)
    v (_confidence_id i) (_impact_id i) (ind_references i)
    (_status_id i) (substring i) (ind_tags i) (created_time i) (modified_time i).

Definition set_confidence (i : Indicator) (v : option Z) : Indicator :=
  mkIndicator (ind_id i) (_type_id i) (_user_id i) (ind_value i) (ind_campaigns i)
    (case_sensitive i) v (_impact_id i) (ind_references i)
    (_status_id i) (substring i) (ind_tags i) (created_time i) (modified_time i).

Definition set_impact (i : Indicator) (v : option Z) : Indicator :=
  mkIndicator (ind_id i) (_type_id i) (_user_id i) (ind_value i) (ind_campaigns i)
    (case_sensitive i) (_confidence_id i) v (ind_references i)
    (_status_id i) (substring i) (ind_tags i) (created_time i) (modified_time i).

Definition set_references (i : Indicator) (v : list Z) : Indicator :=
  mkIndicator (ind_id i) (_type_id i) (_user_id i) (ind_value i) (ind_campaigns i)
    (case_sensitive i) (_confidence_id i) (_impact_id i) v
    (_status_id i) (substring i) (ind_tags i) (created_time i) (modified_time i).

Definition set_status (i : Indicator) (v : option Z) : Indicator :=
  mkIndicator (ind_id i) (_type_id i) (_user_id i) (ind_value i) (ind_campaigns i)
    (case_sensitive i) (_confidence_id i) (_impact_id i) (ind_references i)
    v (substring i) (ind_tags i) (created_time i) (modified_time i).

Definition set_substring (i : Indicator) (v : bool) : Indicator :=
  mkIndicator (ind_id i) (_type_id i) (_user_id i) (ind_value i) (ind_campaigns i)
    (case_sensitive i) (_confidence_id i) (_impact_id i) (ind_references i)
    (_status_id i) v (ind_tags i) (created_time i) (modified_time i).

Definition set_tags (i : Indicator) (v : list Z) : Indicator :=
  mkIndicator (ind_id i) (_type_id i) (_user_id i) (ind_value i) (ind_campaigns i)
    (case_sensitive i) (_confidence_id i) (_impact_id i) (ind_references i)
    (_status_id i) (substring i) v (created_time i) (modified_time i).

(** [Indicator(type=_type, user=user, value=value)].  The primary key is
    unset (0 here) until the row is flushed; the two timestamps are the
    columns' defaults, the clock at creation. *)
Definition new_indicator (_type : Taxon) (user : User) (value : string)
  (now : Z) : Indicator :=
  mkIndicator 0 (tx_id _type) (user_id user) value [] false None None []
              None false [] now now.

(** Natural-key lookups of the related tables. *)
Definition first_user (s : Store) (name : string) : option User :=
  find (fun u => String.eqb (username u) name) (users s).

Definition first_campaign (s : Store) (name : string) : option Campaign :=
  find (fun c => String.eqb (campaign_name c) name) (campaigns s).

Definition first_reference (s : Store) (v : string) : option IntelReference :=
  find (fun r => String.eqb (reference r) v) (intel_references s).

(** [Indicator.query.filter_by(_type_id=t, value=v).first()] *)
Definition first_indicator (s : Store) (t : Z) (v : string) : option Indicator :=
  find (fun i => (_type_id i =? t) && String.eqb (ind_value i) v) (indicators s).

(** Membership in an association table. *)
Definition mem (k : Z) (ks : list Z) : bool := existsb (Z.eqb k) ks.

(** Some key is in the list more than once. *)
Fixpoint repeats (ks : list Z) : bool :=
  match ks with
  | [] => false
  | k :: rest => mem k rest || repeats rest
  end.

(** Modelled from the spec: the column constraints of [project.models],
    which is not in src.  An Indicator carries a confidence, an impact and
    a status reference (section 3), so the insert of a row that lacks one
    is refused with an integrity error.  Its links to Campaign,
    IntelReference and Tag are many-to-many (section 3): an association
    table holds one row per linked pair, so a collection to which one row
    was appended twice inserts a pair twice, and that is refused as well.
    Otherwise the row gets the next primary key and is appended to the
    table.
    [db.session.add(indicator); db.session.commit()] *)
Definition commit_add_indicator (s : Store) (i : Indicator)
  : Exn + (Indicator * Store) :=
  match _confidence_id i, _impact_id i, _status_id i with
  | Some _, Some _, Some _ =>
    if repeats (ind_campaigns i) || repeats (ind_references i)
       || repeats (ind_tags i)
    then inl IntegrityError
    else
      let row := set_id i (next_id (map ind_id (indicators s))) in
      inr (row, with_indicators s (indicators s ++ [row]))
  | _, _, _ => inl IntegrityError
  end.

(** Modelled from the spec: the columns of the indicator table are
    declared in [project.models], which is not in src.  The commit writes
    the loaded indicator as the handler left it: a column it did not
    assign keeps its value (sections 3 and 4.1, only supplied fields
    change).
    [db.session.commit()] with the loaded indicator dirty. *)
Definition commit_update_indicator (s : Store) (i : Indicator) : Store :=
  with_indicators s
    (map (fun x => if ind_id x =? ind_id i then i else x) (indicators s)).

(** The unit of work does not flush a collection that holds [None]: the
    flush raises.  Every path from the assignment of such a collection to
    a response goes through a flush (the autoflush of the next query, or
    the commit), so the exception is raised here, at the assignment. *)
Fixpoint relationship_set (members : list (option Z)) : Step (list Z) :=
  match members with
  | [] => Continue []
  | None :: _ => Finish (Unhandled FlushError)
  | Some k :: rest => do ks <- relationship_set rest; Continue (k :: ks)
  end.

(** The three loops of [create_indicator]: each value is looked up, a
    missing one returns the error, a found one is appended. *)
Fixpoint append_campaigns (s : Store) (values : list string) (i : Indicator)
  : Step Indicator :=
  match values with
  | [] => Continue i
  | value :: rest =>
    do campaign <- first_or (first_campaign s value)
                     404 (format "Campaign not found: " value);
    append_campaigns s rest
      (set_campaigns i (ind_campaigns i ++ [campaign_id campaign]))
  end.

Fixpoint append_references (s : Store) (values : list string) (i : Indicator)
  : Step Indicator :=
  match values with
  | [] => Continue i
  | value :: rest =>
    do ref <- first_or (first_reference s value)
                404 (format "Reference not found: " value);
    append_references s rest
      (set_references i (ind_references i ++ [reference_id ref]))
  end.

Fixpoint append_tags (s : Store) (values : list string) (i : Indicator)
  : Step Indicator :=
  match values with
  | [] => Continue i
  | value :: rest =>
    do tag <- first_or (first_by_value (tags s) value)
                404 (format "Tag not found: " value);
    append_tags s rest (set_tags i (ind_tags i ++ [tx_id tag]))
  end.

(** The three loops of [update_indicator]: the error response for a
    missing value is built and dropped (there is no [return]), and the
    result of the lookup, [None] included, is appended. *)
Definition valid_campaign (s : Store) (value : string) : option Z :=
  let campaign := first_campaign s value in
  let _ := match campaign with
           | None => Some (error_response 404 (format "Campaign not found: " value))
           | Some _ => None
           end in
  option_map campaign_id campaign.

Definition valid_reference (s : Store) (value : string) : option Z :=
  let ref := first_reference s value in
  let _ := match ref with
           | None => Some (error_response 404 (format "Intel reference not found: " value))
           | Some _ => None
           end in
  option_map reference_id ref.

Definition valid_tag (s : Store) (value : string) : option Z :=
  let tag := first_by_value (tags s) value in
  let _ := match tag with
           | None => Some (error_response 404 (format "Tag not found: " value))
           | Some _ => None
           end in
  option_map tx_id tag.

(** Modelled from the spec: the many-to-many links of [project.models]
    (section 3), which is not in src.  When a collection is assigned to a
    relationship of a loaded indicator, the flush deletes the association
    rows of the linked rows that the collection leaves out and inserts one
    for each entry of the collection that was not linked.  So the links
    that stay come first, as they were, and an entry that is linked already
    adds nothing, however often it is named; an entry that is new and named
    twice is inserted twice, which the association table refuses.  As in
    [relationship_set], every path from the assignment to a response has a
    flush. *)
Definition relationship_assign (linked members : list Z) : Step (list Z) :=
  let kept := filter (fun k => mem k members) linked in
  let added := filter (fun k => negb (mem k linked)) members in
  if repeats added then Finish (Unhandled IntegrityError)
  else Continue (kept ++ added).

(** [if valid: indicator.attr = valid] *)
Definition assign_if_any (valid : list (option Z)) (i : Indicator)
  (get : Indicator -> list Z) (set : Indicator -> list Z -> Indicator)
  : Step Indicator :=
  match valid with
  | [] => Continue i
  | _ =>
    do members <- relationship_set valid;
    do links <- relationship_assign (get i) members;
    Continue (set i links)
  end.

(** [request.args]: the query string, in order. *)
Definition Args := list (string * string).

(** [request.args.get(key)]; [key in request.args] is [args_get] being [Some]. *)
Fixpoint args_get (args : Args) (key : string) : option string :=
  match args with
  | [] => None
  | (k, v) :: rest => if String.eqb k key then Some v else args_get rest key
  end.

(** [str.split(',')] *)
Fixpoint split (sep : Ascii.ascii) (s : string) : list string :=
  match s with
  | EmptyString => [EmptyString]
  | String c rest =>
    if Ascii.eqb c sep then EmptyString :: split sep rest
    else match split sep rest with
         | w :: ws => String c w :: ws
         | [] => [String c EmptyString]
         end
  end.

Definition comma : Ascii.ascii := Ascii.Ascii false false true true false true false false.

(** Instants are microseconds since 0001-01-01T00:00:00, the least
    [datetime].  [datetime.date.min] is that day and [datetime.date.max]
    is 9999-12-31, 3652058 days later; against a DateTime column a date
    stands for its midnight. *)
Definition date_min : Z := 0.
Definition date_max : Z := 3652058 * 86400000000.

(** The SQL expressions [read_indicators] adds to its filter set. *)
Inductive Filter :=
| CaseSensitiveIs (arg : option bool)
| CreatedAfter (bound : Z)
| CreatedBefore (bound : Z)
| ConfidenceIdEq (k : Z)
| ImpactIdEq (k : Z)
| ModifiedAfter (bound : Z)
| ModifiedBefore (bound : Z)
| ReferencesAnySource (k : Z)
| StatusIdEq (k : Z)
| SubstringIs (arg : option bool)
| TagsAnyValue (v : string)
| TypeIdEq (k : Z)
| ValueLike (pattern : string).

(** [column.is_(arg)] on a boolean column that holds no NULL: with
    [None] the test is IS NULL, which no row passes. *)
Definition is_ (column : bool) (arg : option bool) : bool :=
  match arg with
  | Some b => Bool.eqb column b
  | None => false
  end.

(** [column == k] on a reference column. *)
Definition column_eq (column : option Z) (k : Z) : bool :=
  match column with
  | Some c => c =? k
  | None => false
  end.

(** Modelled from the spec: [Indicator.to_collection_dict] of
    [project.models], which is not in src, answers "a paginated collection
    envelope" (section 4.1).  The items of the envelope are one page of the
    query: after the rows of the pages before it, as many rows as a page
    holds, or those that are left. *)
Definition page (window : nat * nat) (rows : list Indicator) : list Indicator :=
  firstn (snd window) (skipn (fst window) rows).

Section Handlers.

(** Helpers and database operators that are not in src. *)

(** [project.api.helpers.parse_boolean] on a JSON boolean, with the
    [default] argument when the call gives one. *)
Variable parse_boolean : bool -> option bool -> bool.

(** [parse_boolean(arg, default=None)] on a query-string value. *)
Variable parse_boolean_arg : string -> option bool.

(** [dateutil.parser.parse(arg, ignoretz=...)]; [None] when it raises
    ValueError or OverflowError. *)
Variable parse : string -> bool -> option Z.

(** The database's LIKE operator: pattern, then value. *)
Variable like : string -> string -> bool.

(** The page [to_collection_dict] is asked for by the paging parameters
    of [request.args]: the number of rows before the page, and the number
    of rows of a page. *)
Variable page_of : Args -> nat * nat.

(** The database's check of the foreign keys onto [indicator.id], which
    are declared by tables of [project.models]. *)
Variable indicator_referenced : Store -> Z -> bool.

Definition eval_filter (s : Store) (i : Indicator) (f : Filter) : bool :=
  match f with
  | CaseSensitiveIs arg => is_ (case_sensitive i) arg
  | CreatedAfter bound => bound <? created_time i
  | CreatedBefore bound => created_time i <? bound
  | ConfidenceIdEq k => column_eq (_confidence_id i) k
  | ImpactIdEq k => column_eq (_impact_id i) k
  | ModifiedAfter bound => bound <? modified_time i
  | ModifiedBefore bound => modified_time i <? bound
  | ReferencesAnySource k =>
    existsb (fun r => mem (reference_id r) (ind_references i)
                      && (_intel_source_id r =? k)) (intel_references s)
  | StatusIdEq k => column_eq (_status_id i) k
  | SubstringIs arg => is_ (substring i) arg
  | TagsAnyValue v =>
    existsb (fun t => mem (tx_id t) (ind_tags i) && String.eqb (tx_value t) v)
            (tags s)
  | TypeIdEq k => _type_id i =? k
  | ValueLike pattern => like pattern (ind_value i)
  end.

(** [Indicator.query.filter] applied to the whole set: its conjunction. *)
Definition query_filter (s : Store) (filters : list Filter) : list Indicator :=
  filter (fun i => forallb (eval_filter s i) filters) (indicators s).

(** [if key in request.args: filters.add(...)] *)
Definition when_arg (args : Args) (key : string)
  (add : string -> list Filter) : list Filter :=
  match args_get args key with
  | Some v => add v
  | None => []
  end.

(** [row = q.first(); id = row.id if row else -1] *)
Definition id_or_minus_one (row : option Taxon) : Z :=
  match row with
  | Some r => tx_id r
  | None => -1
  end.

Definition or_else (parsed : option Z) (fallback : Z) : Z :=
  match parsed with
  | Some t => t
  | None => fallback
  end.

Definition build_filters (s : Store) (args : Args) : list Filter :=
  when_arg args "case_sensitive"
    (fun v => [CaseSensitiveIs (parse_boolean_arg v)])
  ++ when_arg args "created_after"
    (fun v => [CreatedAfter (or_else (parse v true) date_max)])
  ++ when_arg args "created_before"
    (fun v => [CreatedBefore (or_else (parse v true) date_min)])
  ++ when_arg args "confidence"
    (fun v => [ConfidenceIdEq
                 (id_or_minus_one (first_by_value (indicator_confidences s) v))])
  ++ when_arg args "impact"
    (fun v => [ImpactIdEq
                 (id_or_minus_one (first_by_value (indicator_impacts s) v))])
  ++ when_arg args "modified_after"
    (fun v => [ModifiedAfter (or_else (parse v false) date_max)])
  ++ when_arg args "modified_before"
    (fun v => [ModifiedBefore (or_else (parse v false) date_min)])
  ++ when_arg args "sources"
    (fun v => map (fun src => ReferencesAnySource
                      (id_or_minus_one (first_by_value (intel_sources s) src)))
                  (split comma v))
  ++ when_arg args "status"
    (fun v => [StatusIdEq
                 (id_or_minus_one (first_by_value (indicator_statuses s) v))])
  ++ when_arg args "substring"
    (fun v => [SubstringIs (parse_boolean_arg v)])
  ++ when_arg args "tags"
    (fun v => map TagsAnyValue (split comma v))
  ++ when_arg args "type"
    (fun v => [TypeIdEq
                 (id_or_minus_one (first_by_value (indicator_types s) v))])
  ++ when_arg args "value"
    (fun v => [ValueLike (String.append "%" (String.append v "%"))]).

Definition to_collection_dict (query : list Indicator) (args : Args) : Body :=
  JCollection (page (page_of args) query).

Definition read_indicators (s : Store) (args : Args) : Outcome * Store :=
  run s (
    let filters := build_filters s args in
    let data := to_collection_dict (query_filter s filters) args in
    Continue (jsonify data, s)).

Definition read_indicator (s : Store) (indicator_id : Z) : Outcome * Store :=
  run s (
    do indicator <- first_or (get_indicator s indicator_id)
                      404 "Indicator ID not found";
    Continue (jsonify (JIndicator indicator), s)).

(** [if key in data: ...] on the indicator at hand. *)
Definition when_given {A} (field : option A) (i : Indicator)
  (assign : A -> Step Indicator) : Step Indicator :=
  match field with
  | Some v => assign v
  | None => Continue i
  end.

Definition require_active (user : User) (msg : string) : Step unit :=
  if active user then Continue tt else abort 401 msg.

(** A defaulted reference of [create_indicator]: the first row by
    ascending id when the body has no name, the named row otherwise. *)
Definition default_or_named (rows : list Taxon) (name : option string)
  (msg : string) : Step (option Taxon) :=
  match name with
  | None => Continue (first_by_id rows)
  | Some v =>
    do row <- first_or (first_by_value rows v) 404 (format msg v);
    Continue (Some row)
  end.

Definition create_indicator (s : Store) (now : Z) (data : CreateData)
  : Outcome * Store :=
  run s (
    (* Verify the type. *)
    do _type <- first_or (first_by_value (indicator_types s) (c_type data))
                  404 "Indicator type not found";
    (* Verify the username. *)
    do user <- first_or (first_user s (c_username data))
                 404 (format "User username not found: " (c_username data));
    (* Verify the user is active. *)
    do _ <- require_active user "Cannot create an indicator with an inactive user";
    (* Verify this type+value does not already exist. *)
    do _ <- match first_indicator s (tx_id _type) (c_value data) with
            | Some _ => abort 409 "Indicator already exists"
            | None => Continue tt
            end;
    (* Create the indicator object. *)
    let indicator := new_indicator _type user (c_value data) now in
    (* Verify any campaign that was specified. *)
    do indicator <- when_given (c_campaigns data) indicator (fun values =>
      append_campaigns s values indicator);
    (* Verify the case-sensitive value (defaults to False). *)
    let indicator :=
      set_case_sensitive indicator
        match c_case_sensitive data with
        | Some b => parse_boolean b None
        | None => false
        end in
    (* Verify the confidence (has default). *)
    do confidence <- default_or_named (indicator_confidences s) (c_confidence data)
                       "Indicator confidence not found: ";
    let indicator := set_confidence indicator (option_map tx_id confidence) in
    (* Verify the impact (has default). *)
    do impact <- default_or_named (indicator_impacts s) (c_impact data)
                   "Indicator impact not found: ";
    let indicator := set_impact indicator (option_map tx_id impact) in
    (* Verify any reference that was specified. *)
    do indicator <- when_given (c_references data) indicator (fun values =>
      append_references s values indicator);
    (* Verify the status (has default). *)
    do status <- default_or_named (indicator_statuses s) (c_status data)
                   "Indicator status not found: ";
    let indicator := set_status indicator (option_map tx_id status) in
    (* Verify the substring value (defaults to False). *)
    let indicator :=
      set_substring indicator
        match c_substring data with
        | Some b => parse_boolean b None
        | None => false
        end in
    (* Verify any tags that were specified. *)
    do indicator <- when_given (c_tags data) indicator (fun values =>
      append_tags s values indicator);
    match commit_add_indicator s indicator with
    | inl e => Finish (Unhandled e)
    | inr (row, s') =>
      Continue (mkResponse 201 (JIndicator row)
                  (Some ("api.read_indicator"%string, ind_id row)), s')
    end).

Definition update_indicator (s : Store) (indicator_id : Z) (data : UpdateData)
  : Outcome * Store :=
  run s (
    (* Verify the ID exists. *)
    do indicator <- first_or (get_indicator s indicator_id)
                      404 "Indicator ID not found";
    (* Verify campaigns if it was specified. *)
    do indicator <- when_given (u_campaigns data) indicator (fun values =>
      assign_if_any (map (valid_campaign s) values) indicator
                    ind_campaigns set_campaigns);
    (* Verify case_sensitive if it was specified *)
    do indicator <- when_given (u_case_sensitive data) indicator (fun b =>
      Continue (set_case_sensitive indicator (parse_boolean b (Some false))));
    (* Verify confidence if it was specified *)
    do indicator <- when_given (u_confidence data) indicator (fun v =>
      do confidence <- first_or (first_by_value (indicator_confidences s) v)
                         404 (format "Indicator confidence not found: " v);
      Continue (set_confidence indicator (Some (tx_id confidence))));
    (* Verify impact if it was specified *)
    do indicator <- when_given (u_impact data) indicator (fun v =>
      do impact <- first_or (first_by_value (indicator_impacts s) v)
                     404 (format "Indicator impact not found: " v);
      Continue (set_impact indicator (Some (tx_id impact))));
    (* Verify references if it was specified. *)
    do indicator <- when_given (u_references data) indicator (fun values =>
      assign_if_any (map (valid_reference s) values) indicator
                    ind_references set_references);
    (* Verify status if it was specified *)
    do indicator <- when_given (u_status data) indicator (fun v =>
      do status <- first_or (first_by_value (indicator_statuses s) v)
                     404 (format "Indicator status not found: " v);
      Continue (set_status indicator (Some (tx_id status))));
    (* Verify substring if it was specified *)
    do indicator <- when_given (u_substring data) indicator (fun b =>
      Continue (set_substring indicator (parse_boolean b (Some false))));
    (* Verify tags if it was specified. *)
    do indicator <- when_given (u_tags data) indicator (fun values =>
      assign_if_any (map (valid_tag s) values) indicator ind_tags set_tags);
    (* Verify username if one was specified. *)
    do indicator <- when_given (u_username data) indicator (fun name =>
      do user <- first_or (first_user s name)
                   404 (format "User username not found: " name);
      do _ <- require_active user "Cannot update an indicator with an inactive user";
      Continue (set_user indicator (user_id user)));
    Continue (jsonify (JIndicator indicator),
              commit_update_indicator s indicator)).

(** [db.session.delete(indicator); db.session.commit()] *)
Definition commit_delete_indicator (s : Store) (i : Indicator) : Exn + Store :=
  if indicator_referenced s (ind_id i) then inl IntegrityError
  else inr (with_indicators s
              (filter (fun x => negb (ind_id x =? ind_id i)) (indicators s))).

Definition delete_indicator (s : Store) (indicator_id : Z) : Outcome * Store :=
  run s (
    do indicator <- first_or (get_indicator s indicator_id)
                      404 "Indicator ID not found";
    match commit_delete_indicator s indicator with
    | inr s' => Continue (mkResponse 204 NoBody None, s')
    | inl IntegrityError =>
      (* db.session.rollback() *)
      abort 409 "Unable to delete indicator due to foreign key constraints"
    | inl e => Finish (Unhandled e)
    end).

End Handlers.

(** ** A small database and some requests, for the examples *)

Open Scope string_scope.

Definition empty_store : Store := mkStore [] [] [] [] [] [] [] [] [] [].

Definition demo : Store :=
  mkStore
    [mkTaxon 1 "IP"; mkTaxon 2 "URI"]
    [mkTaxon 2 "HIGH"; mkTaxon 1 "LOW"]
    [mkTaxon 1 "LOW"]
    [mkTaxon 1 "NEW"; mkTaxon 2 "ANALYZED"]
    [mkTaxon 1 "phish"; mkTaxon 2 "apt"]
    [mkTaxon 1 "OSINT"]
    [mkCampaign 1 "LOLcats"]
    [mkIntelReference 1 "http://blog.example/lolcats" 1]
    [mkUser 1 "analyst" true; mkUser 2 "retired" false]
    [mkIndicator 1 1 1 "127.0.0.1" [1] false (Some 1) (Some 1) [1] (Some 1)
                 false [1] 1000 1000;
     mkIndicator 2 2 1 "http://example.test/a" [] true (Some 2) (Some 1) []
                 (Some 1) false [] 2000 2000].

(** [demo] with the second indicator moved to the status ANALYZED. *)
Definition demo_analyzed : Store :=
  with_indicators demo
    [mkIndicator 1 1 1 "127.0.0.1" [1] false (Some 1) (Some 1) [1] (Some 1)
                 false [1] 1000 1000;
     mkIndicator 2 2 1 "http://example.test/a" [] true (Some 2) (Some 1) []
                 (Some 2) false [] 2000 2000].

Definition tagged_create : CreateData :=
  mkCreateData (Some ["LOLcats"]) None None None None None (Some true)
               (Some ["apt"; "phish"]) "analyst" "IP" "10.0.0.9".


Definition full_update : UpdateData :=
  mkUpdateData (Some ["LOLcats"]) (Some true) (Some "HIGH") None None
               (Some "ANALYZED") None (Some ["apt"; "phish"; "phish"])
               (Some "analyst").

Definition late_failure : UpdateData :=
  mkUpdateData None None (Some "HIGH") None None (Some "nope") None None None.

Definition no_update : UpdateData :=
  mkUpdateData None None None None None None None None None.

Definition only_campaigns (names : list string) : UpdateData :=
  mkUpdateData (Some names) None None None None None None None None.

Definition only_confidence (name : string) : UpdateData :=
  mkUpdateData None None (Some name) None None None None None None.

Definition only_references (names : list string) : UpdateData :=
  mkUpdateData None None None None (Some names) None None None None.

Definition only_tags (names : list string) : UpdateData :=
  mkUpdateData None None None None None None None (Some names) None.

Definition minimal_create (username type value : string) : CreateData :=
  mkCreateData None None None None None None None None username type value.

(** Stand-ins for the helpers that are not in src. *)
Definition demo_parse_boolean (b : bool) (default : option bool) : bool := b.

Definition demo_parse_boolean_arg (v : string) : option bool :=
  if String.eqb v "true" then Some true
  else if String.eqb v "false" then Some false
  else None.

Definition demo_parse (v : string) (ignoretz : bool) : option Z :=
  if String.eqb v "0001-01-01" then Some 0 else None.

Definition demo_like (pattern value : string) : bool :=
  String.eqb pattern (String.append "%" (String.append value "%")).

Definition demo_referenced (s : Store) (i : Z) : bool := Z.eqb i 1.

(** Pages of ten rows; the first one unless the second is asked for. *)
Definition demo_page_of (args : Args) : nat * nat :=
  match args_get args "page" with
  | Some "2" => (10%nat, 10%nat)
  | _ => (0%nat, 10%nat)
  end.

Close Scope string_scope.

(** ** What the properties speak of *)

(** Uniqueness of a table's primary keys and of its natural keys. *)
Definition primary_key (rows : list Taxon) : Prop := NoDup (map tx_id rows).

Definition unique_values (rows : list Taxon) : Prop := NoDup (map tx_value rows).

Definition type_value (i : Indicator) : Z * string := (_type_id i, ind_value i).

Definition unique_type_value (rows : list Indicator) : Prop :=
  NoDup (map type_value rows).

(** [row] has the least primary key of [rows]. *)
Definition lowest_id (row : Taxon) (rows : list Taxon) : Prop :=
  In row rows /\ forall r, In r rows -> tx_id row <= tx_id r.

(** Primary keys are handed out from 1 upwards, and timestamps are
    readings of the clock, which date.min and date.max enclose. *)
Definition positive_ids (rows : list Taxon) : Prop :=
  forall r, In r rows -> 0 < tx_id r.

Definition positive_ref (k : option Z) : Prop :=
  forall v, k = Some v -> 0 < v.

Definition in_range (t : Z) : Prop := date_min <= t <= date_max.

Definition primary_keys_positive (s : Store) : Prop :=
  positive_ids (indicator_types s) /\ positive_ids (indicator_confidences s)
  /\ positive_ids (indicator_impacts s) /\ positive_ids (indicator_statuses s).

Definition keys_positive (i : Indicator) : Prop :=
  0 < _type_id i /\ positive_ref (_confidence_id i)
  /\ positive_ref (_impact_id i) /\ positive_ref (_status_id i).

Definition foreign_keys_positive (s : Store) : Prop :=
  (forall i, In i (indicators s) -> keys_positive i)
  /\ (forall r, In r (intel_references s) -> 0 < _intel_source_id r).

Definition times_ok (i : Indicator) : Prop :=
  in_range (created_time i) /\ in_range (modified_time i).

Definition times_in_range (s : Store) : Prop :=
  forall i, In i (indicators s) -> times_ok i.

Definition store_ok (s : Store) : Prop :=
  primary_keys_positive s /\ foreign_keys_positive s /\ times_in_range s.

(** The fields a PUT /indicators/<id> can name. *)
Inductive Field :=
| FCampaigns | FCaseSensitive | FConfidence | FImpact | FReferences
| FStatus | FSubstring | FTags | FUsername.

Definition given {A} (field : option A) : bool :=
  match field with
  | Some _ => true
  | None => false
  end.

Definition supplied (data : UpdateData) (f : Field) : bool :=
  match f with
  | FCampaigns => given (u_campaigns data)
  | FCaseSensitive => given (u_case_sensitive data)
  | FConfidence => given (u_confidence data)
  | FImpact => given (u_impact data)
  | FReferences => given (u_references data)
  | FStatus => given (u_status data)
  | FSubstring => given (u_substring data)
  | FTags => given (u_tags data)
  | FUsername => given (u_username data)
  end.

(** [new] has the value of [old] in every field outside [touched]; the
    type, the value, the primary key and the two timestamps are no field
    of the body. *)
Definition unchanged_outside (touched : Field -> bool) (old new : Indicator)
  : Prop :=
  ind_id new = ind_id old /\ _type_id new = _type_id old
  /\ ind_value new = ind_value old /\ created_time new = created_time old
  /\ modified_time new = modified_time old
  /\ (touched FCampaigns = false -> ind_campaigns new = ind_campaigns old)
  /\ (touched FCaseSensitive = false -> case_sensitive new = case_sensitive old)
  /\ (touched FConfidence = false -> _confidence_id new = _confidence_id old)
  /\ (touched FImpact = false -> _impact_id new = _impact_id old)
  /\ (touched FReferences = false -> ind_references new = ind_references old)
  /\ (touched FStatus = false -> _status_id new = _status_id old)
  /\ (touched FSubstring = false -> substring new = substring old)
  /\ (touched FTags = false -> ind_tags new = ind_tags old)
  /\ (touched FUsername = false -> _user_id new = _user_id old).

(** The other tables of two stores are the same. *)
Definition same_taxonomy (s s' : Store) : Prop :=
  indicator_types s' = indicator_types s
  /\ indicator_confidences s' = indicator_confidences s
  /\ indicator_impacts s' = indicator_impacts s
  /\ indicator_statuses s' = indicator_statuses s
  /\ tags s' = tags s /\ intel_sources s' = intel_sources s
  /\ campaigns s' = campaigns s /\ intel_references s' = intel_references s
  /\ users s' = users s.

(** Ways a POST /indicators is turned down. *)
Definition name_unknown {A} (lookup : string -> option A)
  (field : option string) : Prop :=
  exists v, field = Some v /\ lookup v = None.

Definition names_unknown {A} (lookup : string -> option A)
  (field : option (list string)) : Prop :=
  exists vs v, field = Some vs /\ In v vs /\ lookup v = None.

Definition unresolved (s : Store) (data : CreateData) : Prop :=
  first_by_value (indicator_types s) (c_type data) = None
  \/ first_user s (c_username data) = None
  \/ names_unknown (first_campaign s) (c_campaigns data)
  \/ name_unknown (first_by_value (indicator_confidences s)) (c_confidence data)
  \/ name_unknown (first_by_value (indicator_impacts s)) (c_impact data)
  \/ names_unknown (first_reference s) (c_references data)
  \/ name_unknown (first_by_value (indicator_statuses s)) (c_status data)
  \/ names_unknown (first_by_value (tags s)) (c_tags data).

Definition inactive_user (s : Store) (data : CreateData) : Prop :=
  exists u, first_user s (c_username data) = Some u /\ active u = false.

(** The (type, value) pair of the body is that of a stored indicator. *)
Definition duplicate (s : Store) (data : CreateData) : Prop :=
  exists t i, first_by_value (indicator_types s) (c_type data) = Some t
    /\ In i (indicators s) /\ _type_id i = tx_id t
    /\ ind_value i = c_value data.

(** Query parameters of GET /indicators that name nothing. *)
Definition unknown_arg (rows : list Taxon) (args : Args) (key : string) : Prop :=
  exists v, args_get args key = Some v /\ first_by_value rows v = None.

Definition unknown_source (s : Store) (args : Args) : Prop :=
  exists v src, args_get args "sources"%string = Some v
    /\ In src (split comma v) /\ first_by_value (intel_sources s) src = None.

Definition unparseable (parse : string -> bool -> option Z) (args : Args)
  (key : string) (ignoretz : bool) : Prop :=
  exists v, args_get args key = Some v /\ parse v ignoretz = None.

(** What [create_indicator] stores when it succeeds. *)
Definition rejected (s : Store) (data : CreateData) : Prop :=
  unresolved s data \/ inactive_user s data \/ duplicate s data.

Definition chosen (rows : list Taxon) (name : option string) (ref : option Z)
  : Prop :=
  exists r, ref = Some (tx_id r) /\ In r rows
    /\ match name with
       | None => first_by_id rows = Some r
       | Some v => first_by_value rows v = Some r
       end.

Definition created (s : Store) (now : Z) (data : CreateData) (row : Indicator)
  : Prop :=
  (exists t, first_by_value (indicator_types s) (c_type data) = Some t
     /\ first_indicator s (tx_id t) (c_value data) = None
     /\ _type_id row = tx_id t)
  /\ ind_value row = c_value data
  /\ ind_id row = next_id (map ind_id (indicators s))
  /\ created_time row = now /\ modified_time row = now
  /\ chosen (indicator_confidences s) (c_confidence data) (_confidence_id row)
  /\ chosen (indicator_impacts s) (c_impact data) (_impact_id row)
  /\ chosen (indicator_statuses s) (c_status data) (_status_id row).

(** ** What the further properties speak of *)

(** The ids of the rows a list of names resolves to, in the order of the
    names, when every name has a row. *)
Fixpoint resolve {A} (lookup : string -> option A) (key : A -> Z)
  (values : list string) : option (list Z) :=
  match values with
  | [] => Some []
  | v :: rest =>
    match lookup v, resolve lookup key rest with
    | Some row, Some ids => Some (key row :: ids)
    | _, _ => None
    end
  end.

(** The members a list field of a POST body names: none when it is
    absent. *)
Definition named_members {A} (lookup : string -> option A) (key : A -> Z)
  (field : option (list string)) : option (list Z) :=
  match field with
  | None => Some []
  | Some values => resolve lookup key values
  end.

(** The row a defaulted field of a POST body selects. *)
Definition named_or_default (rows : list Taxon) (name : option string)
  : option Taxon :=
  match name with
  | None => first_by_id rows
  | Some v => first_by_value rows v
  end.

(** A flag of a POST body. *)
Definition named_flag (parse_boolean : bool -> option bool -> bool)
  (field : option bool) : bool :=
  match field with
  | Some b => parse_boolean b None
  | None => false
  end.

(** The row a POST /indicators stores, when it stores one. *)
Definition planned (parse_boolean : bool -> option bool -> bool) (s : Store)
  (now : Z) (data : CreateData) : option Indicator :=
  match first_by_value (indicator_types s) (c_type data),
        first_user s (c_username data) with
  | Some t, Some u =>
    if active u then
      match first_indicator s (tx_id t) (c_value data) with
      | Some _ => None
      | None =>
        match named_members (first_campaign s) campaign_id (c_campaigns data),
              named_or_default (indicator_confidences s) (c_confidence data),
              named_or_default (indicator_impacts s) (c_impact data),
              named_members (first_reference s) reference_id (c_references data),
              named_or_default (indicator_statuses s) (c_status data),
              named_members (first_by_value (tags s)) tx_id (c_tags data) with
        | Some cs, Some conf, Some imp, Some rs, Some st, Some ts =>
          if repeats cs || repeats rs || repeats ts then None
          else
            Some (mkIndicator (next_id (map ind_id (indicators s)))
                    (tx_id t) (user_id u) (c_value data) cs
                    (named_flag parse_boolean (c_case_sensitive data))
                    (Some (tx_id conf)) (Some (tx_id imp)) rs (Some (tx_id st))
                    (named_flag parse_boolean (c_substring data)) ts now now)
        | _, _, _, _, _, _ => None
        end
      end
    else None
  | _, _ => None
  end.

(** The links of a relationship that had the links [old] once [members]
    is assigned to it: those of [old] that are in [members], then the
    members that are new; none when a new member is there twice. *)
Definition relinked (old members : list Z) : option (list Z) :=
  let added := filter (fun k => negb (mem k old)) members in
  if repeats added then None
  else Some (filter (fun k => mem k members) old ++ added).

(** What a field of a PUT body leaves on the indicator: the old value
    when the field is absent (or, for a list, empty). *)
Definition replaced_members {A} (lookup : string -> option A) (key : A -> Z)
  (field : option (list string)) (old : list Z) : option (list Z) :=
  match field with
  | None => Some old
  | Some [] => Some old
  | Some values =>
    match resolve lookup key values with
    | Some members => relinked old members
    | None => None
    end
  end.






Definition replaced_ref (rows : list Taxon) (field : option string)
  (old : option Z) : option (option Z) :=
  match field with
  | None => Some old
  | Some v => option_map (fun r => Some (tx_id r)) (first_by_value rows v)
  end.

Definition replaced_user (s : Store) (field : option string) (old : Z)
  : option Z :=
  match field with
  | None => Some old
  | Some name =>
    match first_user s name with
    | Some u => if active u then Some (user_id u) else None
    | None => None
    end
  end.

Definition replaced_flag (parse_boolean : bool -> option bool -> bool)
  (field : option bool) (old : bool) : bool :=
  match field with
  | Some b => parse_boolean b (Some false)
  | None => old
  end.

(** The indicator a PUT /indicators/<id> commits, when it commits. *)
Definition updated (parse_boolean : bool -> option bool -> bool) (s : Store)
  (data : UpdateData) (ind : Indicator) : option Indicator :=
  match replaced_members (first_campaign s) campaign_id (u_campaigns data)
          (ind_campaigns ind),
        replaced_ref (indicator_confidences s) (u_confidence data)
          (_confidence_id ind),
        replaced_ref (indicator_impacts s) (u_impact data) (_impact_id ind),
        replaced_members (first_reference s) reference_id (u_references data)
          (ind_references ind),
        replaced_ref (indicator_statuses s) (u_status data) (_status_id ind),
        replaced_members (first_by_value (tags s)) tx_id (u_tags data)
          (ind_tags ind),
        replaced_user s (u_username data) (_user_id ind) with
  | Some cs, Some conf, Some imp, Some rs, Some st, Some ts, Some u =>
    Some (mkIndicator (ind_id ind) (_type_id ind) u (ind_value ind) cs
            (replaced_flag parse_boolean (u_case_sensitive data)
               (case_sensitive ind))
            conf imp rs st
            (replaced_flag parse_boolean (u_substring data) (substring ind))
            ts (created_time ind) (modified_time ind))
  | _, _, _, _, _, _, _ => None
  end.

(** The primary key of the indicator table. *)
Definition indicator_key (rows : list Indicator) : Prop :=
  NoDup (map ind_id rows).

(** Every reference of every stored indicator names a stored row. *)
Definition known (ids : list Z) (ref : option Z) : Prop :=
  forall k, ref = Some k -> In k ids.

Definition row_resolves (s : Store) (i : Indicator) : Prop :=
  In (_type_id i) (map tx_id (indicator_types s))
  /\ In (_user_id i) (map user_id (users s))
  /\ known (map tx_id (indicator_confidences s)) (_confidence_id i)
  /\ known (map tx_id (indicator_impacts s)) (_impact_id i)
  /\ known (map tx_id (indicator_statuses s)) (_status_id i)
  /\ incl (ind_campaigns i) (map campaign_id (campaigns s))
  /\ incl (ind_references i) (map reference_id (intel_references s))
  /\ incl (ind_tags i) (map tx_id (tags s)).

Definition referential_integrity (s : Store) : Prop :=
  forall i, In i (indicators s) -> row_resolves s i.

(** [sep.join(parts)] *)
Fixpoint join (sep : Ascii.ascii) (parts : list string) : string :=
  match parts with
  | [] => EmptyString
  | [w] => w
  | w :: rest => String.append w (String sep (join sep rest))
  end.

(** The keys [read_indicators] looks for in the query string. *)
Definition filter_keys : list string :=
  ["case_sensitive"; "created_after"; "created_before"; "confidence";
   "impact"; "modified_after"; "modified_before"; "sources"; "status";
   "substring"; "tags"; "type"; "value"]%string.

(** * Properties *)

(** ** Queries over a table *)

Lemma find_present {A} (p : A -> bool) (l : list A) (x : A) :
  In x l -> p x = true -> exists y, find p l = Some y.
Proof.
  induction l as [|a l IH]; simpl; intros Hin Hp; [contradiction|].
  destruct (p a) eqn:Ea; [eauto|].
  destruct Hin as [->|Hin]; [congruence|auto].
Qed.

Lemma find_absent {A} (p : A -> bool) (l : list A) (x : A) :
  find p l = None -> In x l -> p x = false.
Proof. intros Hf Hin. exact (find_none p l Hf x Hin). Qed.

Lemma get_taxon_some (rows : list Taxon) (i : Z) (row : Taxon) :
  get_taxon rows i = Some row -> In row rows /\ tx_id row = i.
Proof.
  unfold get_taxon; intros H; apply find_some in H.
  destruct H as [Hin Heq]; split; [assumption|now apply Z.eqb_eq].
Qed.

Lemma get_indicator_some (s : Store) (i : Z) (ind : Indicator) :
  get_indicator s i = Some ind -> In ind (indicators s) /\ ind_id ind = i.
Proof.
  unfold get_indicator; intros H; apply find_some in H.
  destruct H as [Hin Heq]; split; [assumption|now apply Z.eqb_eq].
Qed.

Lemma first_by_value_some (rows : list Taxon) (v : string) (row : Taxon) :
  first_by_value rows v = Some row -> In row rows /\ tx_value row = v.
Proof.
  unfold first_by_value, by_value; intros H; apply find_some in H.
  destruct H as [Hin Heq]; split; [assumption|now apply String.eqb_eq].
Qed.

Lemma first_by_value_none (rows : list Taxon) (v : string) :
  first_by_value rows v = None -> ~ In v (map tx_value rows).
Proof.
  unfold first_by_value; intros H Hin.
  apply in_map_iff in Hin; destruct Hin as [r [Hv Hr]].
  pose proof (find_absent _ _ r H Hr) as Hp.
  unfold by_value in Hp; rewrite Hv, String.eqb_refl in Hp; discriminate.
Qed.

Lemma first_by_value_own (rows : list Taxon) (row : Taxon) :
  In row rows -> exists y, first_by_value rows (tx_value row) = Some y.
Proof.
  intros Hin; apply (find_present _ _ row Hin).
  unfold by_value; apply String.eqb_refl.
Qed.

Lemma find_after_delete {A} (key : A -> Z) (l : list A) (i : Z) :
  find (fun x => key x =? i) (filter (fun x => negb (key x =? i)) l) = None.
Proof.
  induction l as [|a l IH]; simpl; [reflexivity|].
  destruct (key a =? i) eqn:E; simpl; [assumption|now rewrite E].
Qed.

Lemma find_other_after_delete {A} (key : A -> Z) (l : list A) (i j : Z) :
  j <> i ->
  find (fun x => key x =? j) (filter (fun x => negb (key x =? i)) l)
  = find (fun x => key x =? j) l.
Proof.
  intros Hne; induction l as [|a l IH]; simpl; [reflexivity|].
  destruct (key a =? i) eqn:E; simpl.
  - apply Z.eqb_eq in E.
    destruct (key a =? j) eqn:E'; [apply Z.eqb_eq in E'; congruence|assumption].
  - now rewrite IH.
Qed.

Lemma find_after_replace {A} (key : A -> Z) (l : list A) (i : Z) (old new : A) :
  find (fun x => key x =? i) l = Some old -> key new = i ->
  find (fun x => key x =? i) (map (fun x => if key x =? i then new else x) l)
  = Some new.
Proof.
  intros Hf Hk; induction l as [|a l IH]; simpl in *; [discriminate|].
  destruct (key a =? i) eqn:E.
  - now rewrite Hk, Z.eqb_refl.
  - rewrite E; auto.
Qed.

Lemma find_other_after_replace {A} (key : A -> Z) (l : list A) (i j : Z) (new : A) :
  key new = i -> j <> i ->
  find (fun x => key x =? j) (map (fun x => if key x =? i then new else x) l)
  = find (fun x => key x =? j) l.
Proof.
  intros Hk Hne; induction l as [|a l IH]; simpl; [reflexivity|].
  destruct (key a =? i) eqn:E.
  - apply Z.eqb_eq in E.
    replace (key new =? j) with false by (symmetry; apply Z.eqb_neq; congruence).
    replace (key a =? j) with false by (symmetry; apply Z.eqb_neq; congruence).
    assumption.
  - now rewrite IH.
Qed.

(** ** Primary keys *)

Lemma next_id_above (ids : list Z) (k : Z) : In k ids -> k < next_id ids.
Proof.
  unfold next_id; induction ids as [|a ids IH]; simpl; [contradiction|].
  intros [->|Hin]; [lia|]. specialize (IH Hin). lia.
Qed.

Lemma next_id_positive (ids : list Z) : 0 < next_id ids.
Proof.
  unfold next_id; induction ids as [|a ids IH]; simpl; lia.
Qed.

Lemma next_id_fresh (ids : list Z) : ~ In (next_id ids) ids.
Proof. intros Hin; apply next_id_above in Hin; lia. Qed.

Lemma NoDup_snoc {A} (l : list A) (x : A) :
  NoDup l -> ~ In x l -> NoDup (l ++ [x]).
Proof.
  intros Hl Hx; induction Hl as [|a l Ha Hl IH]; simpl.
  - constructor; [intros []|constructor].
  - constructor.
    + rewrite in_app_iff; simpl; intros [H|[H|[]]]; [auto|].
      apply Hx; left; congruence.
    + apply IH; intros H; apply Hx; now right.
Qed.

(** ** Taxonomy tables: indicator_status *)

Lemma replace_absent (rows : list Taxon) (i : Z) (new : Taxon) :
  ~ In i (map tx_id rows) ->
  map (fun x => if tx_id x =? i then new else x) rows = rows.
Proof.
  induction rows as [|a l IH]; simpl; intros Hni; [reflexivity|].
  destruct (tx_id a =? i) eqn:E.
  - apply Z.eqb_eq in E; exfalso; apply Hni; now left.
  - f_equal; apply IH; intros H; apply Hni; now right.
Qed.

Lemma replace_values (rows : list Taxon) (i : Z) (new : Taxon) (x : string) :
  In x (map tx_value (map (fun r => if tx_id r =? i then new else r) rows)) ->
  x = tx_value new \/ In x (map tx_value rows).
Proof.
  induction rows as [|a l IH]; simpl; [tauto|].
  intros [H|H].
  - destruct (tx_id a =? i); [left|right; left]; congruence.
  - destruct (IH H); tauto.
Qed.

Lemma replace_ids (rows : list Taxon) (i : Z) (v : string) :
  map tx_id (map (fun r => if tx_id r =? i then mkTaxon i v else r) rows)
  = map tx_id rows.
Proof.
  induction rows as [|a l IH]; simpl; [reflexivity|].
  rewrite IH; f_equal.
  destruct (tx_id a =? i) eqn:E; [apply Z.eqb_eq in E; now simpl|reflexivity].
Qed.

Lemma replace_unique (rows : list Taxon) (i : Z) (v : string) :
  primary_key rows -> unique_values rows -> ~ In v (map tx_value rows) ->
  unique_values (map (fun r => if tx_id r =? i then mkTaxon i v else r) rows).
Proof.
  unfold primary_key, unique_values.
  induction rows as [|a l IH]; simpl; intros Hpk Hu Hv; [constructor|].
  inversion Hpk as [|? ? Hida Hpk']; inversion Hu as [|? ? Hva Hu']; subst.
  destruct (tx_id a =? i) eqn:E.
  - apply Z.eqb_eq in E; subst i.
    rewrite replace_absent by assumption.
    constructor; [tauto|assumption].
  - constructor; [|apply IH; tauto].
    intros Hin; apply replace_values in Hin; simpl in Hin.
    destruct Hin as [Hin|Hin]; [apply Hv; left; congruence|contradiction].
Qed.

Lemma delete_keeps_key (rows : list Taxon) (i : Z) :
  primary_key rows ->
  primary_key (filter (fun x => negb (tx_id x =? i)) rows).
Proof.
  unfold primary_key; intros Hkey.
  induction rows as [|row rest IH]; simpl; [constructor|].
  apply NoDup_cons_iff in Hkey; destruct Hkey as [Hfresh Hrest].
  destruct (tx_id row =? i); simpl; [now apply IH|].
  constructor; [|now apply IH].
  rewrite in_map_iff; intros [x [Hx Hin]].
  apply filter_In in Hin; apply Hfresh.
  rewrite <- Hx; apply in_map; tauto.
Qed.

(** X24. The primary key of the status table stays a key under the three
    mutating routes. *)
Lemma status_primary_key_kept (s : Store) (i : Z) (data : ValueData) :
  primary_key (indicator_statuses s) ->
  primary_key (indicator_statuses (snd (create_indicator_status s data)))
  /\ primary_key (indicator_statuses (snd (update_indicator_status s i data)))
  /\ primary_key (indicator_statuses (snd (delete_indicator_status s i))).
Proof.
  intros Hpk; unfold primary_key in *; repeat split.
  - unfold create_indicator_status.
    destruct (first_by_value _ _); simpl; [assumption|].
    rewrite map_app; simpl; apply NoDup_snoc; [assumption|apply next_id_fresh].
  - unfold update_indicator_status.
    destruct (get_taxon _ i) as [row|]; simpl; [|assumption].
    destruct (first_by_value _ _); simpl; [assumption|].
    now rewrite replace_ids.
  - unfold delete_indicator_status, commit_delete_status.
    destruct (get_taxon _ i) as [row|]; simpl; [|assumption].
    destruct (status_referenced s (tx_id row)); simpl; [assumption|].
    now apply delete_keeps_key.
Qed.

(** C9. A PUT /indicators/status/<id> on an existing row that supplies the
    row's own current value is answered 409: the duplicate check finds the
    row itself, and the row stays as it was. *)
Theorem update_status_own_value_conflict (s : Store) (i : Z) (row : Taxon) :
  get_taxon (indicator_statuses s) i = Some row ->
  update_indicator_status s i (mkValueData (tx_value row))
  = (Responded (error_response 409 "Indicator status already exists"), s)
  /\ get_taxon
       (indicator_statuses
          (snd (update_indicator_status s i (mkValueData (tx_value row))))) i
     = Some row.
Proof.
  intros Hget.
  assert (Hres : update_indicator_status s i (mkValueData (tx_value row))
                 = (Responded (error_response 409 "Indicator status already exists"), s)).
  { unfold update_indicator_status; rewrite Hget; simpl.
    destruct (get_taxon_some _ _ _ Hget) as [Hin _].
    destruct (first_by_value_own _ _ Hin) as [y Hy].
    now rewrite Hy. }
  split; [assumption|now rewrite Hres].
Qed.

(** C8, as the code has it.  A POST /indicators/status whose value is in
    the table is answered 409; a PUT whose value is in the table is
    answered 409 when the id names a row and 404 when it does not; in all
    three cases the store is unchanged.  Under any POST or PUT a table
    with unique values keeps them unique. *)
Theorem status_values_stay_unique (s : Store) (i : Z) (data : ValueData) :
  (forall existing,
      first_by_value (indicator_statuses s) (v_value data) = Some existing ->
      create_indicator_status s data
      = (Responded (error_response 409 "Indicator status already exists"), s)
      /\ (forall row, get_taxon (indicator_statuses s) i = Some row ->
            update_indicator_status s i data
            = (Responded (error_response 409 "Indicator status already exists"), s))
      /\ (get_taxon (indicator_statuses s) i = None ->
            update_indicator_status s i data
            = (Responded (error_response 404 "Indicator status ID not found"), s)))
  /\ (primary_key (indicator_statuses s) ->
      unique_values (indicator_statuses s) ->
      unique_values (indicator_statuses (snd (create_indicator_status s data)))
      /\ unique_values
           (indicator_statuses (snd (update_indicator_status s i data)))).
Proof.
  split.
  - intros existing Hex; repeat split.
    + unfold create_indicator_status; now rewrite Hex.
    + intros row Hrow; unfold update_indicator_status.
      rewrite Hrow; simpl; now rewrite Hex.
    + intros Hrow; unfold update_indicator_status; now rewrite Hrow.
  - intros Hpk Hu; split.
    + unfold create_indicator_status.
      destruct (first_by_value _ _) eqn:E; simpl; [assumption|].
      unfold unique_values in *; rewrite map_app; simpl.
      apply NoDup_snoc; [assumption|now apply first_by_value_none].
    + unfold update_indicator_status.
      destruct (get_taxon _ i) as [row|] eqn:Er; simpl; [|assumption].
      destruct (first_by_value _ _) eqn:E; simpl; [assumption|].
      apply get_taxon_some in Er; destruct Er as [_ <-].
      apply replace_unique; [assumption|assumption|].
      now apply first_by_value_none.
Qed.

(** ** The default rows of [create_indicator] *)

Lemma insert_by_id_in (r x : Taxon) (rows : list Taxon) :
  In x (insert_by_id r rows) <-> x = r \/ In x rows.
Proof.
  induction rows as [|a l IH]; simpl; [intuition|].
  destruct (tx_id r <? tx_id a); simpl; [intuition|].
  rewrite IH; intuition.
Qed.

Lemma order_by_id_in (x : Taxon) (rows : list Taxon) :
  In x (order_by_id rows) <-> In x rows.
Proof.
  induction rows as [|a l IH]; simpl; [tauto|].
  rewrite insert_by_id_in, IH; intuition.
Qed.

Lemma insert_by_id_head (r : Taxon) (rows : list Taxon) (h : Taxon) :
  (forall x, hd_error rows = Some x -> lowest_id x rows) ->
  hd_error (insert_by_id r rows) = Some h ->
  lowest_id h (insert_by_id r rows).
Proof.
  intros Hl Hh; split.
  - destruct (insert_by_id r rows); simpl in Hh; [discriminate|].
    injection Hh as ->; now left.
  - intros x Hx; apply insert_by_id_in in Hx.
    destruct rows as [|a l]; simpl in *.
    + injection Hh as <-; destruct Hx as [->|[]]; lia.
    + destruct (Hl a eq_refl) as [_ Hlow].
      destruct (tx_id r <? tx_id a) eqn:E; simpl in Hh; injection Hh as <-.
      * apply Z.ltb_lt in E.
        destruct Hx as [->|Hx]; [lia|]. specialize (Hlow x Hx); lia.
      * apply Z.ltb_ge in E.
        destruct Hx as [->|Hx]; [lia|]. now apply Hlow.
Qed.

Lemma order_by_id_head (rows : list Taxon) (h : Taxon) :
  hd_error (order_by_id rows) = Some h -> lowest_id h (order_by_id rows).
Proof.
  revert h; induction rows as [|a l IH]; simpl; intros h Hh; [discriminate|].
  now apply insert_by_id_head.
Qed.

Lemma first_by_id_lowest (rows : list Taxon) (r : Taxon) :
  first_by_id rows = Some r -> lowest_id r rows.
Proof.
  unfold first_by_id; intros H.
  assert (Hh : hd_error (order_by_id rows) = Some r)
    by (destruct (order_by_id rows); [discriminate|exact H]).
  destruct (order_by_id_head _ _ Hh) as [Hin Hlow]; split.
  - now apply order_by_id_in.
  - intros x Hx; apply Hlow; now apply order_by_id_in.
Qed.

Lemma first_by_id_nonempty (rows : list Taxon) :
  rows <> [] -> first_by_id rows <> None.
Proof.
  destruct rows as [|a l]; [congruence|intros _].
  unfold first_by_id; simpl.
  destruct (insert_by_id a (order_by_id l)) eqn:E; [|discriminate].
  assert (H : In a (insert_by_id a (order_by_id l)))
    by (apply insert_by_id_in; now left).
  rewrite E in H; destruct H.
Qed.

(** ** The steps of [create_indicator] *)

Lemma set_campaigns_same (i : Indicator) :
  set_campaigns i (ind_campaigns i ++ []) = i.
Proof. destruct i; unfold set_campaigns; simpl; now rewrite app_nil_r. Qed.

Lemma set_references_same (i : Indicator) :
  set_references i (ind_references i ++ []) = i.
Proof. destruct i; unfold set_references; simpl; now rewrite app_nil_r. Qed.

Lemma set_tags_same (i : Indicator) :
  set_tags i (ind_tags i ++ []) = i.
Proof. destruct i; unfold set_tags; simpl; now rewrite app_nil_r. Qed.

Lemma append_campaigns_inv (s : Store) (values : list string) (i : Indicator) :
  (exists ids, append_campaigns s values i
               = Continue (set_campaigns i (ind_campaigns i ++ ids))
     /\ forall v, In v values -> first_campaign s v <> None)
  \/ (exists v, In v values /\ first_campaign s v = None
        /\ append_campaigns s values i
           = abort 404 (format "Campaign not found: " v)).
Proof.
  revert i; induction values as [|v vs IH]; intros i; simpl.
  - left; exists []; rewrite set_campaigns_same; split; [reflexivity|tauto].
  - destruct (first_campaign s v) as [c|] eqn:E; simpl.
    + destruct (IH (set_campaigns i (ind_campaigns i ++ [campaign_id c])))
        as [[ids [-> Hall]]|[w [Hin [Hw ->]]]].
      * left; exists (campaign_id c :: ids); split.
        -- simpl; now rewrite <- app_assoc.
        -- intros x [<-|Hx]; [congruence|auto].
      * right; exists w; auto.
    + right; exists v; auto.
Qed.

Lemma append_references_inv (s : Store) (values : list string) (i : Indicator) :
  (exists ids, append_references s values i
               = Continue (set_references i (ind_references i ++ ids))
     /\ forall v, In v values -> first_reference s v <> None)
  \/ (exists v, In v values /\ first_reference s v = None
        /\ append_references s values i
           = abort 404 (format "Reference not found: " v)).
Proof.
  revert i; induction values as [|v vs IH]; intros i; simpl.
  - left; exists []; rewrite set_references_same; split; [reflexivity|tauto].
  - destruct (first_reference s v) as [c|] eqn:E; simpl.
    + destruct (IH (set_references i (ind_references i ++ [reference_id c])))
        as [[ids [-> Hall]]|[w [Hin [Hw ->]]]].
      * left; exists (reference_id c :: ids); split.
        -- simpl; now rewrite <- app_assoc.
        -- intros x [<-|Hx]; [congruence|auto].
      * right; exists w; auto.
    + right; exists v; auto.
Qed.

Lemma append_tags_inv (s : Store) (values : list string) (i : Indicator) :
  (exists ids, append_tags s values i
               = Continue (set_tags i (ind_tags i ++ ids))
     /\ forall v, In v values -> first_by_value (tags s) v <> None)
  \/ (exists v, In v values /\ first_by_value (tags s) v = None
        /\ append_tags s values i = abort 404 (format "Tag not found: " v)).
Proof.
  revert i; induction values as [|v vs IH]; intros i; simpl.
  - left; exists []; rewrite set_tags_same; split; [reflexivity|tauto].
  - destruct (first_by_value (tags s) v) as [c|] eqn:E; simpl.
    + destruct (IH (set_tags i (ind_tags i ++ [tx_id c])))
        as [[ids [-> Hall]]|[w [Hin [Hw ->]]]].
      * left; exists (tx_id c :: ids); split.
        -- simpl; now rewrite <- app_assoc.
        -- intros x [<-|Hx]; [congruence|auto].
      * right; exists w; auto.
    + right; exists v; auto.
Qed.

(** The optional loops, as [create_indicator] runs them. *)
Lemma given_campaigns_inv (s : Store) (field : option (list string))
  (i : Indicator) :
  (exists ids, when_given field i (fun values => append_campaigns s values i)
               = Continue (set_campaigns i (ind_campaigns i ++ ids))
     /\ ~ names_unknown (first_campaign s) field)
  \/ (exists msg, names_unknown (first_campaign s) field
        /\ when_given field i (fun values => append_campaigns s values i)
           = abort 404 msg).
Proof.
  destruct field as [values|]; simpl.
  - destruct (append_campaigns_inv s values i)
      as [[ids [E Hall]]|[v [Hin [Hv E]]]].
    + left; exists ids; split; [assumption|].
      intros [vs [v [Hvs [Hin Hv]]]]; injection Hvs as <-; now apply (Hall v).
    + right; eexists; split; [exists values, v; auto|eassumption].
  - left; exists []; rewrite set_campaigns_same; split; [reflexivity|].
    intros [vs [v [Hvs _]]]; discriminate.
Qed.

Lemma given_references_inv (s : Store) (field : option (list string))
  (i : Indicator) :
  (exists ids, when_given field i (fun values => append_references s values i)
               = Continue (set_references i (ind_references i ++ ids))
     /\ ~ names_unknown (first_reference s) field)
  \/ (exists msg, names_unknown (first_reference s) field
        /\ when_given field i (fun values => append_references s values i)
           = abort 404 msg).
Proof.
  destruct field as [values|]; simpl.
  - destruct (append_references_inv s values i)
      as [[ids [E Hall]]|[v [Hin [Hv E]]]].
    + left; exists ids; split; [assumption|].
      intros [vs [v [Hvs [Hin Hv]]]]; injection Hvs as <-; now apply (Hall v).
    + right; eexists; split; [exists values, v; auto|eassumption].
  - left; exists []; rewrite set_references_same; split; [reflexivity|].
    intros [vs [v [Hvs _]]]; discriminate.
Qed.

Lemma given_tags_inv (s : Store) (field : option (list string))
  (i : Indicator) :
  (exists ids, when_given field i (fun values => append_tags s values i)
               = Continue (set_tags i (ind_tags i ++ ids))
     /\ ~ names_unknown (first_by_value (tags s)) field)
  \/ (exists msg, names_unknown (first_by_value (tags s)) field
        /\ when_given field i (fun values => append_tags s values i)
           = abort 404 msg).
Proof.
  destruct field as [values|]; simpl.
  - destruct (append_tags_inv s values i)
      as [[ids [E Hall]]|[v [Hin [Hv E]]]].
    + left; exists ids; split; [assumption|].
      intros [vs [v [Hvs [Hin Hv]]]]; injection Hvs as <-; now apply (Hall v).
    + right; eexists; split; [exists values, v; auto|eassumption].
  - left; exists []; rewrite set_tags_same; split; [reflexivity|].
    intros [vs [v [Hvs _]]]; discriminate.
Qed.

Lemma default_or_named_inv (rows : list Taxon) (name : option string)
  (msg : string) :
  (exists r, default_or_named rows name msg = Continue r
     /\ ~ name_unknown (first_by_value rows) name
     /\ (forall row, r = Some row -> chosen rows name (Some (tx_id row))))
  \/ (exists m, name_unknown (first_by_value rows) name
        /\ default_or_named rows name msg = abort 404 m).
Proof.
  destruct name as [v|]; simpl.
  - destruct (first_by_value rows v) as [row|] eqn:E; simpl.
    + left; exists (Some row); repeat split.
      * intros [w [Hw Hn]]; injection Hw as <-; congruence.
      * intros r Hr; injection Hr as <-; exists row; repeat split; trivial.
        now apply first_by_value_some in E.
    + right; eexists; split; [exists v; auto|reflexivity].
  - left; exists (first_by_id rows); repeat split.
    + intros [w [Hw _]]; discriminate.
    + intros row Hrow; destruct (first_by_id_lowest _ _ Hrow) as [Hin _].
      exists row; repeat split; trivial.
Qed.

Lemma first_indicator_none (s : Store) (t : Z) (v : string) :
  first_indicator s t v = None -> ~ In (t, v) (map type_value (indicators s)).
Proof.
  intros Hnone Hin; apply in_map_iff in Hin; destruct Hin as [i [Hp Hin]].
  pose proof (find_absent _ _ i Hnone Hin) as Hf; simpl in Hf.
  unfold type_value in Hp; injection Hp as Ht Hv.
  rewrite Ht, Hv, Z.eqb_refl, String.eqb_refl in Hf; discriminate.
Qed.

Lemma first_indicator_duplicate (s : Store) (data : CreateData) (t : Taxon) :
  duplicate s data ->
  first_by_value (indicator_types s) (c_type data) = Some t ->
  exists i, first_indicator s (tx_id t) (c_value data) = Some i.
Proof.
  intros [t' [i [Ht' [Hin [Hty Hval]]]]] Ht.
  rewrite Ht in Ht'; injection Ht' as <-.
  apply (find_present _ _ i Hin).
  now rewrite Hty, Hval, Z.eqb_refl, String.eqb_refl.
Qed.

(** ** The steps of [update_indicator] *)

Lemma unchanged_refl (touched : Field -> bool) (i : Indicator) :
  unchanged_outside touched i i.
Proof. unfold unchanged_outside; tauto. Qed.

Lemma unchanged_trans (touched : Field -> bool) (a b c : Indicator) :
  unchanged_outside touched a b -> unchanged_outside touched b c ->
  unchanged_outside touched a c.
Proof.
  unfold unchanged_outside; intros Hab Hbc.
  decompose [and] Hab; decompose [and] Hbc; clear Hab Hbc.
  repeat split; try congruence; intros Hf;
    match goal with
    | H1 : ?t = false -> _, H2 : ?t = false -> _ |- _ =>
      rewrite (H2 Hf); exact (H1 Hf)
    end.
Qed.

Lemma same_taxonomy_refl (s : Store) : same_taxonomy s s.
Proof. unfold same_taxonomy; tauto. Qed.

Lemma when_given_frame {A} (R : Indicator -> Indicator -> Prop)
  (field : option A) (i i' : Indicator) (assign : A -> Step Indicator) :
  R i i ->
  (forall v, field = Some v -> assign v = Continue i' -> R i i') ->
  when_given field i assign = Continue i' -> R i i'.
Proof.
  intros Hrefl Hset; destruct field as [v|]; simpl; intros H.
  - now apply (Hset v).
  - now injection H as <-.
Qed.

Lemma assign_if_any_inv (valid : list (option Z)) (i i' : Indicator)
  (get : Indicator -> list Z) (set : Indicator -> list Z -> Indicator) :
  assign_if_any valid i get set = Continue i' ->
  i' = i \/ exists links, i' = set i links.
Proof.
  destruct valid as [|m ms]; cbn [assign_if_any]; intros H.
  - injection H as <-; now left.
  - destruct (relationship_set (m :: ms)) as [members|o]; cbn [bind] in H;
      [|discriminate].
    destruct (relationship_assign (get i) members) as [links|o];
      cbn [bind] in H; [|discriminate].
    injection H as <-; right; now exists links.
Qed.

Ltac next_field i E :=
  match goal with
  | |- context [bind (when_given ?f ?x ?k) _] =>
    destruct (when_given f x k) as [i|?] eqn:E; cbn [bind run]
  end.

Lemma get_after_commit_update (s : Store) (old new : Indicator) (i : Z) :
  get_indicator s i = Some old -> ind_id new = i ->
  get_indicator (commit_update_indicator s new) i = Some new
  /\ same_taxonomy s (commit_update_indicator s new)
  /\ forall j, j <> i ->
       get_indicator (commit_update_indicator s new) j = get_indicator s j.
Proof.
  intros Hget Hid; unfold get_indicator, commit_update_indicator; simpl.
  rewrite Hid; repeat split.
  - now apply (find_after_replace ind_id _ i old new).
  - intros j Hj; now apply find_other_after_replace.
Qed.

(** ** Names that do not resolve in [update_indicator] *)

Lemma relationship_set_none (members : list (option Z)) :
  In None members -> relationship_set members = Finish (Unhandled FlushError).
Proof.
  induction members as [|m ms IH]; simpl; [contradiction|].
  destruct m as [k|]; [|reflexivity].
  intros [H|H]; [discriminate|now rewrite IH].
Qed.

(** ** The filters of [read_indicators] *)

Lemma page_empty (window : nat * nat) : page window [] = [].
Proof. unfold page; now rewrite skipn_nil, firstn_nil. Qed.

Lemma page_in (window : nat * nat) (rows : list Indicator) (x : Indicator) :
  In x (page window rows) -> In x rows.
Proof.
  unfold page; intros Hx.
  rewrite <- (firstn_skipn (fst window) rows); apply in_or_app; right.
  rewrite <- (firstn_skipn (snd window) (skipn (fst window) rows)).
  apply in_or_app; now left.
Qed.

Lemma query_filter_empty (like : string -> string -> bool) (s : Store)
  (filters : list Filter) (f : Filter) :
  In f filters ->
  (forall i, In i (indicators s) -> eval_filter like s i f = false) ->
  query_filter like s filters = [].
Proof.
  intros Hin Hf; unfold query_filter.
  induction (indicators s) as [|a l IH]; simpl; [reflexivity|].
  destruct (forallb (eval_filter like s a) filters) eqn:E.
  - rewrite forallb_forall in E; specialize (E f Hin).
    rewrite Hf in E by now left. discriminate.
  - apply IH; intros i Hi; apply Hf; now right.
Qed.

Lemma when_arg_some (args : Args) (key v : string)
  (add : string -> list Filter) :
  args_get args key = Some v -> when_arg args key add = add v.
Proof. intros H; unfold when_arg; now rewrite H. Qed.

Ltac in_filters Hget Hnone :=
  unfold build_filters; repeat rewrite in_app_iff;
  rewrite (when_arg_some _ _ _ _ Hget), Hnone; simpl; intuition.

Lemma column_never_minus_one (column : option Z) :
  positive_ref column -> column_eq column (-1) = false.
Proof.
  intros Hpos; destruct column as [k|]; simpl; [|reflexivity].
  specialize (Hpos k eq_refl); apply Z.eqb_neq; lia.
Qed.

(** ** The handlers keep the store well formed *)

Lemma chosen_positive (rows : list Taxon) (name : option string)
  (ref : option Z) :
  positive_ids rows -> chosen rows name ref -> positive_ref ref.
Proof.
  intros Hpos [r [-> [Hin _]]] v Hv; injection Hv as <-; now apply Hpos.
Qed.

Lemma replace_all_ok {A} (P : A -> Prop) (p : A -> bool) (new : A)
  (l : list A) (x : A) :
  (forall y, In y l -> P y) -> P new ->
  In x (map (fun y => if p y then new else y) l) -> P x.
Proof.
  intros Hl Hnew Hin; apply in_map_iff in Hin; destruct Hin as [y [<- Hy]].
  destruct (p y); auto.
Qed.

Ltac store_ok_parts :=
  split; [|split; [split|]]; simpl;
  [unfold primary_keys_positive; simpl; tauto| | |].

Section Deletion.

#[local] Set Default Proof Using "Type".

Variable indicator_referenced : Store -> Z -> bool.

(** ** Deletion *)

(** C5. A DELETE of a row that a foreign key still references is answered
    409 and leaves the store, the row included, as it was; a DELETE of an
    existing row that nothing references is answered 204 and the row is
    gone, the other rows of its table staying.  This holds for
    /indicators/status/<id> and for /indicators/<id>. *)
Theorem delete_conflict_or_removed (s : Store) (i : Z) :
  (forall row, get_taxon (indicator_statuses s) i = Some row ->
     (status_referenced s i = true ->
        delete_indicator_status s i
        = (Responded (error_response 409
             "Unable to delete indicator status due to foreign key constraints"), s))
     /\ (status_referenced s i = false ->
           exists s',
             delete_indicator_status s i
             = (Responded (mkResponse 204 NoBody None), s')
             /\ get_taxon (indicator_statuses s') i = None
             /\ indicators s' = indicators s
             /\ forall j, j <> i ->
                  get_taxon (indicator_statuses s') j
                  = get_taxon (indicator_statuses s) j))
  /\ (forall ind, get_indicator s i = Some ind ->
     (indicator_referenced s i = true ->
        delete_indicator indicator_referenced s i
        = (Responded (error_response 409
             "Unable to delete indicator due to foreign key constraints"), s))
     /\ (indicator_referenced s i = false ->
           exists s',
             delete_indicator indicator_referenced s i
             = (Responded (mkResponse 204 NoBody None), s')
             /\ get_indicator s' i = None
             /\ same_taxonomy s s'
             /\ forall j, j <> i -> get_indicator s' j = get_indicator s j)).
Proof.
  split.
  - intros row Hrow.
    destruct (get_taxon_some _ _ _ Hrow) as [_ Hid].
    unfold delete_indicator_status, commit_delete_status.
    rewrite Hrow; simpl; rewrite Hid.
    split; intros Href; rewrite Href; simpl; [reflexivity|].
    eexists; split; [reflexivity|]; simpl.
    unfold get_taxon; repeat split.
    + apply find_after_delete.
    + intros j Hj; now apply find_other_after_delete.
  - intros ind Hind.
    destruct (get_indicator_some _ _ _ Hind) as [_ Hid].
    unfold delete_indicator, commit_delete_indicator.
    rewrite Hind; simpl; rewrite Hid.
    split; intros Href; rewrite Href; simpl; [reflexivity|].
    eexists; split; [reflexivity|].
    unfold get_indicator, same_taxonomy; simpl; repeat split.
    + apply find_after_delete.
    + intros j Hj; now apply find_other_after_delete.
Qed.

End Deletion.

Section Writes.

#[local] Set Default Proof Using "Type".

Variable parse_boolean : bool -> option bool -> bool.

(** ** The outcomes of [create_indicator] *)

Ltac turned_down code :=
  left; exists code; eexists; split; [reflexivity|].

Lemma create_indicator_outcome (s : Store) (now : Z) (data : CreateData) :
  (exists code msg,
      create_indicator parse_boolean s now data
      = (Responded (error_response code msg), s)
      /\ ((code = 404 /\ unresolved s data)
          \/ (code = 401 /\ inactive_user s data)
          \/ (code = 409 /\ duplicate s data)))
  \/ (~ rejected s data
      /\ (create_indicator parse_boolean s now data
          = (Unhandled IntegrityError, s)
          \/ exists row,
               create_indicator parse_boolean s now data
               = (Responded (mkResponse 201 (JIndicator row)
                    (Some ("api.read_indicator"%string, ind_id row))),
                  with_indicators s (indicators s ++ [row]))
               /\ created s now data row)).
Proof.
  unfold create_indicator, unresolved.
  destruct (first_by_value (indicator_types s) (c_type data)) as [t|] eqn:Et;
    cbn [first_or bind abort run]; [|turned_down 404; tauto].
  destruct (first_user s (c_username data)) as [u|] eqn:Eu;
    cbn [first_or bind abort run]; [|turned_down 404; tauto].
  unfold require_active; destruct (active u) eqn:Ea;
    cbn [bind abort run];
    [|turned_down 401; right; left; split; [reflexivity|exists u; auto]].
  destruct (first_indicator s (tx_id t) (c_value data)) as [dup|] eqn:Ei;
    cbn [bind abort run].
  { turned_down 409; right; right; split; [reflexivity|].
    apply find_some in Ei; destruct Ei as [Hin Hp].
    apply andb_prop in Hp; destruct Hp as [Hp1 Hp2].
    exists t, dup; repeat split; trivial;
      [now apply Z.eqb_eq|now apply String.eqb_eq]. }
  destruct (given_campaigns_inv s (c_campaigns data)
              (new_indicator t u (c_value data) now))
    as [[ids1 [-> H1]]|[m [H1 ->]]];
    cbn [bind abort run]; [|turned_down 404; tauto].
  destruct (default_or_named_inv (indicator_confidences s) (c_confidence data)
              "Indicator confidence not found: ")
    as [[conf [-> [H2 C2]]]|[m [H2 ->]]];
    cbn [bind abort run]; [|turned_down 404; tauto].
  destruct (default_or_named_inv (indicator_impacts s) (c_impact data)
              "Indicator impact not found: ")
    as [[imp [-> [H3 C3]]]|[m [H3 ->]]];
    cbn [bind abort run]; [|turned_down 404; tauto].
  match goal with
  | |- context [when_given (c_references data) ?i _] =>
    destruct (given_references_inv s (c_references data) i)
      as [[ids4 [-> H4]]|[m [H4 ->]]]
  end; cbn [bind abort run]; [|turned_down 404; tauto].
  destruct (default_or_named_inv (indicator_statuses s) (c_status data)
              "Indicator status not found: ")
    as [[st [-> [H5 C5]]]|[m [H5 ->]]];
    cbn [bind abort run]; [|turned_down 404; tauto].
  match goal with
  | |- context [when_given (c_tags data) ?i _] =>
    destruct (given_tags_inv s (c_tags data) i)
      as [[ids6 [-> H6]]|[m [H6 ->]]]
  end; cbn [bind abort run]; [|turned_down 404; tauto].
  right; split.
  { intros [Hu|[[u' [Hu' Ha']]|[t' [i' [Ht' [Hin [Hty Hval]]]]]]].
    - unfold unresolved in Hu; rewrite Et, Eu in Hu.
      intuition discriminate.
    - congruence.
    - rewrite Et in Ht'; injection Ht' as <-.
      pose proof (find_absent _ _ i' Ei Hin) as Hp; simpl in Hp.
      rewrite Hty, Hval, Z.eqb_refl, String.eqb_refl in Hp; discriminate. }
  unfold commit_add_indicator; simpl.
  destruct conf as [conf|]; simpl; [|now left].
  destruct imp as [imp|]; simpl; [|now left].
  destruct st as [st|]; simpl; [|now left].
  match goal with
  | |- context [if ?b then _ else _] => destruct b; simpl; [now left|]
  end.
  right.
  match goal with |- context [JIndicator ?r] => exists r end.
  split; [reflexivity|].
  unfold created; simpl; repeat split; auto.
  exists t; auto.
Qed.

(** C3. When a POST /indicators succeeds and its body has no confidence
    (impact, status), the confidence (impact, status) of the indicator it
    stored is a row of that table whose id no row of the table is below. *)
Theorem create_defaults_lowest_id (s s' : Store) (now : Z) (data : CreateData)
  (resp : Response) :
  create_indicator parse_boolean s now data = (Responded resp, s') ->
  status_code resp = 201 ->
  exists row,
    body resp = JIndicator row /\ In row (indicators s')
    /\ (c_confidence data = None ->
        exists r, lowest_id r (indicator_confidences s)
                  /\ _confidence_id row = Some (tx_id r))
    /\ (c_impact data = None ->
        exists r, lowest_id r (indicator_impacts s)
                  /\ _impact_id row = Some (tx_id r))
    /\ (c_status data = None ->
        exists r, lowest_id r (indicator_statuses s)
                  /\ _status_id row = Some (tx_id r)).
Proof.
  intros Hrun Hcode.
  destruct (create_indicator_outcome s now data)
    as [[code [msg [E Hwhy]]]|[_ [E|[row [E Hrow]]]]];
    rewrite E in Hrun.
  - injection Hrun as <- <-; simpl in Hcode; subst code.
    intuition discriminate.
  - discriminate.
  - injection Hrun as <- <-; exists row; simpl.
    destruct Hrow as [_ [_ [_ [_ [_ [Hc [Hi Hs]]]]]]].
    split; [reflexivity|]; split; [apply in_or_app; right; now left|].
    repeat split; intros Hnone;
      [destruct Hc as [r [Hr [_ Hsel]]]|destruct Hi as [r [Hr [_ Hsel]]]
       |destruct Hs as [r [Hr [_ Hsel]]]];
      rewrite Hnone in Hsel; exists r; split;
        solve [now apply first_by_id_lowest|assumption].
Qed.

(** C4, as the code has it.  A POST /indicators whose (type, value) pair
    is that of a stored indicator creates no row and leaves the store as it
    was; it is answered 409 when its username names an active user, 404
    when it names no user and 401 when it names an inactive one.  Whatever
    the request, create keeps the (type, value) pairs of the stored
    indicators unique. *)
Theorem create_duplicate_conflict (s : Store) (now : Z) (data : CreateData) :
  (duplicate s data ->
     snd (create_indicator parse_boolean s now data) = s
     /\ (forall u, first_user s (c_username data) = Some u ->
           active u = true ->
           fst (create_indicator parse_boolean s now data)
           = Responded (error_response 409 "Indicator already exists"))
     /\ (first_user s (c_username data) = None ->
           status_of (fst (create_indicator parse_boolean s now data))
           = Some 404)
     /\ (inactive_user s data ->
           status_of (fst (create_indicator parse_boolean s now data))
           = Some 401))
  /\ (unique_type_value (indicators s) ->
      unique_type_value
        (indicators (snd (create_indicator parse_boolean s now data)))).
Proof.
  split.
  - intros Hdup.
    assert (Ht : exists t, first_by_value (indicator_types s) (c_type data)
                           = Some t)
      by (destruct Hdup as [t [_ [Ht _]]]; eauto).
    destruct Ht as [t Ht].
    destruct (first_indicator_duplicate s data t Hdup Ht) as [i Hi].
    repeat split.
    + destruct (create_indicator_outcome s now data)
        as [[code [msg [E _]]]|[Hno _]]; [now rewrite E|].
      exfalso; apply Hno; right; now right.
    + intros u Hu Ha; unfold create_indicator, require_active.
      now rewrite Ht, Hu; cbn [first_or bind]; rewrite Ha, Hi.
    + intros Hu; unfold create_indicator; now rewrite Ht, Hu.
    + intros [u [Hu Ha]]; unfold create_indicator, require_active.
      now rewrite Ht, Hu; cbn [first_or bind]; rewrite Ha.
  - intros Huniq.
    destruct (create_indicator_outcome s now data)
      as [[code [msg [E _]]]|[_ [E|[row [E Hrow]]]]];
      rewrite E; simpl; trivial.
    unfold unique_type_value in *; rewrite map_app; simpl.
    apply NoDup_snoc; [assumption|].
    destruct Hrow as [[t [_ [Hnone Hty]]] [Hval _]].
    unfold type_value at 1; rewrite Hty, Hval.
    now apply first_indicator_none.
Qed.

(** C7. A POST /indicators that is not answered 201 leaves the store
    exactly as it was.  A request that names an unknown type, user,
    campaign, confidence, impact, reference, status or tag, or an inactive
    user, or the (type, value) of a stored indicator, is answered 404, 401
    or 409 with the store unchanged; and a 404 is only given for an unknown
    name, a 401 for an inactive user, a 409 for a duplicate. *)
Theorem create_failure_atomic (s : Store) (now : Z) (data : CreateData) :
  (status_of (fst (create_indicator parse_boolean s now data)) <> Some 201 ->
     snd (create_indicator parse_boolean s now data) = s)
  /\ (rejected s data ->
      exists code msg,
        create_indicator parse_boolean s now data
        = (Responded (error_response code msg), s)
        /\ (code = 404 \/ code = 401 \/ code = 409))
  /\ (forall code msg,
        fst (create_indicator parse_boolean s now data)
        = Responded (error_response code msg) ->
        snd (create_indicator parse_boolean s now data) = s
        /\ (code = 404 -> unresolved s data)
        /\ (code = 401 -> inactive_user s data)
        /\ (code = 409 -> duplicate s data)).
Proof.
  destruct (create_indicator_outcome s now data)
    as [[code [msg [E Hwhy]]]|[Hno [E|[row [E Hrow]]]]];
    rewrite E; simpl; (split; [|split]).
  - trivial.
  - intros _; exists code, msg; split; [reflexivity|intuition].
  - intros code' msg' Heq; injection Heq as <- <-.
    repeat split; intros ->; intuition discriminate.
  - trivial.
  - contradiction.
  - discriminate.
  - intros Hne; now elim Hne.
  - contradiction.
  - discriminate.
Qed.

(** [update_indicator] either leaves the store as it found it, or commits
    the loaded indicator after a run of assignments; [R] is any relation
    those assignments keep. *)
Lemma update_indicator_outcome (R : Indicator -> Indicator -> Prop)
  (s : Store) (i : Z) (data : UpdateData) (ind : Indicator) :
  get_indicator s i = Some ind ->
  (forall a, R a a) ->
  (forall a b c, R a b -> R b c -> R a c) ->
  (forall a m, given (u_campaigns data) = true -> R a (set_campaigns a m)) ->
  (forall a b, given (u_case_sensitive data) = true ->
     R a (set_case_sensitive a b)) ->
  (forall a r, given (u_confidence data) = true ->
     In r (indicator_confidences s) -> R a (set_confidence a (Some (tx_id r)))) ->
  (forall a r, given (u_impact data) = true ->
     In r (indicator_impacts s) -> R a (set_impact a (Some (tx_id r)))) ->
  (forall a m, given (u_references data) = true -> R a (set_references a m)) ->
  (forall a r, given (u_status data) = true ->
     In r (indicator_statuses s) -> R a (set_status a (Some (tx_id r)))) ->
  (forall a b, given (u_substring data) = true -> R a (set_substring a b)) ->
  (forall a m, given (u_tags data) = true -> R a (set_tags a m)) ->
  (forall a u, given (u_username data) = true ->
     In u (users s) -> R a (set_user a (user_id u))) ->
  snd (update_indicator parse_boolean s i data) = s
  \/ exists final,
       R ind final
       /\ update_indicator parse_boolean s i data
          = (Responded (jsonify (JIndicator final)),
             commit_update_indicator s final).
Proof.
  intros Hget Rrefl Rtrans Rcam Rcase Rconf Rimp Rref Rstat Rsub Rtag Ruser.
  unfold update_indicator; rewrite Hget; cbn [first_or bind].
  next_field i1 E1; [|now left].
  next_field i2 E2; [|now left].
  next_field i3 E3; [|now left].
  next_field i4 E4; [|now left].
  next_field i5 E5; [|now left].
  next_field i6 E6; [|now left].
  next_field i7 E7; [|now left].
  next_field i8 E8; [|now left].
  next_field i9 E9; [|now left].
  right; exists i9; split; [|reflexivity].
  assert (H1 : R ind i1).
  { revert E1; apply when_given_frame; [apply Rrefl|].
    intros v Hf Hk; apply assign_if_any_inv in Hk.
    destruct Hk as [->|[m ->]]; [apply Rrefl|apply Rcam; now rewrite Hf]. }
  assert (H2 : R i1 i2).
  { revert E2; apply when_given_frame; [apply Rrefl|].
    intros v Hf Hk; injection Hk as <-; apply Rcase; now rewrite Hf. }
  assert (H3 : R i2 i3).
  { revert E3; apply when_given_frame; [apply Rrefl|].
    intros v Hf Hk; destruct (first_by_value _ v) as [r|] eqn:Er; simpl in Hk;
      [injection Hk as <-|discriminate].
    apply first_by_value_some in Er; apply Rconf; [now rewrite Hf|tauto]. }
  assert (H4 : R i3 i4).
  { revert E4; apply when_given_frame; [apply Rrefl|].
    intros v Hf Hk; destruct (first_by_value _ v) as [r|] eqn:Er; simpl in Hk;
      [injection Hk as <-|discriminate].
    apply first_by_value_some in Er; apply Rimp; [now rewrite Hf|tauto]. }
  assert (H5 : R i4 i5).
  { revert E5; apply when_given_frame; [apply Rrefl|].
    intros v Hf Hk; apply assign_if_any_inv in Hk.
    destruct Hk as [->|[m ->]]; [apply Rrefl|apply Rref; now rewrite Hf]. }
  assert (H6 : R i5 i6).
  { revert E6; apply when_given_frame; [apply Rrefl|].
    intros v Hf Hk; destruct (first_by_value _ v) as [r|] eqn:Er; simpl in Hk;
      [injection Hk as <-|discriminate].
    apply first_by_value_some in Er; apply Rstat; [now rewrite Hf|tauto]. }
  assert (H7 : R i6 i7).
  { revert E7; apply when_given_frame; [apply Rrefl|].
    intros v Hf Hk; injection Hk as <-; apply Rsub; now rewrite Hf. }
  assert (H8 : R i7 i8).
  { revert E8; apply when_given_frame; [apply Rrefl|].
    intros v Hf Hk; apply assign_if_any_inv in Hk.
    destruct Hk as [->|[m ->]]; [apply Rrefl|apply Rtag; now rewrite Hf]. }
  assert (H9 : R i8 i9).
  { revert E9; apply when_given_frame; [apply Rrefl|].
    intros v Hf Hk; destruct (first_user s v) as [u|] eqn:Eu; simpl in Hk;
      [|discriminate].
    unfold require_active in Hk; destruct (active u); simpl in Hk;
      [injection Hk as <-|discriminate].
    apply find_some in Eu; apply Ruser; [now rewrite Hf|tauto]. }
  eauto 10.
Qed.

(** C2. After a PUT /indicators/<id> on an existing indicator, whatever
    its outcome, the indicator is still stored under its id and every
    field of it that the body does not supply has the value it had, as
    have its type, value, id and both timestamps; every other indicator
    and every other table is as it was. *)
Theorem update_keeps_unsupplied (s : Store) (i : Z) (data : UpdateData)
  (ind : Indicator) :
  get_indicator s i = Some ind ->
  exists ind',
    get_indicator (snd (update_indicator parse_boolean s i data)) i = Some ind'
    /\ unchanged_outside (supplied data) ind ind'
    /\ same_taxonomy s (snd (update_indicator parse_boolean s i data))
    /\ forall j, j <> i ->
         get_indicator (snd (update_indicator parse_boolean s i data)) j
         = get_indicator s j.
Proof.
  intros Hget.
  destruct (update_indicator_outcome (unchanged_outside (supplied data))
              s i data ind Hget)
    as [->|[final [Hkept ->]]];
    try solve [apply unchanged_refl | apply unchanged_trans
              | intros; unfold unchanged_outside, supplied; simpl;
                repeat split; intros; solve [congruence|reflexivity]].
  - exists ind; auto using unchanged_refl, same_taxonomy_refl.
  - exists final; cbn [snd].
    destruct (get_indicator_some _ _ _ Hget) as [_ Hid].
    assert (Hid' : ind_id final = i) by (destruct Hkept as [-> _]; exact Hid).
    destruct (get_after_commit_update s ind final i Hget Hid') as [Ha [Hb Hc]].
    auto.
Qed.

(** A campaign name without a row does not end the request with a 404:
    the lookup's [None] joins the list, and the assignment raises. *)
Lemma update_unknown_campaign_raises (s : Store) (i : Z) (data : UpdateData)
  (ind : Indicator) (values : list string) (v : string) :
  get_indicator s i = Some ind ->
  u_campaigns data = Some values -> In v values ->
  first_campaign s v = None ->
  update_indicator parse_boolean s i data = (Unhandled FlushError, s).
Proof.
  intros Hget Hf Hin Hv; unfold update_indicator.
  rewrite Hget, Hf; cbn [first_or bind when_given].
  assert (Hnone : In None (map (valid_campaign s) values)).
  { apply in_map_iff; exists v; split; [|assumption].
    unfold valid_campaign; now rewrite Hv. }
  unfold assign_if_any.
  destruct (map (valid_campaign s) values) as [|m ms] eqn:E; [destruct Hnone|].
  now rewrite (relationship_set_none _ Hnone).
Qed.

End Writes.

Section Reads.

#[local] Set Default Proof Using "Type".

Variable parse_boolean_arg : string -> option bool.
Variable parse : string -> bool -> option Z.
Variable like : string -> string -> bool.
Variable page_of : Args -> nat * nat.

Lemma read_with_impossible_filter (s : Store) (args : Args) (f : Filter) :
  In f (build_filters parse_boolean_arg parse s args) ->
  (forall i, In i (indicators s) -> eval_filter like s i f = false) ->
  read_indicators parse_boolean_arg parse like page_of s args
  = (Responded (jsonify (JCollection [])), s).
Proof.
  intros Hin Hf; unfold read_indicators, to_collection_dict; cbn [run].
  now rewrite (query_filter_empty like s _ f Hin Hf), page_empty.
Qed.

(** C6. When the confidence, impact, status or type parameter of a
    GET /indicators names no row of its table, or some name in the sources
    parameter names no intel source, the filter set holds the comparison
    with the id -1, and the answer is 200 with no indicator in it. *)
Theorem unresolved_filter_empty (s : Store) (args : Args) :
  foreign_keys_positive s ->
  (unknown_arg (indicator_confidences s) args "confidence" ->
     In (ConfidenceIdEq (-1)) (build_filters parse_boolean_arg parse s args)
     /\ read_indicators parse_boolean_arg parse like page_of s args
        = (Responded (jsonify (JCollection [])), s))
  /\ (unknown_arg (indicator_impacts s) args "impact" ->
     In (ImpactIdEq (-1)) (build_filters parse_boolean_arg parse s args)
     /\ read_indicators parse_boolean_arg parse like page_of s args
        = (Responded (jsonify (JCollection [])), s))
  /\ (unknown_arg (indicator_statuses s) args "status" ->
     In (StatusIdEq (-1)) (build_filters parse_boolean_arg parse s args)
     /\ read_indicators parse_boolean_arg parse like page_of s args
        = (Responded (jsonify (JCollection [])), s))
  /\ (unknown_arg (indicator_types s) args "type" ->
     In (TypeIdEq (-1)) (build_filters parse_boolean_arg parse s args)
     /\ read_indicators parse_boolean_arg parse like page_of s args
        = (Responded (jsonify (JCollection [])), s))
  /\ (unknown_source s args ->
     In (ReferencesAnySource (-1))
        (build_filters parse_boolean_arg parse s args)
     /\ read_indicators parse_boolean_arg parse like page_of s args
        = (Responded (jsonify (JCollection [])), s)).
Proof.
  intros [Hind Href].
  split; [|split; [|split; [|split]]]; intros H.
  - destruct H as [v [Hget Hnone]].
    assert (Hin : In (ConfidenceIdEq (-1))
                     (build_filters parse_boolean_arg parse s args))
      by (in_filters Hget Hnone).
    split; [exact Hin|apply (read_with_impossible_filter _ _ _ Hin)].
    intros i Hi; apply column_never_minus_one; now apply Hind.
  - destruct H as [v [Hget Hnone]].
    assert (Hin : In (ImpactIdEq (-1))
                     (build_filters parse_boolean_arg parse s args))
      by (in_filters Hget Hnone).
    split; [exact Hin|apply (read_with_impossible_filter _ _ _ Hin)].
    intros i Hi; apply column_never_minus_one; now apply Hind.
  - destruct H as [v [Hget Hnone]].
    assert (Hin : In (StatusIdEq (-1))
                     (build_filters parse_boolean_arg parse s args))
      by (in_filters Hget Hnone).
    split; [exact Hin|apply (read_with_impossible_filter _ _ _ Hin)].
    intros i Hi; apply column_never_minus_one; now apply Hind.
  - destruct H as [v [Hget Hnone]].
    assert (Hin : In (TypeIdEq (-1))
                     (build_filters parse_boolean_arg parse s args))
      by (in_filters Hget Hnone).
    split; [exact Hin|apply (read_with_impossible_filter _ _ _ Hin)].
    intros i Hi; destruct (Hind i Hi) as [Ht _]; simpl.
    apply Z.eqb_neq; lia.
  - destruct H as [v [src [Hget [Hsrc Hnone]]]].
    assert (Hin : In (ReferencesAnySource (-1))
                     (build_filters parse_boolean_arg parse s args)).
    { unfold build_filters; repeat rewrite in_app_iff.
      rewrite (when_arg_some _ _ _ _ Hget).
      do 7 right; left; apply in_map_iff; exists src; now rewrite Hnone. }
    split; [exact Hin|apply (read_with_impossible_filter _ _ _ Hin)].
    intros i Hi; simpl.
    destruct (existsb _ (intel_references s)) eqn:E; [|reflexivity].
    apply existsb_exists in E; destruct E as [r [Hr Hp]].
    apply andb_prop in Hp; destruct Hp as [_ Hp]; apply Z.eqb_eq in Hp.
    specialize (Href r Hr); lia.
Qed.

(** C10. When the created_after, created_before, modified_after or
    modified_before parameter of a GET /indicators does not parse as a
    date, the bound of its filter is date.max (for the two after filters)
    or date.min (for the two before filters), and the answer is 200 with
    no indicator in it. *)
Theorem unparseable_date_empty (s : Store) (args : Args) :
  times_in_range s ->
  (unparseable parse args "created_after" true ->
     In (CreatedAfter date_max) (build_filters parse_boolean_arg parse s args)
     /\ read_indicators parse_boolean_arg parse like page_of s args
        = (Responded (mkResponse 200 (JCollection []) None), s))
  /\ (unparseable parse args "created_before" true ->
     In (CreatedBefore date_min) (build_filters parse_boolean_arg parse s args)
     /\ read_indicators parse_boolean_arg parse like page_of s args
        = (Responded (mkResponse 200 (JCollection []) None), s))
  /\ (unparseable parse args "modified_after" false ->
     In (ModifiedAfter date_max) (build_filters parse_boolean_arg parse s args)
     /\ read_indicators parse_boolean_arg parse like page_of s args
        = (Responded (mkResponse 200 (JCollection []) None), s))
  /\ (unparseable parse args "modified_before" false ->
     In (ModifiedBefore date_min) (build_filters parse_boolean_arg parse s args)
     /\ read_indicators parse_boolean_arg parse like page_of s args
        = (Responded (mkResponse 200 (JCollection []) None), s)).
Proof.
  intros Htimes.
  split; [|split; [|split]]; intros [v [Hget Hnone]].
  - assert (Hin : In (CreatedAfter date_max)
                     (build_filters parse_boolean_arg parse s args))
      by (in_filters Hget Hnone).
    split; [exact Hin|apply (read_with_impossible_filter _ _ _ Hin)].
    intros i Hi; destruct (Htimes i Hi) as [[_ Hc] _]; simpl.
    apply Z.ltb_ge; exact Hc.
  - assert (Hin : In (CreatedBefore date_min)
                     (build_filters parse_boolean_arg parse s args))
      by (in_filters Hget Hnone).
    split; [exact Hin|apply (read_with_impossible_filter _ _ _ Hin)].
    intros i Hi; destruct (Htimes i Hi) as [[Hc _] _]; simpl.
    apply Z.ltb_ge; exact Hc.
  - assert (Hin : In (ModifiedAfter date_max)
                     (build_filters parse_boolean_arg parse s args))
      by (in_filters Hget Hnone).
    split; [exact Hin|apply (read_with_impossible_filter _ _ _ Hin)].
    intros i Hi; destruct (Htimes i Hi) as [_ [_ Hm]]; simpl.
    apply Z.ltb_ge; exact Hm.
  - assert (Hin : In (ModifiedBefore date_min)
                     (build_filters parse_boolean_arg parse s args))
      by (in_filters Hget Hnone).
    split; [exact Hin|apply (read_with_impossible_filter _ _ _ Hin)].
    intros i Hi; destruct (Htimes i Hi) as [_ [Hm _]]; simpl.
    apply Z.ltb_ge; exact Hm.
Qed.

End Reads.

Section Maintenance.

#[local] Set Default Proof Using "Type".

Variable parse_boolean : bool -> option bool -> bool.
Variable indicator_referenced : Store -> Z -> bool.

Lemma store_ok_empty : store_ok empty_store.
Proof.
  unfold store_ok, primary_keys_positive, foreign_keys_positive,
    times_in_range, positive_ids; simpl; tauto.
Qed.

(** X23. [store_ok] (positive primary and foreign keys, timestamps
    between date.min and date.max) is kept by every route that writes, for
    a clock between date.min and date.max. *)
Lemma store_ok_kept (s : Store) (now i : Z) (created : CreateData)
  (updated : UpdateData) (value : ValueData) :
  store_ok s -> in_range now ->
  store_ok (snd (create_indicator parse_boolean s now created))
  /\ store_ok (snd (update_indicator parse_boolean s i updated))
  /\ store_ok (snd (delete_indicator indicator_referenced s i))
  /\ store_ok (snd (create_indicator_status s value))
  /\ store_ok (snd (update_indicator_status s i value))
  /\ store_ok (snd (delete_indicator_status s i)).
Proof.
  intros Hok Hnow; pose proof Hok as [[Pt [Pc [Pi Ps]]] [[Fi Fr] Ht]].
  split; [|split; [|split; [|split; [|split]]]].
  - destruct (create_indicator_outcome parse_boolean s now created)
      as [[code [msg [E _]]]|[_ [E|[row [E Hrow]]]]];
      rewrite E; cbn [snd]; trivial.
    destruct Hrow as [[t [Et [_ Hty]]] [_ [_ [Hc [Hm [Cc [Ci Cs]]]]]]].
    apply first_by_value_some in Et.
    assert (Hrowk : keys_positive row).
    { unfold keys_positive; rewrite Hty; repeat split;
        [apply Pt; tauto
        |eapply chosen_positive; [|eassumption]; assumption ..]. }
    assert (Hrowt : times_ok row) by (unfold times_ok; now rewrite Hc, Hm).
    store_ok_parts; trivial; intros x Hx;
      apply in_app_or in Hx; destruct Hx as [Hx|[<-|[]]]; auto.
  - destruct (get_indicator s i) as [ind|] eqn:Hget;
      [|unfold update_indicator; now rewrite Hget].
    destruct (update_indicator_outcome parse_boolean
                (fun a b => keys_positive a /\ times_ok a ->
                            keys_positive b /\ times_ok b)
                s i updated ind Hget)
      as [->|[final [Hkept ->]]]; trivial;
      try solve [tauto | intros; tauto
                | intros a r _ Hr [[K1 [K2 [K3 K4]]] Hti];
                  split; [|exact Hti];
                  unfold keys_positive; simpl;
                  (split; [|split; [|split]]); trivial;
                  intros v Hv; injection Hv as <-;
                  solve [apply Pc; assumption | apply Pi; assumption
                        | apply Ps; assumption]].
    apply get_indicator_some in Hget; destruct Hget as [Hin _].
    destruct Hkept as [Hk Hti]; [split; auto|].
    store_ok_parts; trivial; intros x Hx;
      [apply (replace_all_ok keys_positive _ final _ x Fi Hk Hx)
      |apply (replace_all_ok times_ok _ final _ x Ht Hti Hx)].
  - unfold delete_indicator, commit_delete_indicator.
    destruct (get_indicator s i) as [ind|]; cbn [first_or bind run snd];
      trivial.
    destruct (indicator_referenced s (ind_id ind)); cbn [run abort snd];
      trivial.
    store_ok_parts; trivial; intros x Hx; apply filter_In in Hx;
      [apply Fi|apply Ht]; tauto.
  - unfold create_indicator_status.
    destruct (first_by_value _ _); cbn [run abort snd]; trivial.
    split; [|split; [split|]]; simpl; trivial.
    repeat (split; trivial).
    intros x Hx; apply in_app_or in Hx; destruct Hx as [Hx|[<-|[]]];
      [now apply Ps|simpl; apply next_id_positive].
  - unfold update_indicator_status.
    destruct (get_taxon _ i) as [row|] eqn:Er; cbn [first_or bind run snd];
      trivial.
    destruct (first_by_value _ _); cbn [run abort snd]; trivial.
    apply get_taxon_some in Er; destruct Er as [Hin Hid].
    split; [|split; [split|]]; simpl; trivial.
    repeat (split; trivial).
    intros x Hx; apply in_map_iff in Hx; destruct Hx as [y [<- Hy]].
    destruct (tx_id y =? tx_id row); [simpl; now apply Ps|now apply Ps].
  - unfold delete_indicator_status, commit_delete_status.
    destruct (get_taxon _ i) as [row|]; cbn [first_or bind run snd]; trivial.
    destruct (status_referenced s (tx_id row)); cbn [run abort snd]; trivial.
    split; [|split; [split|]]; simpl; trivial.
    repeat (split; trivial).
    intros x Hx; apply filter_In in Hx; apply Ps; tauto.
Qed.

End Maintenance.

(** * The properties on the small database *)

Open Scope string_scope.

(** C1. On PUT /indicators/1 a campaign, reference or tag name without a
    row is not answered 404: the request ends in an unhandled exception
    (and commits nothing), whereas a confidence name without a row is
    answered 404. *)
Lemma update_unknown_name_not_404 :
  first_campaign demo "nope" = None
  /\ update_indicator demo_parse_boolean demo 1 (only_campaigns ["nope"])
     = (Unhandled FlushError, demo)
  /\ update_indicator demo_parse_boolean demo 1 (only_references ["nope"])
     = (Unhandled FlushError, demo)
  /\ update_indicator demo_parse_boolean demo 1 (only_tags ["nope"])
     = (Unhandled FlushError, demo)
  /\ update_indicator demo_parse_boolean demo 1 (only_confidence "nope")
     = (Responded (error_response 404 "Indicator confidence not found: nope"),
        demo).
Proof. repeat split. Qed.

Lemma update_keeps_unsupplied_witness :
  exists ind',
    get_indicator
      (snd (update_indicator demo_parse_boolean demo 1 (only_confidence "HIGH")))
      1 = Some ind'
    /\ _confidence_id ind' = Some 2
    /\ _impact_id ind' = Some 1 /\ ind_campaigns ind' = [1]
    /\ ind_tags ind' = [1] /\ _user_id ind' = 1
    /\ modified_time ind' = 1000.
Proof.
  destruct (update_keeps_unsupplied demo_parse_boolean demo 1
              (only_confidence "HIGH") _ eq_refl)
    as [ind' [Hget [Hkept _]]].
  exists ind'; split; [exact Hget|].
  split; [vm_compute in Hget; injection Hget as <-; reflexivity|].
  destruct Hkept as [_ [_ [_ [_ [Hm [Hc [_ [_ [Hi [_ [_ [_ [Ht Hu]]]]]]]]]]]]].
  repeat split; [apply Hi|apply Hc|apply Ht|apply Hu|exact Hm]; reflexivity.
Defined.

Lemma create_defaults_lowest_id_witness :
  exists row r,
    In row (indicators
              (snd (create_indicator demo_parse_boolean demo 5
                      (minimal_create "analyst" "IP" "127.0.0.2"))))
    /\ lowest_id r (indicator_confidences demo)
    /\ _confidence_id row = Some (tx_id r).
Proof.
  destruct (create_defaults_lowest_id demo_parse_boolean demo _ 5
              (minimal_create "analyst" "IP" "127.0.0.2") _ eq_refl eq_refl)
    as [row [_ [Hin [Hc _]]]].
  destruct (Hc eq_refl) as [r [Hlow Hr]].
  exists row, r; auto.
Defined.

(** C4, as it is stated, fails: the pair (IP, 127.0.0.1) is stored, yet a
    POST that repeats it under a username without a row is answered 404. *)
Lemma create_duplicate_unknown_user_404 :
  duplicate demo (minimal_create "ghost" "IP" "127.0.0.1")
  /\ status_of (fst (create_indicator demo_parse_boolean demo 5
                       (minimal_create "ghost" "IP" "127.0.0.1")))
     = Some 404
  /\ status_of (fst (create_indicator demo_parse_boolean demo 5
                       (minimal_create "ghost" "IP" "127.0.0.1")))
     <> Some 409.
Proof.
  split; [|split; [reflexivity|discriminate]].
  exists (mkTaxon 1 "IP"),
    (mkIndicator 1 1 1 "127.0.0.1" [1] false (Some 1) (Some 1) [1] (Some 1)
                 false [1] 1000 1000).
  repeat split; now left.
Qed.

Lemma demo_duplicate :
  duplicate demo (minimal_create "analyst" "IP" "127.0.0.1").
Proof.
  exists (mkTaxon 1 "IP"),
    (mkIndicator 1 1 1 "127.0.0.1" [1] false (Some 1) (Some 1) [1] (Some 1)
                 false [1] 1000 1000).
  repeat split; now left.
Defined.

Lemma demo_unique_type_value : unique_type_value (indicators demo).
Proof.
  unfold unique_type_value; simpl.
  repeat constructor; simpl; intuition discriminate.
Defined.

Lemma create_duplicate_conflict_witness :
  create_indicator demo_parse_boolean demo 5
    (minimal_create "analyst" "IP" "127.0.0.1")
  = (Responded (error_response 409 "Indicator already exists"), demo)
  /\ unique_type_value
       (indicators
          (snd (create_indicator demo_parse_boolean demo 5
                  (minimal_create "analyst" "IP" "127.0.0.2")))).
Proof.
  split.
  - destruct (create_duplicate_conflict demo_parse_boolean demo 5
                (minimal_create "analyst" "IP" "127.0.0.1"))
      as [Hdup _].
    destruct (Hdup demo_duplicate) as [Hs [Hr _]].
    specialize (Hr (mkUser 1 "analyst" true) eq_refl eq_refl).
    rewrite (surjective_pairing (create_indicator _ _ _ _)), Hs, Hr.
    reflexivity.
  - apply (create_duplicate_conflict demo_parse_boolean demo 5
             (minimal_create "analyst" "IP" "127.0.0.2")).
    exact demo_unique_type_value.
Defined.

Lemma create_failure_atomic_witness :
  create_indicator demo_parse_boolean demo 5
    (minimal_create "retired" "IP" "10.0.0.1")
  = (Responded (error_response 401
       "Cannot create an indicator with an inactive user"), demo)
  /\ snd (create_indicator demo_parse_boolean demo 5
            (minimal_create "analyst" "DNS" "10.0.0.1")) = demo.
Proof.
  split.
  - destruct (create_failure_atomic demo_parse_boolean demo 5
                (minimal_create "retired" "IP" "10.0.0.1"))
      as [_ [Hrej _]].
    assert (Hwhy : rejected demo (minimal_create "retired" "IP" "10.0.0.1")).
    { right; left; exists (mkUser 2 "retired" false); split; reflexivity. }
    destruct (Hrej Hwhy) as [code [msg [Hrun _]]].
    vm_compute in Hrun; injection Hrun as <- <-; reflexivity.
  - apply (create_failure_atomic demo_parse_boolean demo 5
             (minimal_create "analyst" "DNS" "10.0.0.1")).
    vm_compute; discriminate.
Defined.

(** C8, as it is stated, fails: NEW is a value of the status table, yet a
    PUT of it to an id without a row is answered 404. *)
Lemma update_status_unknown_id_404 :
  first_by_value (indicator_statuses demo) "NEW" = Some (mkTaxon 1 "NEW")
  /\ get_taxon (indicator_statuses demo) 9 = None
  /\ status_of (fst (update_indicator_status demo 9 (mkValueData "NEW")))
     = Some 404
  /\ status_of (fst (update_indicator_status demo 9 (mkValueData "NEW")))
     <> Some 409.
Proof. repeat split; discriminate. Qed.

Lemma demo_status_keys :
  primary_key (indicator_statuses demo)
  /\ unique_values (indicator_statuses demo).
Proof.
  unfold primary_key, unique_values; simpl.
  split; repeat constructor; simpl; intuition discriminate.
Defined.

Lemma status_values_stay_unique_witness :
  create_indicator_status demo (mkValueData "NEW")
  = (Responded (error_response 409 "Indicator status already exists"), demo)
  /\ update_indicator_status demo 2 (mkValueData "NEW")
     = (Responded (error_response 409 "Indicator status already exists"), demo)
  /\ unique_values
       (indicator_statuses
          (snd (create_indicator_status demo (mkValueData "CLOSED"))))
  /\ unique_values
       (indicator_statuses
          (snd (update_indicator_status demo 2 (mkValueData "CLOSED")))).
Proof.
  destruct (status_values_stay_unique demo 2 (mkValueData "NEW"))
    as [Hdup _].
  destruct (Hdup (mkTaxon 1 "NEW") eq_refl) as [Hpost [Hput _]].
  destruct (status_values_stay_unique demo 2 (mkValueData "CLOSED"))
    as [_ Huniq].
  destruct demo_status_keys as [Hpk Hu].
  destruct (Huniq Hpk Hu) as [Hc Hp].
  split; [exact Hpost|].
  split; [exact (Hput (mkTaxon 2 "ANALYZED") eq_refl)|].
  split; assumption.
Defined.

Lemma update_status_own_value_conflict_witness :
  update_indicator_status demo 2 (mkValueData "ANALYZED")
  = (Responded (error_response 409 "Indicator status already exists"), demo).
Proof.
  exact (proj1 (update_status_own_value_conflict demo 2
                  (mkTaxon 2 "ANALYZED") eq_refl)).
Defined.

Lemma delete_conflict_or_removed_witness :
  delete_indicator_status demo 1
  = (Responded (error_response 409
       "Unable to delete indicator status due to foreign key constraints"),
     demo)
  /\ (exists s', delete_indicator_status demo 2
                 = (Responded (mkResponse 204 NoBody None), s')
        /\ get_taxon (indicator_statuses s') 2 = None)
  /\ delete_indicator demo_referenced demo 1
     = (Responded (error_response 409
          "Unable to delete indicator due to foreign key constraints"), demo)
  /\ (exists s', delete_indicator demo_referenced demo 2
                 = (Responded (mkResponse 204 NoBody None), s')
        /\ get_indicator s' 2 = None).
Proof.
  destruct (delete_conflict_or_removed demo_referenced demo 1) as [Hs1 Hi1].
  destruct (delete_conflict_or_removed demo_referenced demo 2) as [Hs2 Hi2].
  destruct (Hs1 _ eq_refl) as [Hkept _].
  destruct (Hs2 _ eq_refl) as [_ Hgone].
  destruct (Hi1 _ eq_refl) as [Hikept _].
  destruct (Hi2 _ eq_refl) as [_ Higone].
  split; [exact (Hkept eq_refl)|].
  split; [destruct (Hgone eq_refl) as [s' [Hrun [Hnone _]]]; eauto|].
  split; [exact (Hikept eq_refl)|].
  destruct (Higone eq_refl) as [s' [Hrun [Hnone _]]]; eauto.
Defined.

Lemma demo_foreign_keys_positive : foreign_keys_positive demo.
Proof.
  split; simpl.
  - intros i [<-|[<-|[]]]; unfold keys_positive, positive_ref; simpl;
      repeat split; intros; try lia;
      match goal with H : Some _ = Some _ |- _ => injection H as <- end; lia.
  - intros r [<-|[]]; simpl; lia.
Defined.

Lemma demo_times_in_range : times_in_range demo.
Proof.
  intros i [<-|[<-|[]]]; unfold times_ok, in_range, date_min, date_max;
    simpl; lia.
Defined.

Lemma unresolved_filter_empty_witness :
  read_indicators demo_parse_boolean_arg demo_parse demo_like demo_page_of
    demo [("type", "IP"); ("confidence", "CERTAIN")]
  = (Responded (jsonify (JCollection [])), demo)
  /\ read_indicators demo_parse_boolean_arg demo_parse demo_like demo_page_of
       demo [("sources", "OSINT,rumour")]
     = (Responded (jsonify (JCollection [])), demo).
Proof.
  destruct (unresolved_filter_empty demo_parse_boolean_arg demo_parse
              demo_like demo_page_of demo
              [("type", "IP"); ("confidence", "CERTAIN")]
              demo_foreign_keys_positive) as [Hconfidence _].
  destruct (unresolved_filter_empty demo_parse_boolean_arg demo_parse
              demo_like demo_page_of demo [("sources", "OSINT,rumour")]
              demo_foreign_keys_positive) as [_ [_ [_ [_ Hsources]]]].
  split.
  - apply Hconfidence; exists "CERTAIN"; split; reflexivity.
  - apply Hsources; exists "OSINT,rumour", "rumour"; repeat split.
    simpl; tauto.
Defined.

Lemma unparseable_date_empty_witness :
  read_indicators demo_parse_boolean_arg demo_parse demo_like demo_page_of
    demo [("created_after", "yesterday-ish")]
  = (Responded (mkResponse 200 (JCollection []) None), demo)
  /\ read_indicators demo_parse_boolean_arg demo_parse demo_like demo_page_of
       demo [("type", "IP"); ("modified_before", "soon")]
     = (Responded (mkResponse 200 (JCollection []) None), demo).
Proof.
  destruct (unparseable_date_empty demo_parse_boolean_arg demo_parse
              demo_like demo_page_of demo [("created_after", "yesterday-ish")]
              demo_times_in_range) as [Hafter _].
  destruct (unparseable_date_empty demo_parse_boolean_arg demo_parse
              demo_like demo_page_of demo
              [("type", "IP"); ("modified_before", "soon")]
              demo_times_in_range) as [_ [_ [_ Hbefore]]].
  split.
  - apply Hafter; exists "yesterday-ish"; split; reflexivity.
  - apply Hbefore; exists "soon"; split; reflexivity.
Defined.

Close Scope string_scope.

(** * Further properties of the routes *)

(** ** Lookups after a write *)

Lemma find_fresh_last {A} (p : A -> bool) (l : list A) (y : A) :
  (forall x, In x l -> p x = false) -> p y = true ->
  find p (l ++ [y]) = Some y.
Proof.
  intros Hl Hy; induction l as [|a l IH]; simpl.
  - now rewrite Hy.
  - rewrite (Hl a) by now left.
    apply IH; intros x Hx; apply Hl; now right.
Qed.

Lemma get_taxon_fresh (rows : list Taxon) (v : string) :
  get_taxon (rows ++ [mkTaxon (next_id (map tx_id rows)) v])
            (next_id (map tx_id rows))
  = Some (mkTaxon (next_id (map tx_id rows)) v).
Proof.
  unfold get_taxon; apply find_fresh_last; simpl; [|apply Z.eqb_refl].
  intros x Hx; apply Z.eqb_neq.
  pose proof (next_id_above (map tx_id rows) (tx_id x) (in_map tx_id _ _ Hx)).
  lia.
Qed.

Lemma first_by_value_last (rows : list Taxon) (r : Taxon) :
  exists y, first_by_value (rows ++ [r]) (tx_value r) = Some y.
Proof.
  apply first_by_value_own, in_or_app; right; now left.
Qed.

(** ** The status routes, one after another *)

(** X1. A POST /indicators/status of a value that is not in the table is
    answered 201 with a row of that value whose id is above every id of
    the table and is the id of the Location; the row is added at the end of
    the table, the indicators are untouched, a GET of that id returns the
    row and the GET of the collection lists the table with the row. *)
Theorem create_status_then_read (s : Store) (data : ValueData) :
  first_by_value (indicator_statuses s) (v_value data) = None ->
  exists row s',
    create_indicator_status s data
    = (Responded (mkResponse 201 (JTaxon row)
         (Some ("api.read_indicator_status"%string, tx_id row))), s')
    /\ tx_value row = v_value data
    /\ (forall r, In r (indicator_statuses s) -> tx_id r < tx_id row)
    /\ indicator_statuses s' = indicator_statuses s ++ [row]
    /\ indicators s' = indicators s
    /\ read_indicator_status s' (tx_id row)
       = (Responded (jsonify (JTaxon row)), s')
    /\ read_indicator_statuses s'
       = (Responded (jsonify (JTaxons (indicator_statuses s ++ [row]))), s').
Proof.
  intros Hnew; unfold create_indicator_status; rewrite Hnew.
  do 2 eexists; split; [reflexivity|]; simpl.
  repeat split.
  - intros r Hr; apply next_id_above; now apply in_map.
  - unfold read_indicator_status; simpl.
    now rewrite get_taxon_fresh.
Qed.

(** X2. Whatever a POST /indicators/status did, the same POST again is
    answered 409 and changes nothing. *)
Theorem create_status_repeat_conflict (s : Store) (data : ValueData) :
  create_indicator_status (snd (create_indicator_status s data)) data
  = (Responded (error_response 409 "Indicator status already exists"),
     snd (create_indicator_status s data)).
Proof.
  unfold create_indicator_status at 2 3.
  destruct (first_by_value (indicator_statuses s) (v_value data)) eqn:E;
    simpl.
  - unfold create_indicator_status; now rewrite E.
  - unfold create_indicator_status; simpl.
    destruct (first_by_value_last (indicator_statuses s)
                (mkTaxon (next_id (map tx_id (indicator_statuses s)))
                         (v_value data))) as [y Hy].
    simpl in Hy; now rewrite Hy.
Qed.

(** X3. A PUT /indicators/status/<id> of a value that is not in the table
    to an id that has a row is answered 200 with that id and the value; a
    GET of the id then returns the same, every other id reads as before,
    the table has as many rows as before, and the indicators, hence the
    references onto the status table, are as before. *)
Theorem update_status_then_read (s : Store) (i : Z) (data : ValueData)
  (row : Taxon) :
  get_taxon (indicator_statuses s) i = Some row ->
  first_by_value (indicator_statuses s) (v_value data) = None ->
  exists s',
    update_indicator_status s i data
    = (Responded (jsonify (JTaxon (mkTaxon i (v_value data)))), s')
    /\ read_indicator_status s' i
       = (Responded (jsonify (JTaxon (mkTaxon i (v_value data)))), s')
    /\ (forall j, j <> i ->
          get_taxon (indicator_statuses s') j
          = get_taxon (indicator_statuses s) j)
    /\ List.length (indicator_statuses s') = List.length (indicator_statuses s)
    /\ indicators s' = indicators s
    /\ forall k, status_referenced s' k = status_referenced s k.
Proof.
  intros Hrow Hnew.
  destruct (get_taxon_some _ _ _ Hrow) as [_ Hid].
  unfold update_indicator_status; rewrite Hrow; simpl; rewrite Hnew, Hid.
  eexists; split; [reflexivity|]; simpl.
  assert (Hget : get_taxon
                   (map (fun x => if tx_id x =? i then mkTaxon i (v_value data)
                                  else x) (indicator_statuses s)) i
                 = Some (mkTaxon i (v_value data)))
    by (apply (find_after_replace tx_id _ i row); trivial).
  repeat split.
  - unfold read_indicator_status; simpl; now rewrite Hget.
  - intros j Hj; unfold get_taxon; now apply find_other_after_replace.
  - apply length_map.
Qed.

(** X4. After a DELETE /indicators/status/<id> that was answered 204, a
    GET, a PUT and a second DELETE of that id are answered 404; the delete
    left the indicators as they were, and no indicator referenced the
    id. *)
Theorem delete_status_then_gone (s s' : Store) (i : Z) (data : ValueData) :
  delete_indicator_status s i
  = (Responded (mkResponse 204 NoBody None), s') ->
  read_indicator_status s' i
  = (Responded (error_response 404 "Indicator status ID not found"), s')
  /\ update_indicator_status s' i data
     = (Responded (error_response 404 "Indicator status ID not found"), s')
  /\ delete_indicator_status s' i
     = (Responded (error_response 404 "Indicator status ID not found"), s')
  /\ indicators s' = indicators s
  /\ status_referenced s i = false.
Proof.
  unfold delete_indicator_status at 1, commit_delete_status.
  destruct (get_taxon (indicator_statuses s) i) as [row|] eqn:Hrow; simpl;
    [|discriminate].
  destruct (get_taxon_some _ _ _ Hrow) as [_ Hid]; rewrite Hid.
  destruct (status_referenced s i) eqn:Href; simpl; [discriminate|].
  intros H; injection H as <-.
  assert (Hgone : get_taxon (indicator_statuses
                    (with_indicator_statuses s
                       (filter (fun x => negb (tx_id x =? i))
                               (indicator_statuses s)))) i = None)
    by (simpl; apply find_after_delete).
  unfold read_indicator_status, update_indicator_status,
    delete_indicator_status; rewrite Hgone; simpl; auto.
Qed.

(** ** Names that resolve *)

Lemma resolve_campaigns (s : Store) (values : list string) (ids : list Z)
  (i : Indicator) :
  resolve (first_campaign s) campaign_id values = Some ids ->
  append_campaigns s values i
  = Continue (set_campaigns i (ind_campaigns i ++ ids)).
Proof.
  revert ids i; induction values as [|v vs IH]; simpl; intros ids i H.
  - injection H as <-; now rewrite set_campaigns_same.
  - destruct (first_campaign s v) as [c|]; [|discriminate].
    destruct (resolve (first_campaign s) campaign_id vs) as [rest|];
      [|discriminate].
    injection H as <-; simpl; rewrite (IH rest) by reflexivity.
    simpl; now rewrite <- app_assoc.
Qed.

Lemma resolve_references (s : Store) (values : list string) (ids : list Z)
  (i : Indicator) :
  resolve (first_reference s) reference_id values = Some ids ->
  append_references s values i
  = Continue (set_references i (ind_references i ++ ids)).
Proof.
  revert ids i; induction values as [|v vs IH]; simpl; intros ids i H.
  - injection H as <-; now rewrite set_references_same.
  - destruct (first_reference s v) as [c|]; [|discriminate].
    destruct (resolve (first_reference s) reference_id vs) as [rest|];
      [|discriminate].
    injection H as <-; simpl; rewrite (IH rest) by reflexivity.
    simpl; now rewrite <- app_assoc.
Qed.

Lemma resolve_tags (s : Store) (values : list string) (ids : list Z)
  (i : Indicator) :
  resolve (first_by_value (tags s)) tx_id values = Some ids ->
  append_tags s values i = Continue (set_tags i (ind_tags i ++ ids)).
Proof.
  revert ids i; induction values as [|v vs IH]; simpl; intros ids i H.
  - injection H as <-; now rewrite set_tags_same.
  - destruct (first_by_value (tags s) v) as [c|]; [|discriminate].
    destruct (resolve (first_by_value (tags s)) tx_id vs) as [rest|];
      [|discriminate].
    injection H as <-; simpl; rewrite (IH rest) by reflexivity.
    simpl; now rewrite <- app_assoc.
Qed.

Lemma resolve_known {A} (lookup : string -> option A) (key : A -> Z)
  (values : list string) :
  (forall v, In v values -> lookup v <> None) ->
  exists ids, resolve lookup key values = Some ids.
Proof.
  induction values as [|v vs IH]; simpl; intros Hall; [eauto|].
  destruct (lookup v) as [row|] eqn:E; [|now elim (Hall v (or_introl eq_refl))].
  destruct IH as [ids ->]; eauto.
Qed.

Lemma named_members_known {A} (lookup : string -> option A) (key : A -> Z)
  (field : option (list string)) :
  ~ names_unknown lookup field ->
  exists ids, named_members lookup key field = Some ids.
Proof.
  intros Hno; destruct field as [values|]; simpl; [|eauto].
  apply resolve_known; intros v Hv Hnone.
  apply Hno; exists values, v; auto.
Qed.

Lemma resolve_members {A} (lookup : string -> option A) (key : A -> Z)
  (rows : list A) (values : list string) (ids : list Z) :
  (forall v row, lookup v = Some row -> In row rows) ->
  resolve lookup key values = Some ids -> incl ids (map key rows).
Proof.
  intros Hrows; revert ids; induction values as [|v vs IH]; simpl;
    intros ids H.
  - injection H as <-; intros x [].
  - destruct (lookup v) as [row|] eqn:E; [|discriminate].
    destruct (resolve lookup key vs) as [rest|]; [|discriminate].
    injection H as <-; intros x [<-|Hx].
    + apply in_map; eauto.
    + now apply (IH rest).
Qed.

Lemma resolve_length {A} (lookup : string -> option A) (key : A -> Z)
  (values : list string) (ids : list Z) :
  resolve lookup key values = Some ids ->
  List.length ids = List.length values.
Proof.
  revert ids; induction values as [|v vs IH]; simpl; intros ids H.
  - now injection H as <-.
  - destruct (lookup v); [|discriminate].
    destruct (resolve lookup key vs) as [rest|]; [|discriminate].
    injection H as <-; simpl; f_equal; now apply IH.
Qed.

Lemma default_or_named_some (rows : list Taxon) (name : option string)
  (msg : string) (r : Taxon) :
  named_or_default rows name = Some r ->
  default_or_named rows name msg = Continue (Some r).
Proof.
  destruct name as [v|]; simpl; intros H; now rewrite H.
Qed.

Lemma chosen_named (rows : list Taxon) (name : option string) (ref : option Z) :
  chosen rows name ref ->
  exists r, named_or_default rows name = Some r /\ ref = Some (tx_id r).
Proof.
  intros [r [Href [_ Hsel]]]; exists r; split; [|assumption].
  destruct name; exact Hsel.
Qed.

(** ** Links *)

Lemma mem_iff (k : Z) (ks : list Z) : mem k ks = true <-> In k ks.
Proof.
  unfold mem; rewrite existsb_exists; split.
  - intros [x [Hx Heq]]; apply Z.eqb_eq in Heq; now subst.
  - intros Hin; exists k; split; [assumption|apply Z.eqb_refl].
Qed.

Lemma repeats_unique (ks : list Z) : repeats ks = false -> NoDup ks.
Proof.
  induction ks as [|k rest IH]; simpl; intros H; [constructor|].
  apply orb_false_elim in H; destruct H as [Hmem Hrest].
  constructor; [|now apply IH].
  intros Hin; apply mem_iff in Hin; congruence.
Qed.

Lemma keep_all (p : Z -> bool) (ks : list Z) :
  (forall k, In k ks -> p k = true) -> filter p ks = ks.
Proof.
  induction ks as [|k rest IH]; simpl; intros Hall; [reflexivity|].
  rewrite (Hall k) by now left.
  f_equal; apply IH; intros x Hx; apply Hall; now right.
Qed.

Lemma keep_none (p : Z -> bool) (ks : list Z) :
  (forall k, In k ks -> p k = false) -> filter p ks = [].
Proof.
  induction ks as [|k rest IH]; simpl; intros Hnone; [reflexivity|].
  rewrite (Hnone k) by now left.
  apply IH; intros x Hx; apply Hnone; now right.
Qed.


Lemma relinked_members (old members links : list Z) :
  relinked old members = Some links ->
  (forall k, In k links <-> In k members) /\ (NoDup old -> NoDup links).
Proof.
  unfold relinked.
  destruct (repeats (filter (fun k => negb (mem k old)) members)) eqn:Erep;
    [discriminate|].
  intros H; injection H as <-; split.
  - intros k; rewrite in_app_iff, !filter_In; cbv beta.
    destruct (mem k old) eqn:E; simpl.
    + apply mem_iff in E; rewrite mem_iff; intuition discriminate.
    + assert (Hno : ~ In k old) by (rewrite <- mem_iff; congruence).
      intuition.
  - intros Hold; apply NoDup_app;
      [now apply NoDup_filter|now apply repeats_unique|].
    intros k Hk Hk'; apply filter_In in Hk, Hk'.
    destruct Hk as [Hk _], Hk' as [_ Hk'].
    apply mem_iff in Hk; rewrite Hk in Hk'; discriminate.
Qed.

Lemma relinked_again (old members links : list Z) :
  relinked old members = Some links -> relinked links members = Some links.
Proof.
  intros H; destruct (relinked_members _ _ _ H) as [Hmem _].
  unfold relinked.
  rewrite (keep_none (fun k => negb (mem k links)) members), keep_all; simpl.
  - now rewrite app_nil_r.
  - intros k Hk; apply mem_iff; now apply Hmem.
  - intros k Hk; apply negb_false_iff, mem_iff; now apply Hmem.
Qed.


Section Accepted.

#[local] Set Default Proof Using "Type".

Variable parse_boolean : bool -> option bool -> bool.

(** The run of [create_indicator] up to its commit, when every lookup
    finds its row. *)
Lemma create_indicator_run (s : Store) (now : Z) (data : CreateData)
  (t : Taxon) (u : User) (cs rs ts : list Z) (conf imp st : Taxon) :
  first_by_value (indicator_types s) (c_type data) = Some t ->
  first_user s (c_username data) = Some u -> active u = true ->
  first_indicator s (tx_id t) (c_value data) = None ->
  named_members (first_campaign s) campaign_id (c_campaigns data) = Some cs ->
  named_or_default (indicator_confidences s) (c_confidence data) = Some conf ->
  named_or_default (indicator_impacts s) (c_impact data) = Some imp ->
  named_members (first_reference s) reference_id (c_references data)
  = Some rs ->
  named_or_default (indicator_statuses s) (c_status data) = Some st ->
  named_members (first_by_value (tags s)) tx_id (c_tags data) = Some ts ->
  create_indicator parse_boolean s now data
  = run s
      match commit_add_indicator s
              (mkIndicator 0 (tx_id t) (user_id u) (c_value data) cs
                 (named_flag parse_boolean (c_case_sensitive data))
                 (Some (tx_id conf)) (Some (tx_id imp)) rs (Some (tx_id st))
                 (named_flag parse_boolean (c_substring data)) ts now now)
      with
      | inl e => Finish (Unhandled e)
      | inr (row, s') =>
        Continue (mkResponse 201 (JIndicator row)
                    (Some ("api.read_indicator"%string, ind_id row)), s')
      end.
Proof.
  intros Et Eu Ea Enew Ec Econf Eimp Er Est Ets.
  unfold create_indicator, require_active.
  rewrite Et; cbn [first_or bind]; rewrite Eu; cbn [first_or bind].
  rewrite Ea; cbn [bind]; rewrite Enew; cbn [bind].
  rewrite (default_or_named_some _ _ _ _ Econf),
    (default_or_named_some _ _ _ _ Eimp),
    (default_or_named_some _ _ _ _ Est).
  destruct (c_campaigns data) as [cv|]; destruct (c_references data) as [rv|];
    destruct (c_tags data) as [tv|]; simpl in Ec, Er, Ets;
    cbn [when_given bind];
    try rewrite (resolve_campaigns _ _ _ _ Ec); cbn [bind];
    try rewrite (resolve_references _ _ _ _ Er); cbn [bind];
    try rewrite (resolve_tags _ _ _ _ Ets); cbn [bind];
    repeat match goal with
           | H : Some _ = Some _ |- _ => injection H as <-
           end;
    reflexivity.
Qed.

Lemma planned_stored (s : Store) (now : Z) (data : CreateData)
  (row : Indicator) :
  planned parse_boolean s now data = Some row ->
  create_indicator parse_boolean s now data
  = (Responded (mkResponse 201 (JIndicator row)
       (Some ("api.read_indicator"%string, ind_id row))),
     with_indicators s (indicators s ++ [row])).
Proof.
  unfold planned; intros H.
  destruct (first_by_value (indicator_types s) (c_type data)) as [t|] eqn:Et;
    [|discriminate].
  destruct (first_user s (c_username data)) as [u|] eqn:Eu; [|discriminate].
  destruct (active u) eqn:Ea; [|discriminate].
  destruct (first_indicator s (tx_id t) (c_value data)) eqn:Enew;
    [discriminate|].
  destruct (named_members (first_campaign s) campaign_id (c_campaigns data))
    as [cs|] eqn:Ec; [|discriminate].
  destruct (named_or_default (indicator_confidences s) (c_confidence data))
    as [conf|] eqn:Econf; [|discriminate].
  destruct (named_or_default (indicator_impacts s) (c_impact data))
    as [imp|] eqn:Eimp; [|discriminate].
  destruct (named_members (first_reference s) reference_id (c_references data))
    as [rs|] eqn:Er; [|discriminate].
  destruct (named_or_default (indicator_statuses s) (c_status data))
    as [st|] eqn:Est; [|discriminate].
  destruct (named_members (first_by_value (tags s)) tx_id (c_tags data))
    as [ts|] eqn:Ets; [|discriminate].
  destruct (repeats cs || repeats rs || repeats ts) eqn:Erep; [discriminate|].
  injection H as <-.
  rewrite (create_indicator_run s now data t u cs rs ts conf imp st)
    by assumption.
  unfold commit_add_indicator.
  cbn [_confidence_id _impact_id _status_id ind_campaigns ind_references
       ind_tags].
  now rewrite Erep.
Qed.

Lemma stored_planned (s s' : Store) (now : Z) (data : CreateData)
  (resp : Response) :
  create_indicator parse_boolean s now data = (Responded resp, s') ->
  status_code resp = 201 ->
  exists row, planned parse_boolean s now data = Some row.
Proof.
  intros Hrun Hcode.
  destruct (create_indicator_outcome parse_boolean s now data)
    as [[code [msg [E Hwhy]]]|[Hno [E|[row [E Hrow]]]]];
    rewrite E in Hrun.
  - injection Hrun as <- <-; simpl in Hcode; subst code.
    intuition discriminate.
  - discriminate.
  - clear Hrun Hcode.
    destruct Hrow as [[t [Et [Enew _]]] [_ [_ [_ [_ [Cc [Ci Cs]]]]]]].
    assert (Hu : ~ unresolved s data) by (intros H; apply Hno; now left).
    unfold unresolved in Hu.
    destruct (first_user s (c_username data)) as [u|] eqn:Eu; [|tauto].
    destruct (active u) eqn:Ea;
      [|elim Hno; right; left; exists u; auto].
    destruct (named_members_known (first_campaign s) campaign_id
                (c_campaigns data)) as [cs Ecs]; [tauto|].
    destruct (named_members_known (first_reference s) reference_id
                (c_references data)) as [rs Ers]; [tauto|].
    destruct (named_members_known (first_by_value (tags s)) tx_id
                (c_tags data)) as [ts Ets]; [tauto|].
    destruct (chosen_named _ _ _ Cc) as [conf [Econf _]].
    destruct (chosen_named _ _ _ Ci) as [imp [Eimp _]].
    destruct (chosen_named _ _ _ Cs) as [st [Est _]].
    unfold planned.
    rewrite Et, Eu, Ea, Enew, Ecs, Econf, Eimp, Ers, Est, Ets.
    destruct (repeats cs || repeats rs || repeats ts) eqn:Erep; [|eauto].
    rewrite (create_indicator_run s now data t u cs rs ts conf imp st) in E
      by assumption.
    unfold commit_add_indicator in E.
    cbn [_confidence_id _impact_id _status_id ind_campaigns ind_references
         ind_tags] in E.
    rewrite Erep in E; discriminate.
Qed.

(** Either the row [planned] gives is stored and answered with 201, or
    nothing is stored and the answer is not a 201. *)
Lemma create_indicator_plan (s : Store) (now : Z) (data : CreateData) :
  match planned parse_boolean s now data with
  | Some row =>
    create_indicator parse_boolean s now data
    = (Responded (mkResponse 201 (JIndicator row)
         (Some ("api.read_indicator"%string, ind_id row))),
       with_indicators s (indicators s ++ [row]))
  | None =>
    snd (create_indicator parse_boolean s now data) = s
    /\ status_of (fst (create_indicator parse_boolean s now data)) <> Some 201
  end.
Proof.
  destruct (planned parse_boolean s now data) as [row|] eqn:Hplan.
  - now apply planned_stored.
  - destruct (create_indicator_outcome parse_boolean s now data)
      as [[code [msg [E Hwhy]]]|[_ [E|[row [E _]]]]].
    + rewrite E; simpl; split; [reflexivity|].
      intros H; injection H as ->; intuition discriminate.
    + rewrite E; simpl; split; [reflexivity|discriminate].
    + destruct (stored_planned s _ now data _ E eq_refl) as [row' Hrow'].
      congruence.
Qed.

End Accepted.

Lemma named_or_default_in (rows : list Taxon) (name : option string)
  (r : Taxon) :
  named_or_default rows name = Some r -> In r rows.
Proof.
  destruct name as [v|]; simpl; intros H.
  - apply first_by_value_some in H; tauto.
  - destruct (first_by_id_lowest _ _ H) as [Hin _]; exact Hin.
Qed.

Lemma get_taxon_present (rows : list Taxon) (r : Taxon) :
  In r rows -> exists row, get_taxon rows (tx_id r) = Some row.
Proof.
  intros Hin; apply (find_present _ _ r Hin), Z.eqb_refl.
Qed.

Section Posted.

#[local] Set Default Proof Using "Type".

Variable parse_boolean : bool -> option bool -> bool.

(** What [planned] says of the row it gives. *)
Lemma planned_inv (s : Store) (now : Z) (data : CreateData) (row : Indicator) :
  planned parse_boolean s now data = Some row ->
  exists t u conf imp st,
    first_by_value (indicator_types s) (c_type data) = Some t
    /\ first_user s (c_username data) = Some u /\ active u = true
    /\ first_indicator s (tx_id t) (c_value data) = None
    /\ named_or_default (indicator_confidences s) (c_confidence data)
       = Some conf
    /\ named_or_default (indicator_impacts s) (c_impact data) = Some imp
    /\ named_or_default (indicator_statuses s) (c_status data) = Some st
    /\ named_members (first_campaign s) campaign_id (c_campaigns data)
       = Some (ind_campaigns row)
    /\ named_members (first_reference s) reference_id (c_references data)
       = Some (ind_references row)
    /\ named_members (first_by_value (tags s)) tx_id (c_tags data)
       = Some (ind_tags row)
    /\ row = mkIndicator (next_id (map ind_id (indicators s)))
               (tx_id t) (user_id u) (c_value data) (ind_campaigns row)
               (named_flag parse_boolean (c_case_sensitive data))
               (Some (tx_id conf)) (Some (tx_id imp)) (ind_references row)
               (Some (tx_id st))
               (named_flag parse_boolean (c_substring data)) (ind_tags row)
               now now.
Proof.
  unfold planned; intros H.
  destruct (first_by_value (indicator_types s) (c_type data)) as [t|] eqn:Et;
    [|discriminate].
  destruct (first_user s (c_username data)) as [u|] eqn:Eu; [|discriminate].
  destruct (active u) eqn:Ea; [|discriminate].
  destruct (first_indicator s (tx_id t) (c_value data)) eqn:Enew;
    [discriminate|].
  destruct (named_members (first_campaign s) campaign_id (c_campaigns data))
    as [cs|] eqn:Ec; [|discriminate].
  destruct (named_or_default (indicator_confidences s) (c_confidence data))
    as [conf|] eqn:Econf; [|discriminate].
  destruct (named_or_default (indicator_impacts s) (c_impact data))
    as [imp|] eqn:Eimp; [|discriminate].
  destruct (named_members (first_reference s) reference_id (c_references data))
    as [rs|] eqn:Er; [|discriminate].
  destruct (named_or_default (indicator_statuses s) (c_status data))
    as [st|] eqn:Est; [|discriminate].
  destruct (named_members (first_by_value (tags s)) tx_id (c_tags data))
    as [ts|] eqn:Ets; [|discriminate].
  destruct (repeats cs || repeats rs || repeats ts); [discriminate|].
  injection H as <-; exists t, u, conf, imp, st; simpl.
  repeat split; trivial.
Qed.


(** A 201 is the answer for the planned row. *)
Lemma created_planned (s s' : Store) (now : Z) (data : CreateData)
  (resp : Response) :
  create_indicator parse_boolean s now data = (Responded resp, s') ->
  status_code resp = 201 ->
  exists row,
    planned parse_boolean s now data = Some row
    /\ resp = mkResponse 201 (JIndicator row)
                (Some ("api.read_indicator"%string, ind_id row))
    /\ s' = with_indicators s (indicators s ++ [row]).
Proof.
  intros Hrun Hcode.
  destruct (stored_planned parse_boolean s s' now data resp Hrun Hcode)
    as [row Hplan].
  exists row; split; [assumption|].
  rewrite (planned_stored parse_boolean s now data row Hplan) in Hrun.
  injection Hrun as <- <-; auto.
Qed.



(** X7. After a POST /indicators that was answered 201, a GET of the new
    id returns the body of that response, and the same POST again, at any
    later time, is answered 409 and changes nothing. *)
Theorem create_then_read_and_repost (s s' : Store) (now later : Z)
  (data : CreateData) (resp : Response) :
  create_indicator parse_boolean s now data = (Responded resp, s') ->
  status_code resp = 201 ->
  exists row,
    body resp = JIndicator row
    /\ read_indicator s' (ind_id row)
       = (Responded (jsonify (JIndicator row)), s')
    /\ create_indicator parse_boolean s' later data
       = (Responded (error_response 409 "Indicator already exists"), s').
Proof.
  intros Hrun Hcode.
  destruct (created_planned s s' now data resp Hrun Hcode)
    as [row [Hplan [-> ->]]].
  destruct (planned_inv s now data row Hplan)
    as [t [u [conf [imp [st [Et [Eu [Ea [_ [_ [_ [_ [_ [_ [_ Hrow]]]]]]]]]]]]]]].
  exists row; split; [reflexivity|]; split.
  - unfold read_indicator, get_indicator; simpl.
    rewrite find_fresh_last; [reflexivity| |].
    + intros x Hx; apply Z.eqb_neq.
      pose proof (next_id_above (map ind_id (indicators s)) (ind_id x)
                    (in_map ind_id _ _ Hx)) as Hlt.
      rewrite Hrow; simpl; lia.
    + apply Z.eqb_refl.
  - unfold create_indicator, require_active, first_user, first_indicator.
    cbn [indicator_types users indicators with_indicators].
    fold (first_user s (c_username data)).
    rewrite Et; cbn [first_or bind]; rewrite Eu; cbn [first_or bind].
    rewrite Ea; cbn [bind].
    destruct (find_present
                (fun i => (_type_id i =? tx_id t)
                          && String.eqb (ind_value i) (c_value data))
                (indicators s ++ [row]) row) as [y Hy].
    + apply in_or_app; right; now left.
    + rewrite Hrow; simpl; now rewrite Z.eqb_refl, String.eqb_refl.
    + now rewrite Hy.
Qed.

(** X8. After a POST /indicators that was answered 201, the DELETE of the
    status row the new indicator references is answered 409 and changes
    nothing. *)
Theorem create_then_delete_status_conflict (s s' : Store) (now : Z)
  (data : CreateData) (resp : Response) :
  create_indicator parse_boolean s now data = (Responded resp, s') ->
  status_code resp = 201 ->
  exists row k,
    body resp = JIndicator row /\ _status_id row = Some k
    /\ delete_indicator_status s' k
       = (Responded (error_response 409
            "Unable to delete indicator status due to foreign key constraints"),
          s').
Proof.
  intros Hrun Hcode.
  destruct (created_planned s s' now data resp Hrun Hcode)
    as [row [Hplan [-> ->]]].
  destruct (planned_inv s now data row Hplan)
    as [t [u [conf [imp [st [_ [_ [_ [_ [_ [_ [Est [_ [_ [_ Hrow]]]]]]]]]]]]]]].
  exists row, (tx_id st); split; [reflexivity|].
  split; [rewrite Hrow; reflexivity|].
  destruct (get_taxon_present _ _ (named_or_default_in _ _ _ Est))
    as [found Hfound].
  destruct (get_taxon_some _ _ _ Hfound) as [_ Hid].
  unfold delete_indicator_status, commit_delete_status.
  cbn [indicator_statuses with_indicators]; rewrite Hfound.
  cbn [first_or bind]; rewrite Hid.
  assert (Href : status_referenced
                   (with_indicators s (indicators s ++ [row])) (tx_id st)
                 = true).
  { unfold status_referenced; simpl; apply existsb_exists.
    exists row; split; [apply in_or_app; right; now left|].
    rewrite Hrow; simpl; apply Z.eqb_refl. }
  now rewrite Href.
Qed.


End Posted.

(** ** The steps of [update_indicator], in closed form *)

Lemma relationship_set_resolve {A} (lookup : string -> option A) (key : A -> Z)
  (valid : string -> option Z) (values : list string) :
  (forall v, valid v = option_map key (lookup v)) ->
  relationship_set (map valid values)
  = match resolve lookup key values with
    | Some ids => Continue ids
    | None => Finish (Unhandled FlushError)
    end.
Proof.
  intros Hvalid; induction values as [|v vs IH]; simpl; [reflexivity|].
  rewrite Hvalid; destruct (lookup v) as [row|]; simpl; [|reflexivity].
  rewrite IH; now destruct (resolve lookup key vs).
Qed.

Lemma relationship_assign_relinked (old members : list Z) :
  relationship_assign old members
  = match relinked old members with
    | Some links => Continue links
    | None => Finish (Unhandled IntegrityError)
    end.
Proof.
  unfold relationship_assign, relinked.
  now destruct (repeats (filter (fun k => negb (mem k old)) members)).
Qed.

Lemma given_members {A} (lookup : string -> option A) (key : A -> Z)
  (valid : string -> option Z) (get : Indicator -> list Z)
  (set : Indicator -> list Z -> Indicator)
  (old : list Z) (field : option (list string)) (i : Indicator) :
  (forall v, valid v = option_map key (lookup v)) ->
  get i = old -> set i old = i ->
  match replaced_members lookup key field old with
  | Some links =>
    when_given field i (fun values =>
      assign_if_any (map valid values) i get set)
    = Continue (set i links)
  | None =>
    exists e,
      when_given field i (fun values =>
        assign_if_any (map valid values) i get set)
      = Finish (Unhandled e)
  end.
Proof.
  intros Hvalid Hget Heta; destruct field as [[|v vs]|];
    cbn [when_given replaced_members];
    try (simpl; now rewrite Heta).
  unfold assign_if_any.
  change (valid v :: map valid vs) with (map valid (v :: vs)).
  rewrite (relationship_set_resolve lookup key valid (v :: vs) Hvalid).
  destruct (resolve lookup key (v :: vs)) as [members|]; cbn [bind];
    [|now exists FlushError].
  rewrite Hget, relationship_assign_relinked.
  destruct (relinked old members); cbn [bind];
    [reflexivity|now exists IntegrityError].
Qed.

Lemma given_ref (rows : list Taxon) (msg : string)
  (set : Indicator -> option Z -> Indicator)
  (old : option Z) (field : option string) (i : Indicator) :
  set i old = i ->
  match replaced_ref rows field old with
  | Some ref =>
    when_given field i (fun v =>
      do row <- first_or (first_by_value rows v) 404 (format msg v);
      Continue (set i (Some (tx_id row))))
    = Continue (set i ref)
  | None =>
    exists m,
      when_given field i (fun v =>
        do row <- first_or (first_by_value rows v) 404 (format msg v);
        Continue (set i (Some (tx_id row))))
      = abort 404 m
  end.
Proof.
  intros Heta; destruct field as [v|]; simpl; [|now rewrite Heta].
  destruct (first_by_value rows v); simpl;
    [reflexivity|now exists (format msg v)].
Qed.

Lemma given_user (s : Store) (old : Z) (field : option string)
  (i : Indicator) :
  set_user i old = i ->
  match replaced_user s field old with
  | Some k =>
    when_given field i (fun name =>
      do user <- first_or (first_user s name)
                   404 (format "User username not found: " name);
      do _ <- require_active user
                "Cannot update an indicator with an inactive user";
      Continue (set_user i (user_id user)))
    = Continue (set_user i k)
  | None =>
    exists code m,
      (code = 404 \/ code = 401)
      /\ when_given field i (fun name =>
           do user <- first_or (first_user s name)
                        404 (format "User username not found: " name);
           do _ <- require_active user
                     "Cannot update an indicator with an inactive user";
           Continue (set_user i (user_id user)))
         = abort code m
  end.
Proof.
  intros Heta; destruct field as [name|]; simpl; [|now rewrite Heta].
  destruct (first_user s name) as [u|]; simpl;
    [|exists 404; eexists; split; [now left|reflexivity]].
  unfold require_active; destruct (active u); simpl;
    [reflexivity|exists 401; eexists; split; [now right|reflexivity]].
Qed.

Lemma given_flag (parse_boolean : bool -> option bool -> bool)
  (set : Indicator -> bool -> Indicator) (old : bool)
  (field : option bool) (i : Indicator) :
  set i old = i ->
  when_given field i (fun b =>
    Continue (set i (parse_boolean b (Some false))))
  = Continue (set i (replaced_flag parse_boolean field old)).
Proof.
  intros Heta; destruct field; simpl; [reflexivity|now rewrite Heta].
Qed.

Section Put.

#[local] Set Default Proof Using "Type".

Variable parse_boolean : bool -> option bool -> bool.

Ltac flatten :=
  cbn [bind run set_id set_user set_campaigns set_case_sensitive
       set_confidence set_impact set_references set_status set_substring
       set_tags ind_id _type_id _user_id ind_value ind_campaigns
       case_sensitive _confidence_id _impact_id ind_references _status_id
       substring ind_tags created_time modified_time].

Ltac members_step lookup key valid get set old :=
  match goal with
  | |- context [when_given ?f ?x _] =>
    let H := fresh "Hstep" in
    assert (H := given_members lookup key valid get set old f x
                   (fun _ => eq_refl) eq_refl eq_refl);
    destruct (replaced_members lookup key f old);
    [rewrite H; clear H; flatten
    |destruct H as [e H];
     rewrite H; cbn [bind run]; split; [reflexivity|discriminate]]
  end.

Ltac ref_step rows msg set old :=
  match goal with
  | |- context [when_given ?f ?x _] =>
    let H := fresh "Hstep" in
    assert (H := given_ref rows msg set old f x eq_refl);
    destruct (replaced_ref rows f old);
    [rewrite H; clear H; flatten
    |destruct H as [m H];
     rewrite H; cbn [bind run abort]; split; [reflexivity|discriminate]]
  end.

(** Either the indicator [updated] gives is committed and answered with
    200, or nothing is committed and the answer is not a 200. *)
Lemma update_indicator_plan (s : Store) (i : Z) (data : UpdateData)
  (ind : Indicator) :
  get_indicator s i = Some ind ->
  match updated parse_boolean s data ind with
  | Some final =>
    update_indicator parse_boolean s i data
    = (Responded (jsonify (JIndicator final)),
       commit_update_indicator s final)
  | None =>
    snd (update_indicator parse_boolean s i data) = s
    /\ status_of (fst (update_indicator parse_boolean s i data)) <> Some 200
  end.
Proof.
  intros Hget; unfold update_indicator, updated.
  rewrite Hget; cbn [first_or bind]; clear Hget.
  destruct ind as [id ty us val cs0 case0 conf0 imp0 rs0 st0 sub0 ts0 cr mo].
  flatten.
  members_step (first_campaign s) campaign_id (valid_campaign s)
    ind_campaigns set_campaigns cs0.
  rewrite (given_flag parse_boolean set_case_sensitive case0)
    by reflexivity; flatten.
  ref_step (indicator_confidences s) "Indicator confidence not found: "%string
    set_confidence conf0.
  ref_step (indicator_impacts s) "Indicator impact not found: "%string
    set_impact imp0.
  members_step (first_reference s) reference_id (valid_reference s)
    ind_references set_references rs0.
  ref_step (indicator_statuses s) "Indicator status not found: "%string
    set_status st0.
  rewrite (given_flag parse_boolean set_substring sub0)
    by reflexivity; flatten.
  members_step (first_by_value (tags s)) tx_id (valid_tag s)
    ind_tags set_tags ts0.
  match goal with
  | |- context [when_given (u_username data) ?x _] =>
    assert (Hstep := given_user s us (u_username data) x eq_refl)
  end.
  destruct (replaced_user s (u_username data) us).
  - rewrite Hstep; flatten; reflexivity.
  - destruct Hstep as [code [m [Hcode Hstep]]].
    rewrite Hstep; cbn [bind run abort]; split; [reflexivity|].
    simpl; intros H; injection H as ->; destruct Hcode; discriminate.
Qed.

End Put.

Lemma replaced_members_again {A} (lookup : string -> option A) (key : A -> Z)
  (field : option (list string)) (old members : list Z) :
  replaced_members lookup key field old = Some members ->
  replaced_members lookup key field members = Some members.
Proof.
  destruct field as [[|v vs]|]; cbn [replaced_members]; trivial.
  destruct (resolve lookup key (v :: vs)) as [named|]; [|discriminate].
  apply relinked_again.
Qed.


Lemma replaced_ref_again (rows : list Taxon) (field : option string)
  (old ref : option Z) :
  replaced_ref rows field old = Some ref ->
  replaced_ref rows field ref = Some ref.
Proof. destruct field; simpl; trivial. Qed.

Lemma replaced_user_again (s : Store) (field : option string) (old k : Z) :
  replaced_user s field old = Some k -> replaced_user s field k = Some k.
Proof. destruct field; simpl; trivial. Qed.

Lemma replaced_flag_again (parse_boolean : bool -> option bool -> bool)
  (field : option bool) (old : bool) :
  replaced_flag parse_boolean field (replaced_flag parse_boolean field old)
  = replaced_flag parse_boolean field old.
Proof. now destruct field. Qed.

Lemma commit_update_again (s : Store) (final : Indicator) :
  commit_update_indicator (commit_update_indicator s final) final
  = commit_update_indicator s final.
Proof.
  unfold commit_update_indicator, with_indicators; simpl; f_equal.
  rewrite map_map; apply map_ext; intros x.
  destruct (ind_id x =? ind_id final) eqn:E; [now rewrite Z.eqb_refl|].
  now rewrite E.
Qed.

Section PutProperties.

#[local] Set Default Proof Using "Type".

Variable parse_boolean : bool -> option bool -> bool.

(** A 200 is the answer for the indicator [updated] gives. *)
Lemma put_updated (s s' : Store) (i : Z) (data : UpdateData)
  (resp : Response) :
  update_indicator parse_boolean s i data = (Responded resp, s') ->
  status_code resp = 200 ->
  exists ind final,
    get_indicator s i = Some ind
    /\ updated parse_boolean s data ind = Some final
    /\ resp = jsonify (JIndicator final)
    /\ s' = commit_update_indicator s final.
Proof.
  intros Hrun Hcode.
  destruct (get_indicator s i) as [ind|] eqn:Hget.
  - pose proof (update_indicator_plan parse_boolean s i data ind Hget) as Hplan.
    destruct (updated parse_boolean s data ind) as [final|] eqn:Hup.
    + rewrite Hplan in Hrun; injection Hrun as <- <-.
      exists ind, final; auto.
    + destruct Hplan as [_ Hno]; rewrite Hrun in Hno; simpl in Hno.
      elim Hno; now rewrite Hcode.
  - unfold update_indicator in Hrun; rewrite Hget in Hrun; simpl in Hrun.
    injection Hrun as <- <-; discriminate.
Qed.

Lemma updated_again (s : Store) (data : UpdateData) (ind final : Indicator) :
  updated parse_boolean s data ind = Some final ->
  updated parse_boolean (commit_update_indicator s final) data final
  = Some final.
Proof.
  intros H.
  change (updated parse_boolean (commit_update_indicator s final) data final)
    with (updated parse_boolean s data final).
  unfold updated in H.
  destruct (replaced_members (first_campaign s) campaign_id (u_campaigns data)
              (ind_campaigns ind)) as [cs|] eqn:Ec; [|discriminate].
  destruct (replaced_ref (indicator_confidences s) (u_confidence data)
              (_confidence_id ind)) as [conf|] eqn:Econf; [|discriminate].
  destruct (replaced_ref (indicator_impacts s) (u_impact data)
              (_impact_id ind)) as [imp|] eqn:Eimp; [|discriminate].
  destruct (replaced_members (first_reference s) reference_id
              (u_references data) (ind_references ind)) as [rs|] eqn:Er;
    [|discriminate].
  destruct (replaced_ref (indicator_statuses s) (u_status data)
              (_status_id ind)) as [st|] eqn:Est; [|discriminate].
  destruct (replaced_members (first_by_value (tags s)) tx_id (u_tags data)
              (ind_tags ind)) as [ts|] eqn:Ets; [|discriminate].
  destruct (replaced_user s (u_username data) (_user_id ind)) as [u|] eqn:Eu;
    [|discriminate].
  injection H as <-; unfold updated.
  cbn [ind_campaigns _confidence_id _impact_id ind_references _status_id
       ind_tags _user_id case_sensitive substring ind_id _type_id ind_value
       created_time modified_time].
  rewrite (replaced_members_again _ _ _ _ _ Ec),
    (replaced_ref_again _ _ _ _ Econf), (replaced_ref_again _ _ _ _ Eimp),
    (replaced_members_again _ _ _ _ _ Er), (replaced_ref_again _ _ _ _ Est),
    (replaced_members_again _ _ _ _ _ Ets), (replaced_user_again _ _ _ _ Eu).
  now rewrite !replaced_flag_again.
Qed.


(** X10. A PUT /indicators/<id> that is not answered 200 leaves the store
    as it was: the assignments made before the failing field are not
    persisted. *)
Theorem update_failure_atomic (s : Store) (i : Z) (data : UpdateData) :
  status_of (fst (update_indicator parse_boolean s i data)) <> Some 200 ->
  snd (update_indicator parse_boolean s i data) = s.
Proof.
  intros Hno.
  destruct (get_indicator s i) as [ind|] eqn:Hget.
  - pose proof (update_indicator_plan parse_boolean s i data ind Hget) as Hplan.
    destruct (updated parse_boolean s data ind) as [final|]; [|tauto].
    rewrite Hplan in Hno; now elim Hno.
  - unfold update_indicator; now rewrite Hget.
Qed.


(** X12. A PUT /indicators/<id> that was answered 200 is idempotent: the
    same PUT again gives the same response and the same store, and a GET of
    the id gives that response too. *)
Theorem update_idempotent (s s' : Store) (i : Z) (data : UpdateData)
  (resp : Response) :
  update_indicator parse_boolean s i data = (Responded resp, s') ->
  status_code resp = 200 ->
  update_indicator parse_boolean s' i data = (Responded resp, s')
  /\ read_indicator s' i = (Responded resp, s').
Proof.
  intros Hrun Hcode.
  destruct (put_updated s s' i data resp Hrun Hcode)
    as [ind [final [Hget [Hup [-> ->]]]]].
  destruct (get_indicator_some _ _ _ Hget) as [_ Hid].
  assert (Hfid : ind_id final = i).
  { unfold updated in Hup.
    repeat match type of Hup with
           | match ?x with _ => _ end = _ =>
             destruct x; [|discriminate]
           end.
    injection Hup as <-; exact Hid. }
  destruct (get_after_commit_update s ind final i Hget Hfid) as [Hget' _].
  split.
  - pose proof (update_indicator_plan parse_boolean _ i data final Hget')
      as Hplan.
    rewrite (updated_again s data ind final Hup) in Hplan.
    now rewrite Hplan, commit_update_again.
  - unfold read_indicator; now rewrite Hget'.
Qed.

End PutProperties.

(** ** What the writing routes keep *)

Lemma replace_keeps_key (rows : list Indicator) (new : Indicator) :
  map ind_id (map (fun x => if ind_id x =? ind_id new then new else x) rows)
  = map ind_id rows.
Proof.
  induction rows as [|x rest IH]; simpl; [reflexivity|].
  rewrite IH; f_equal.
  destruct (ind_id x =? ind_id new) eqn:E; [|reflexivity].
  symmetry; now apply Z.eqb_eq.
Qed.

Lemma delete_keeps_indicator_key (rows : list Indicator) (i : Z) :
  indicator_key rows ->
  indicator_key (filter (fun x => negb (ind_id x =? i)) rows).
Proof.
  unfold indicator_key; intros Hkey.
  induction rows as [|row rest IH]; simpl; [constructor|].
  apply NoDup_cons_iff in Hkey; destruct Hkey as [Hfresh Hrest].
  destruct (ind_id row =? i); simpl; [now apply IH|].
  constructor; [|now apply IH].
  rewrite in_map_iff; intros [x [Hx Hin]].
  apply filter_In in Hin; apply Hfresh.
  rewrite <- Hx; apply in_map; tauto.
Qed.

Lemma replaced_members_known {A} (lookup : string -> option A) (key : A -> Z)
  (rows : list A) (field : option (list string)) (old members : list Z) :
  (forall v row, lookup v = Some row -> In row rows) ->
  incl old (map key rows) ->
  replaced_members lookup key field old = Some members ->
  incl members (map key rows).
Proof.
  intros Hrows Hold; destruct field as [[|v vs]|]; cbn [replaced_members];
    intros H; try (injection H as <-; assumption).
  destruct (resolve lookup key (v :: vs)) as [named|] eqn:E; [|discriminate].
  destruct (relinked_members _ _ _ H) as [Hmem _].
  intros k Hk; apply Hmem in Hk.
  now apply (resolve_members lookup key rows (v :: vs) named).
Qed.

Lemma replaced_ref_known (rows : list Taxon) (field : option string)
  (old ref : option Z) :
  known (map tx_id rows) old ->
  replaced_ref rows field old = Some ref -> known (map tx_id rows) ref.
Proof.
  intros Hold; destruct field as [v|]; simpl; intros H.
  - destruct (first_by_value rows v) as [r|] eqn:E; [|discriminate].
    injection H as <-; intros k Hk; injection Hk as <-.
    apply in_map; now apply first_by_value_some in E.
  - now injection H as <-.
Qed.

Lemma replaced_user_known (s : Store) (field : option string) (old k : Z) :
  In old (map user_id (users s)) ->
  replaced_user s field old = Some k -> In k (map user_id (users s)).
Proof.
  intros Hold; destruct field as [name|]; simpl; intros H.
  - destruct (first_user s name) as [u|] eqn:E; [|discriminate].
    destruct (active u); [|discriminate].
    injection H as <-; apply in_map.
    unfold first_user in E; now apply find_some in E.
  - now injection H as <-.
Qed.

Lemma first_campaign_in (s : Store) (v : string) (row : Campaign) :
  first_campaign s v = Some row -> In row (campaigns s).
Proof. intros H; now apply find_some in H. Qed.

Lemma first_reference_in (s : Store) (v : string) (row : IntelReference) :
  first_reference s v = Some row -> In row (intel_references s).
Proof. intros H; now apply find_some in H. Qed.

Lemma first_tag_in (s : Store) (v : string) (row : Taxon) :
  first_by_value (tags s) v = Some row -> In row (tags s).
Proof. intros H; now apply first_by_value_some in H. Qed.

Lemma named_members_known_ids {A} (lookup : string -> option A) (key : A -> Z)
  (rows : list A) (field : option (list string)) (members : list Z) :
  (forall v row, lookup v = Some row -> In row rows) ->
  named_members lookup key field = Some members ->
  incl members (map key rows).
Proof.
  intros Hrows; destruct field as [values|]; simpl; intros H.
  - now apply (resolve_members lookup key rows values).
  - injection H as <-; intros x [].
Qed.


Section Kept.

#[local] Set Default Proof Using "Type".

Variable parse_boolean : bool -> option bool -> bool.
Variable indicator_referenced : Store -> Z -> bool.

(** X13. The ids of the stored indicators stay pairwise distinct under
    POST, PUT and DELETE of an indicator, and the three writing status
    routes do not touch the indicators. *)
Theorem indicator_key_kept (s : Store) (now i : Z) (created : CreateData)
  (changed : UpdateData) (value : ValueData) :
  indicator_key (indicators s) ->
  indicator_key
    (indicators (snd (create_indicator parse_boolean s now created)))
  /\ indicator_key
       (indicators (snd (update_indicator parse_boolean s i changed)))
  /\ indicator_key
       (indicators (snd (delete_indicator indicator_referenced s i)))
  /\ indicators (snd (create_indicator_status s value)) = indicators s
  /\ indicators (snd (update_indicator_status s i value)) = indicators s
  /\ indicators (snd (delete_indicator_status s i)) = indicators s.
Proof.
  intros Hkey; split; [|split; [|split; [|split; [|split]]]].
  - pose proof (create_indicator_plan parse_boolean s now created) as Hplan.
    destruct (planned parse_boolean s now created) as [row|] eqn:Hrow.
    + rewrite Hplan; simpl; unfold indicator_key; rewrite map_app; simpl.
      apply NoDup_snoc; [exact Hkey|].
      destruct (planned_inv parse_boolean s now created row Hrow)
        as [t [u [conf [imp [st H]]]]].
      decompose [and] H; clear H.
      match goal with H : row = _ |- _ => rewrite H end; simpl.
      apply next_id_fresh.
    + destruct Hplan as [-> _]; exact Hkey.
  - destruct (get_indicator s i) as [ind|] eqn:Hget;
      [|unfold update_indicator; now rewrite Hget].
    pose proof (update_indicator_plan parse_boolean s i changed ind Hget)
      as Hplan.
    destruct (updated parse_boolean s changed ind) as [final|].
    + rewrite Hplan; simpl; unfold indicator_key.
      now rewrite replace_keeps_key.
    + destruct Hplan as [-> _]; exact Hkey.
  - unfold delete_indicator, commit_delete_indicator.
    destruct (get_indicator s i) as [ind|]; cbn [first_or bind run snd];
      trivial.
    destruct (indicator_referenced s (ind_id ind)); cbn [run abort snd];
      trivial.
    simpl; now apply delete_keeps_indicator_key.
  - unfold create_indicator_status.
    now destruct (first_by_value _ _).
  - unfold update_indicator_status.
    destruct (get_taxon _ i); simpl; trivial.
    now destruct (first_by_value _ _).
  - unfold delete_indicator_status, commit_delete_status.
    destruct (get_taxon _ i) as [row|]; simpl; trivial.
    now destruct (status_referenced s (tx_id row)).
Qed.


(** X14. Referential integrity is kept by every writing route: when the
    type, user, confidence, impact, status, campaigns, references and tags
    of every stored indicator name stored rows, they still do after a POST,
    PUT or DELETE of an indicator or of a status. *)
Theorem referential_integrity_kept (s : Store) (now i : Z)
  (created : CreateData) (changed : UpdateData) (value : ValueData) :
  referential_integrity s ->
  referential_integrity (snd (create_indicator parse_boolean s now created))
  /\ referential_integrity
       (snd (update_indicator parse_boolean s i changed))
  /\ referential_integrity (snd (delete_indicator indicator_referenced s i))
  /\ referential_integrity (snd (create_indicator_status s value))
  /\ referential_integrity (snd (update_indicator_status s i value))
  /\ referential_integrity (snd (delete_indicator_status s i)).
Proof.
  intros Hint; split; [|split; [|split; [|split; [|split]]]].
  - pose proof (create_indicator_plan parse_boolean s now created) as Hplan.
    destruct (planned parse_boolean s now created) as [row|] eqn:Hrow;
      [|destruct Hplan as [-> _]; exact Hint].
    rewrite Hplan; simpl; intros x Hx; simpl in Hx.
    apply in_app_or in Hx; destruct Hx as [Hx|[<-|[]]]; [exact (Hint x Hx)|].
    destruct (planned_inv parse_boolean s now created row Hrow)
      as [t [u [conf [imp [st [Et [Eu [_ [_ [Econf [Eimp [Est [Ec [Er [Ets Hr]]]]]]]]]]]]]]].
    rewrite Hr; unfold row_resolves, known; simpl.
    apply first_by_value_some in Et.
    unfold first_user in Eu; apply find_some in Eu.
    apply named_or_default_in in Econf, Eimp, Est.
    repeat split;
      try (intros k Hk; injection Hk as <-); try (apply in_map; tauto).
    + exact (named_members_known_ids _ _ _ _ _ (first_campaign_in s) Ec).
    + exact (named_members_known_ids _ _ _ _ _ (first_reference_in s) Er).
    + exact (named_members_known_ids _ _ _ _ _ (first_tag_in s) Ets).
  - destruct (get_indicator s i) as [ind|] eqn:Hget;
      [|unfold update_indicator; now rewrite Hget].
    pose proof (update_indicator_plan parse_boolean s i changed ind Hget)
      as Hplan.
    destruct (updated parse_boolean s changed ind) as [final|] eqn:Hup;
      [|destruct Hplan as [-> _]; exact Hint].
    rewrite Hplan; simpl; intros x Hx; simpl in Hx.
    apply in_map_iff in Hx; destruct Hx as [y [Hy Hin]].
    destruct (ind_id y =? ind_id final); [|subst x; exact (Hint y Hin)].
    subst x; clear y Hin.
    apply get_indicator_some in Hget; destruct Hget as [Hin _].
    destruct (Hint ind Hin) as [Ht [Hu [Hc [Hi [Hs [Hcs [Hrs Hts]]]]]]].
    unfold updated in Hup.
    destruct (replaced_members (first_campaign s) campaign_id _ _)
      as [cs|] eqn:Ec; [|discriminate].
    destruct (replaced_ref (indicator_confidences s) _ _)
      as [conf|] eqn:Econf; [|discriminate].
    destruct (replaced_ref (indicator_impacts s) _ _)
      as [imp|] eqn:Eimp; [|discriminate].
    destruct (replaced_members (first_reference s) reference_id _ _)
      as [rs|] eqn:Er; [|discriminate].
    destruct (replaced_ref (indicator_statuses s) _ _)
      as [st|] eqn:Est; [|discriminate].
    destruct (replaced_members (first_by_value (tags s)) tx_id _ _)
      as [ts|] eqn:Ets; [|discriminate].
    destruct (replaced_user s _ _) as [u|] eqn:Eu; [|discriminate].
    injection Hup as <-; unfold row_resolves; simpl.
    split; [exact Ht|].
    split; [exact (replaced_user_known _ _ _ _ Hu Eu)|].
    split; [exact (replaced_ref_known _ _ _ _ Hc Econf)|].
    split; [exact (replaced_ref_known _ _ _ _ Hi Eimp)|].
    split; [exact (replaced_ref_known _ _ _ _ Hs Est)|].
    split; [exact (replaced_members_known _ _ _ _ _ _
                     (first_campaign_in s) Hcs Ec)|].
    split; [exact (replaced_members_known _ _ _ _ _ _
                     (first_reference_in s) Hrs Er)|].
    exact (replaced_members_known _ _ _ _ _ _ (first_tag_in s) Hts Ets).
  - unfold delete_indicator, commit_delete_indicator.
    destruct (get_indicator s i) as [ind|]; cbn [first_or bind run snd];
      trivial.
    destruct (indicator_referenced s (ind_id ind)); cbn [run abort snd];
      trivial.
    intros x Hx; simpl in Hx; apply filter_In in Hx.
    apply (Hint x); tauto.
  - unfold create_indicator_status.
    destruct (first_by_value _ _); cbn [run abort snd]; trivial.
    simpl; intros x Hx; simpl in Hx.
    destruct (Hint x Hx) as [Ht [Hu [Hc [Hi [Hs Hl]]]]].
    unfold row_resolves; simpl; repeat split; try tauto.
    intros k Hk; rewrite map_app; apply in_or_app; left; now apply Hs.
  - unfold update_indicator_status.
    destruct (get_taxon _ i) as [row|] eqn:Er; cbn [first_or bind run snd];
      trivial.
    destruct (first_by_value _ _); cbn [run abort snd]; trivial.
    apply get_taxon_some in Er; destruct Er as [_ Hid].
    simpl; intros x Hx; simpl in Hx.
    destruct (Hint x Hx) as [Ht [Hu [Hc [Hi [Hs Hl]]]]].
    unfold row_resolves; simpl; repeat split; try tauto.
    rewrite Hid, replace_ids; exact Hs.
  - unfold delete_indicator_status, commit_delete_status.
    destruct (get_taxon _ i) as [row|]; cbn [first_or bind run snd]; trivial.
    destruct (status_referenced s (tx_id row)) eqn:Href;
      cbn [run abort snd]; trivial.
    simpl; intros x Hx; simpl in Hx.
    destruct (Hint x Hx) as [Ht [Hu [Hc [Hi [Hs Hl]]]]].
    unfold row_resolves; simpl; repeat split; try tauto.
    intros k Hk; specialize (Hs k Hk).
    apply in_map_iff in Hs; destruct Hs as [r [Hr Hin]].
    apply in_map_iff; exists r; split; [assumption|].
    apply filter_In; split; [assumption|].
    destruct (tx_id r =? tx_id row) eqn:E; [|reflexivity].
    apply Z.eqb_eq in E.
    assert (Hex : status_referenced s (tx_id row) = true).
    { unfold status_referenced; apply existsb_exists.
      exists x; split; [assumption|].
      rewrite Hk; apply Z.eqb_eq; congruence. }
    congruence.
Qed.

(** X15. After a DELETE /indicators/<id> that was answered 204, a GET, a
    PUT and a second DELETE of that id are answered 404, and the delete
    left every other table as it was. *)
Theorem delete_indicator_then_gone (s s' : Store) (i : Z)
  (data : UpdateData) :
  delete_indicator indicator_referenced s i
  = (Responded (mkResponse 204 NoBody None), s') ->
  read_indicator s' i
  = (Responded (error_response 404 "Indicator ID not found"), s')
  /\ update_indicator parse_boolean s' i data
     = (Responded (error_response 404 "Indicator ID not found"), s')
  /\ delete_indicator indicator_referenced s' i
     = (Responded (error_response 404 "Indicator ID not found"), s')
  /\ same_taxonomy s s'.
Proof.
  unfold delete_indicator at 1, commit_delete_indicator.
  destruct (get_indicator s i) as [ind|] eqn:Hget; simpl; [|discriminate].
  destruct (get_indicator_some _ _ _ Hget) as [_ Hid]; rewrite Hid.
  destruct (indicator_referenced s i); simpl; [discriminate|].
  intros H; injection H as <-.
  assert (Hgone : get_indicator
                    (with_indicators s
                       (filter (fun x => negb (ind_id x =? i)) (indicators s)))
                    i = None)
    by (unfold get_indicator; simpl; apply find_after_delete).
  unfold read_indicator, update_indicator, delete_indicator.
  rewrite Hgone; simpl; repeat split.
Qed.

(** X16. A status row whose only referrers are indicators of one id can
    be deleted once that indicator is: after the DELETE of the indicator
    was answered 204, the DELETE of the status is answered 204 and the row
    is gone. *)
Theorem delete_indicator_frees_status (s s' : Store) (i k : Z) (row : Taxon) :
  delete_indicator indicator_referenced s i
  = (Responded (mkResponse 204 NoBody None), s') ->
  get_taxon (indicator_statuses s) k = Some row ->
  (forall x, In x (indicators s) -> _status_id x = Some k -> ind_id x = i) ->
  exists s'',
    delete_indicator_status s' k
    = (Responded (mkResponse 204 NoBody None), s'')
    /\ get_taxon (indicator_statuses s'') k = None.
Proof.
  unfold delete_indicator, commit_delete_indicator.
  destruct (get_indicator s i) as [ind|] eqn:Hget; simpl; [|discriminate].
  destruct (get_indicator_some _ _ _ Hget) as [_ Hid]; rewrite Hid.
  destruct (indicator_referenced s i); simpl; [discriminate|].
  intros H Hrow Honly; injection H as <-.
  destruct (get_taxon_some _ _ _ Hrow) as [_ Hk].
  unfold delete_indicator_status, commit_delete_status; simpl.
  rewrite Hrow; simpl; rewrite Hk.
  assert (Hfree : status_referenced
                    (with_indicators s
                       (filter (fun x => negb (ind_id x =? i)) (indicators s)))
                    k = false).
  { unfold status_referenced; simpl.
    destruct (existsb _ _) eqn:E; [|reflexivity].
    apply existsb_exists in E; destruct E as [x [Hx Hp]].
    apply filter_In in Hx; destruct Hx as [Hx Hne].
    destruct (_status_id x) as [k'|] eqn:Es; [|discriminate].
    apply Z.eqb_eq in Hp; subst k'.
    rewrite (Honly x Hx Es), Z.eqb_refl in Hne; discriminate. }
  rewrite Hfree; simpl; eexists; split; [reflexivity|].
  simpl; apply find_after_delete.
Qed.

(** X17. GET, PUT and DELETE of an indicator id that has no row, and of a
    status id that has no row, are answered 404 and change nothing. *)
Theorem missing_id_not_found (s : Store) (i : Z) (data : UpdateData)
  (value : ValueData) :
  (get_indicator s i = None ->
     read_indicator s i
     = (Responded (error_response 404 "Indicator ID not found"), s)
     /\ update_indicator parse_boolean s i data
        = (Responded (error_response 404 "Indicator ID not found"), s)
     /\ delete_indicator indicator_referenced s i
        = (Responded (error_response 404 "Indicator ID not found"), s))
  /\ (get_taxon (indicator_statuses s) i = None ->
     read_indicator_status s i
     = (Responded (error_response 404 "Indicator status ID not found"), s)
     /\ update_indicator_status s i value
        = (Responded (error_response 404 "Indicator status ID not found"), s)
     /\ delete_indicator_status s i
        = (Responded (error_response 404 "Indicator status ID not found"), s)).
Proof.
  split; intros Hnone.
  - unfold read_indicator, update_indicator, delete_indicator.
    now rewrite Hnone.
  - unfold read_indicator_status, update_indicator_status,
      delete_indicator_status.
    now rewrite Hnone.
Qed.

End Kept.

(** ** The query string of [read_indicators] *)

Lemma args_get_last (args : Args) (k v key : string) :
  args_get (args ++ [(k, v)]) key
  = match args_get args key with
    | Some x => Some x
    | None => if String.eqb k key then Some v else None
    end.
Proof.
  induction args as [|[k0 v0] rest IH]; simpl; [reflexivity|].
  destruct (String.eqb k0 key); [reflexivity|exact IH].
Qed.

Lemma when_arg_last (args : Args) (k v key : string)
  (add : string -> list Filter) :
  incl (when_arg args key add) (when_arg (args ++ [(k, v)]) key add).
Proof.
  unfold when_arg; rewrite args_get_last.
  destruct (args_get args key); [apply incl_refl|intros x []].
Qed.

Lemma when_arg_none (args : Args) (key : string)
  (add : string -> list Filter) :
  args_get args key = None -> when_arg args key add = [].
Proof. intros H; unfold when_arg; now rewrite H. Qed.

Lemma mem_in (k : Z) (ks : list Z) : mem k ks = true -> In k ks.
Proof.
  unfold mem; intros H; apply existsb_exists in H.
  destruct H as [x [Hx Heq]]; apply Z.eqb_eq in Heq; now subst.
Qed.

Lemma column_eq_true (column : option Z) (k : Z) :
  column_eq column k = true -> column = Some k.
Proof.
  destruct column as [c|]; simpl; [|discriminate].
  intros H; apply Z.eqb_eq in H; now subst.
Qed.

Lemma keep_all_rows (rows : list Indicator) :
  filter (fun _ => true) rows = rows.
Proof.
  induction rows as [|x rest IH]; simpl; [reflexivity|now f_equal].
Qed.

Section Asked.

#[local] Set Default Proof Using "Type".

Variable parse_boolean_arg : string -> option bool.
Variable parse : string -> bool -> option Z.
Variable like : string -> string -> bool.
Variable page_of : Args -> nat * nat.

Lemma build_filters_last (s : Store) (args : Args) (k v : string) :
  incl (build_filters parse_boolean_arg parse s args)
       (build_filters parse_boolean_arg parse s (args ++ [(k, v)])).
Proof.
  unfold build_filters; repeat apply incl_app_app; apply when_arg_last.
Qed.

Lemma passes (s : Store) (filters : list Filter) (x : Indicator) (f : Filter) :
  In x (query_filter like s filters) -> In f filters ->
  eval_filter like s x f = true.
Proof.
  unfold query_filter; intros Hx Hf; apply filter_In in Hx.
  destruct Hx as [_ Hall]; rewrite forallb_forall in Hall; now apply Hall.
Qed.

(** X18. A further query parameter never widens the query that
    GET /indicators pages: with the parameter added at the end of the query
    string, the rows that pass the filters are among those that passed
    without it, in the same order.  Both answers are 200 with a page of
    their query, which holds rows of the store only. *)
Theorem extra_parameter_narrows (s : Store) (args : Args) (k v : string) :
  query_filter like s
    (build_filters parse_boolean_arg parse s (args ++ [(k, v)]))
  = filter
      (fun x => forallb (eval_filter like s x)
                  (build_filters parse_boolean_arg parse s (args ++ [(k, v)])))
      (query_filter like s (build_filters parse_boolean_arg parse s args))
  /\ incl (query_filter like s (build_filters parse_boolean_arg parse s args))
          (indicators s)
  /\ read_indicators parse_boolean_arg parse like page_of s args
     = (Responded (jsonify (JCollection
          (page (page_of args)
             (query_filter like s
                (build_filters parse_boolean_arg parse s args))))), s)
  /\ read_indicators parse_boolean_arg parse like page_of s (args ++ [(k, v)])
     = (Responded (jsonify (JCollection
          (page (page_of (args ++ [(k, v)]))
             (query_filter like s
                (build_filters parse_boolean_arg parse s
                   (args ++ [(k, v)])))))), s).
Proof.
  split; [|split; [|split; reflexivity]].
  - unfold query_filter.
    induction (indicators s) as [|x rest IH]; simpl; [reflexivity|].
    destruct (forallb (eval_filter like s x)
                (build_filters parse_boolean_arg parse s (args ++ [(k, v)])))
      eqn:Emore.
    + assert (Hless : forallb (eval_filter like s x)
                        (build_filters parse_boolean_arg parse s args) = true).
      { rewrite forallb_forall in *; intros f Hf.
        apply Emore, (build_filters_last s args k v f Hf). }
      rewrite Hless; simpl; rewrite Emore; now f_equal.
    + destruct (forallb (eval_filter like s x)
                  (build_filters parse_boolean_arg parse s args));
        simpl; [now rewrite Emore|exact IH].
  - intros x Hx; unfold query_filter in Hx; apply filter_In in Hx; tauto.
Qed.

(** X19. When the query string of a GET /indicators has none of the
    thirteen filter keys (an empty one, or one with paging parameters
    only), no indicator is filtered out: the answer is the page asked for
    of the whole table, in the order of the table. *)
Theorem unrecognised_parameters_ignored (s : Store) (args : Args) :
  (forall key, In key filter_keys -> args_get args key = None) ->
  build_filters parse_boolean_arg parse s args = []
  /\ read_indicators parse_boolean_arg parse like page_of s args
     = (Responded (jsonify (JCollection (page (page_of args) (indicators s)))),
        s).
Proof.
  intros Hnone.
  assert (Hempty : build_filters parse_boolean_arg parse s args = []).
  { unfold build_filters.
    repeat rewrite when_arg_none by (apply Hnone; simpl; tauto).
    reflexivity. }
  split; [exact Hempty|].
  unfold read_indicators, to_collection_dict; cbn [run]; rewrite Hempty.
  unfold query_filter; simpl.
  now rewrite (keep_all_rows (indicators s)).
Qed.

(** X20. Every indicator that GET /indicators returns is stored and
    passes each filter asked for: it has the type, confidence, impact and
    status whose names resolve, a tag of each value in the comma-separated
    tags parameter, a reference of each resolvable source in the sources
    parameter, and a value that the pattern %value% matches. *)
Theorem named_filters_select (s : Store) (args : Args)
  (items : list Indicator) (x : Indicator) :
  fst (read_indicators parse_boolean_arg parse like page_of s args)
  = Responded (jsonify (JCollection items)) ->
  In x items ->
  In x (indicators s)
  /\ (forall v r, args_get args "type" = Some v ->
        first_by_value (indicator_types s) v = Some r ->
        _type_id x = tx_id r)
  /\ (forall v r, args_get args "confidence" = Some v ->
        first_by_value (indicator_confidences s) v = Some r ->
        _confidence_id x = Some (tx_id r))
  /\ (forall v r, args_get args "impact" = Some v ->
        first_by_value (indicator_impacts s) v = Some r ->
        _impact_id x = Some (tx_id r))
  /\ (forall v r, args_get args "status" = Some v ->
        first_by_value (indicator_statuses s) v = Some r ->
        _status_id x = Some (tx_id r))
  /\ (forall v name, args_get args "tags" = Some v ->
        In name (split comma v) ->
        exists tag, In tag (tags s) /\ tx_value tag = name
                    /\ In (tx_id tag) (ind_tags x))
  /\ (forall v name r, args_get args "sources" = Some v ->
        In name (split comma v) ->
        first_by_value (intel_sources s) name = Some r ->
        exists ref, In ref (intel_references s)
                    /\ In (reference_id ref) (ind_references x)
                    /\ _intel_source_id ref = tx_id r)
  /\ (forall v, args_get args "value" = Some v ->
        like (String.append "%" (String.append v "%")) (ind_value x) = true).
Proof.
  unfold read_indicators, to_collection_dict; cbn [run fst]; intros Hresp Hx.
  injection Hresp as <-; apply page_in in Hx.
  split; [unfold query_filter in Hx; apply filter_In in Hx; tauto|].
  split; [|split; [|split; [|split; [|split; [|split]]]]].
  - intros v r Hget Hr.
    assert (Hin : In (TypeIdEq (tx_id r))
                     (build_filters parse_boolean_arg parse s args))
      by (in_filters Hget Hr).
    pose proof (passes s _ x _ Hx Hin) as Hp; simpl in Hp.
    now apply Z.eqb_eq.
  - intros v r Hget Hr.
    assert (Hin : In (ConfidenceIdEq (tx_id r))
                     (build_filters parse_boolean_arg parse s args))
      by (in_filters Hget Hr).
    exact (column_eq_true _ _ (passes s _ x _ Hx Hin)).
  - intros v r Hget Hr.
    assert (Hin : In (ImpactIdEq (tx_id r))
                     (build_filters parse_boolean_arg parse s args))
      by (in_filters Hget Hr).
    exact (column_eq_true _ _ (passes s _ x _ Hx Hin)).
  - intros v r Hget Hr.
    assert (Hin : In (StatusIdEq (tx_id r))
                     (build_filters parse_boolean_arg parse s args))
      by (in_filters Hget Hr).
    exact (column_eq_true _ _ (passes s _ x _ Hx Hin)).
  - intros v name Hget Hname.
    assert (Hin : In (TagsAnyValue name)
                     (build_filters parse_boolean_arg parse s args)).
    { unfold build_filters; repeat rewrite in_app_iff.
      rewrite (when_arg_some _ _ _ _ Hget).
      do 10 right; left; now apply in_map. }
    pose proof (passes s _ x _ Hx Hin) as Hp; simpl in Hp.
    apply existsb_exists in Hp; destruct Hp as [tag [Htag Hp]].
    apply andb_prop in Hp; destruct Hp as [Hmem Hval].
    exists tag; repeat split; trivial;
      [now apply String.eqb_eq|now apply mem_in].
  - intros v name r Hget Hname Hr.
    assert (Hin : In (ReferencesAnySource (tx_id r))
                     (build_filters parse_boolean_arg parse s args)).
    { unfold build_filters; repeat rewrite in_app_iff.
      rewrite (when_arg_some _ _ _ _ Hget).
      do 7 right; left; apply in_map_iff; exists name; now rewrite Hr. }
    pose proof (passes s _ x _ Hx Hin) as Hp; simpl in Hp.
    apply existsb_exists in Hp; destruct Hp as [ref [Href Hp]].
    apply andb_prop in Hp; destruct Hp as [Hmem Hsrc].
    exists ref; repeat split; trivial;
      [now apply mem_in|now apply Z.eqb_eq].
  - intros v Hget.
    assert (Hin : In (ValueLike (String.append "%" (String.append v "%")))
                     (build_filters parse_boolean_arg parse s args)).
    { unfold build_filters; repeat rewrite in_app_iff.
      rewrite (when_arg_some _ _ _ _ Hget).
      do 12 right; now left. }
    exact (passes s _ x _ Hx Hin).
Qed.

End Asked.

(** ** [str.split] and [order_by] *)

Lemma split_nonempty (sep : Ascii.ascii) (v : string) : split sep v <> [].
Proof.
  destruct v as [|c rest]; simpl; [discriminate|].
  destruct (Ascii.eqb c sep); [discriminate|].
  destruct (split sep rest); discriminate.
Qed.

Lemma join_cons (sep : Ascii.ascii) (w : string) (ws : list string) :
  ws <> [] -> join sep (w :: ws) = String.append w (String sep (join sep ws)).
Proof. destruct ws; [congruence|reflexivity]. Qed.

(** X21. Splitting on a separator and joining with it gives the string
    back; the split is never empty and has one part more than the string
    has separators. *)
Theorem split_join (sep : Ascii.ascii) (v : string) :
  join sep (split sep v) = v
  /\ split sep v <> []
  /\ List.length (split sep v)
     = S (List.length (filter (Ascii.eqb sep) (list_ascii_of_string v))).
Proof.
  split; [|split; [apply split_nonempty|]].
  - induction v as [|c rest IH]; simpl; [reflexivity|].
    destruct (Ascii.eqb c sep) eqn:E.
    + apply Ascii.eqb_eq in E; subst c.
      rewrite join_cons by apply split_nonempty.
      simpl; now rewrite IH.
    + destruct (split sep rest) as [|w ws] eqn:Es;
        [now elim (split_nonempty sep rest)|].
      destruct ws as [|w' ws']; simpl in *; now rewrite <- IH.
  - induction v as [|c rest IH]; simpl; [reflexivity|].
    rewrite (Ascii.eqb_sym sep c).
    destruct (Ascii.eqb c sep); simpl; [now rewrite IH|].
    destruct (split sep rest) as [|w ws] eqn:Es;
      [now elim (split_nonempty sep rest)|exact IH].
Qed.

Lemma insert_by_id_perm (r : Taxon) (rows : list Taxon) :
  Permutation (r :: rows) (insert_by_id r rows).
Proof.
  induction rows as [|x rest IH]; simpl; [apply Permutation_refl|].
  destruct (tx_id r <? tx_id x); [apply Permutation_refl|].
  apply perm_trans with (x :: r :: rest); [apply perm_swap|].
  now apply perm_skip.
Qed.

Lemma insert_by_id_sorted (r : Taxon) (rows : list Taxon) :
  StronglySorted (fun a b => tx_id a <= tx_id b) rows ->
  StronglySorted (fun a b => tx_id a <= tx_id b) (insert_by_id r rows).
Proof.
  intros Hs; induction Hs as [|x rest Hrest IH Hx]; simpl.
  - repeat constructor.
  - destruct (tx_id r <? tx_id x) eqn:E.
    + apply Z.ltb_lt in E; constructor; [now constructor|].
      constructor; [lia|].
      rewrite Forall_forall in *; intros y Hy; specialize (Hx y Hy); lia.
    + apply Z.ltb_ge in E; constructor; [assumption|].
      rewrite Forall_forall in *; intros y Hy.
      apply insert_by_id_in in Hy; destruct Hy as [->|Hy]; auto.
Qed.

(** X22. Ordering by id rearranges the rows of the table into ascending
    ids, and the first row by ascending id is missing only for an empty
    table. *)
Theorem order_by_id_sorts (rows : list Taxon) :
  Permutation rows (order_by_id rows)
  /\ StronglySorted (fun a b => tx_id a <= tx_id b) (order_by_id rows)
  /\ (first_by_id rows = None <-> rows = []).
Proof.
  split; [|split].
  - induction rows as [|r rest IH]; simpl; [constructor|].
    apply perm_trans with (r :: order_by_id rest);
      [now apply perm_skip|apply insert_by_id_perm].
  - induction rows as [|r rest IH]; simpl; [constructor|].
    now apply insert_by_id_sorted.
  - split; [|now intros ->].
    intros Hnone; destruct rows as [|r rest]; [reflexivity|].
    now elim (first_by_id_nonempty (r :: rest)).
Qed.

(** * The further properties on the small database *)

Open Scope string_scope.

(** [run_as H t] evaluates the request [t] and names the equation. *)
Ltac run_as H t :=
  let v := eval vm_compute in t in
  assert (H : t = v) by (vm_compute; reflexivity).

Lemma create_status_then_read_witness :
  exists row s',
    create_indicator_status demo (mkValueData "CLOSED")
    = (Responded (mkResponse 201 (JTaxon row)
         (Some ("api.read_indicator_status", tx_id row))), s')
    /\ tx_value row = "CLOSED"
    /\ read_indicator_status s' (tx_id row)
       = (Responded (jsonify (JTaxon row)), s').
Proof.
  destruct (create_status_then_read demo (mkValueData "CLOSED") eq_refl)
    as (row & s' & Hrun & Hval & _ & _ & _ & Hread & _).
  exists row, s'; auto.
Defined.

Lemma update_status_then_read_witness :
  exists s',
    update_indicator_status demo 2 (mkValueData "CLOSED")
    = (Responded (jsonify (JTaxon (mkTaxon 2 "CLOSED"))), s')
    /\ read_indicator_status s' 2
       = (Responded (jsonify (JTaxon (mkTaxon 2 "CLOSED"))), s')
    /\ get_taxon (indicator_statuses s') 1 = Some (mkTaxon 1 "NEW").
Proof.
  destruct (update_status_then_read demo 2 (mkValueData "CLOSED")
              (mkTaxon 2 "ANALYZED") eq_refl eq_refl)
    as (s' & Hrun & Hread & Hother & _).
  exists s'; repeat split; trivial.
  rewrite (Hother 1) by discriminate; reflexivity.
Defined.

Lemma delete_status_then_gone_witness :
  exists s',
    delete_indicator_status demo 2
    = (Responded (mkResponse 204 NoBody None), s')
    /\ read_indicator_status s' 2
       = (Responded (error_response 404 "Indicator status ID not found"), s')
    /\ delete_indicator_status s' 2
       = (Responded (error_response 404 "Indicator status ID not found"), s').
Proof.
  run_as Hrun (delete_indicator_status demo 2).
  destruct (delete_status_then_gone demo _ 2 (mkValueData "CLOSED") Hrun)
    as (Hread & _ & Hdelete & _).
  eexists; split; [exact Hrun|split; assumption].
Defined.


Lemma create_then_read_and_repost_witness :
  exists resp s',
    create_indicator demo_parse_boolean demo 5 tagged_create
    = (Responded resp, s')
    /\ create_indicator demo_parse_boolean s' 9 tagged_create
       = (Responded (error_response 409 "Indicator already exists"), s').
Proof.
  run_as Hrun (create_indicator demo_parse_boolean demo 5 tagged_create).
  destruct (create_then_read_and_repost demo_parse_boolean demo _ 5 9
              tagged_create _ Hrun eq_refl)
    as (row & _ & _ & Hagain).
  do 2 eexists; split; [exact Hrun|exact Hagain].
Defined.

Lemma create_then_delete_status_conflict_witness :
  exists resp s' k,
    create_indicator demo_parse_boolean demo 5 tagged_create
    = (Responded resp, s')
    /\ delete_indicator_status s' k
       = (Responded (error_response 409
            "Unable to delete indicator status due to foreign key constraints"),
          s').
Proof.
  run_as Hrun (create_indicator demo_parse_boolean demo 5 tagged_create).
  destruct (create_then_delete_status_conflict demo_parse_boolean demo _ 5
              tagged_create _ Hrun eq_refl)
    as (row & k & _ & _ & Hdelete).
  do 2 eexists; exists k; split; [exact Hrun|exact Hdelete].
Defined.


Lemma update_failure_atomic_witness :
  status_of (fst (update_indicator demo_parse_boolean demo 1 late_failure))
  = Some 404
  /\ snd (update_indicator demo_parse_boolean demo 1 late_failure) = demo.
Proof.
  split; [reflexivity|].
  apply (update_failure_atomic demo_parse_boolean demo 1 late_failure).
  vm_compute; discriminate.
Defined.


Lemma update_idempotent_witness :
  exists resp s',
    update_indicator demo_parse_boolean demo 1 full_update
    = (Responded resp, s')
    /\ update_indicator demo_parse_boolean s' 1 full_update
       = (Responded resp, s').
Proof.
  run_as Hrun (update_indicator demo_parse_boolean demo 1 full_update).
  destruct (update_idempotent demo_parse_boolean demo _ 1 full_update _
              Hrun eq_refl) as [Hagain _].
  do 2 eexists; split; [exact Hrun|exact Hagain].
Defined.

Lemma demo_indicator_key : indicator_key (indicators demo).
Proof.
  unfold indicator_key; simpl.
  repeat constructor; simpl; intuition discriminate.
Defined.

Lemma indicator_key_kept_witness :
  indicator_key
    (indicators
       (snd (create_indicator demo_parse_boolean demo 5 tagged_create)))
  /\ indicator_key
       (indicators
          (snd (update_indicator demo_parse_boolean demo 1 full_update)))
  /\ indicator_key
       (indicators (snd (delete_indicator demo_referenced demo 2))).
Proof.
  destruct (indicator_key_kept demo_parse_boolean demo_referenced demo 5 1
              tagged_create full_update (mkValueData "CLOSED")
              demo_indicator_key) as (Hpost & Hput & _).
  destruct (indicator_key_kept demo_parse_boolean demo_referenced demo 5 2
              tagged_create full_update (mkValueData "CLOSED")
              demo_indicator_key) as (_ & _ & Hdelete & _).
  split; [exact Hpost|split; [exact Hput|exact Hdelete]].
Defined.

Lemma demo_referential_integrity : referential_integrity demo.
Proof.
  intros i [<-|[<-|[]]]; unfold row_resolves, known, incl; simpl;
    repeat split; intros;
    try match goal with
        | H : Some _ = Some _ |- _ => injection H as <-
        end;
    tauto.
Defined.

Lemma referential_integrity_kept_witness :
  referential_integrity
    (snd (create_indicator demo_parse_boolean demo 5 tagged_create))
  /\ referential_integrity
       (snd (update_indicator demo_parse_boolean demo 1 full_update))
  /\ referential_integrity (snd (delete_indicator_status demo 2)).
Proof.
  destruct (referential_integrity_kept demo_parse_boolean demo_referenced
              demo 5 1 tagged_create full_update (mkValueData "CLOSED")
              demo_referential_integrity) as (Hpost & Hput & _).
  destruct (referential_integrity_kept demo_parse_boolean demo_referenced
              demo 5 2 tagged_create full_update (mkValueData "CLOSED")
              demo_referential_integrity) as (_ & _ & _ & _ & _ & Hdelete).
  split; [exact Hpost|split; [exact Hput|exact Hdelete]].
Defined.

Lemma delete_indicator_then_gone_witness :
  exists s',
    delete_indicator demo_referenced demo 2
    = (Responded (mkResponse 204 NoBody None), s')
    /\ read_indicator s' 2
       = (Responded (error_response 404 "Indicator ID not found"), s').
Proof.
  run_as Hrun (delete_indicator demo_referenced demo 2).
  destruct (delete_indicator_then_gone demo_parse_boolean demo_referenced
              demo _ 2 no_update Hrun) as [Hread _].
  eexists; split; [exact Hrun|exact Hread].
Defined.

Lemma delete_indicator_frees_status_witness :
  status_of (fst (delete_indicator_status demo_analyzed 2)) = Some 409
  /\ exists s' s'',
       delete_indicator demo_referenced demo_analyzed 2
       = (Responded (mkResponse 204 NoBody None), s')
       /\ delete_indicator_status s' 2
          = (Responded (mkResponse 204 NoBody None), s'')
       /\ get_taxon (indicator_statuses s'') 2 = None.
Proof.
  split; [reflexivity|].
  run_as Hrun (delete_indicator demo_referenced demo_analyzed 2).
  destruct (delete_indicator_frees_status demo_referenced demo_analyzed _ 2 2
              (mkTaxon 2 "ANALYZED") Hrun eq_refl) as (s'' & Hdel & Hgone).
  - intros x [<-|[<-|[]]]; simpl; [discriminate|reflexivity].
  - eexists; exists s''; split; [exact Hrun|split; assumption].
Defined.

Lemma missing_id_not_found_witness :
  update_indicator demo_parse_boolean demo 9 full_update
  = (Responded (error_response 404 "Indicator ID not found"), demo)
  /\ delete_indicator_status demo 9
     = (Responded (error_response 404 "Indicator status ID not found"), demo).
Proof.
  destruct (missing_id_not_found demo_parse_boolean demo_referenced demo 9
              full_update (mkValueData "CLOSED")) as [Hind Hst].
  destruct (Hind eq_refl) as (_ & Hput & _).
  destruct (Hst eq_refl) as (_ & _ & Hdelete).
  split; assumption.
Defined.

Lemma unrecognised_parameters_ignored_witness :
  read_indicators demo_parse_boolean_arg demo_parse demo_like demo_page_of
    demo [("page", "2"); ("per_page", "10")]
  = (Responded (jsonify (JCollection [])), demo)
  /\ read_indicators demo_parse_boolean_arg demo_parse demo_like demo_page_of
       demo []
     = (Responded (jsonify (JCollection (indicators demo))), demo).
Proof.
  split.
  - apply (unrecognised_parameters_ignored demo_parse_boolean_arg demo_parse
             demo_like demo_page_of demo [("page", "2"); ("per_page", "10")]).
    intros key Hkey; simpl in Hkey.
    repeat (destruct Hkey as [<-|Hkey]; [reflexivity|]); destruct Hkey.
  - apply (unrecognised_parameters_ignored demo_parse_boolean_arg demo_parse
             demo_like demo_page_of demo []).
    reflexivity.
Defined.

Lemma named_filters_select_witness :
  exists items,
    fst (read_indicators demo_parse_boolean_arg demo_parse demo_like
           demo_page_of demo [("type", "URI"); ("confidence", "HIGH")])
    = Responded (jsonify (JCollection items))
    /\ items <> []
    /\ forall x, In x items -> _type_id x = 2 /\ _confidence_id x = Some 2.
Proof.
  run_as Hrun (fst (read_indicators demo_parse_boolean_arg demo_parse
                      demo_like demo_page_of demo
                      [("type", "URI"); ("confidence", "HIGH")])).
  eexists; split; [exact Hrun|]; split; [discriminate|].
  intros x Hx.
  destruct (named_filters_select demo_parse_boolean_arg demo_parse demo_like
              demo_page_of demo [("type", "URI"); ("confidence", "HIGH")]
              _ x Hrun Hx)
    as (_ & Hty & Hconf & _).
  split;
    [exact (Hty "URI" (mkTaxon 2 "URI") eq_refl eq_refl)
    |exact (Hconf "HIGH" (mkTaxon 2 "HIGH") eq_refl eq_refl)].
Defined.




Lemma demo_store_ok : store_ok demo.
Proof.
  split; [|split; [exact demo_foreign_keys_positive
                  |exact demo_times_in_range]].
  unfold primary_keys_positive, positive_ids; simpl.
  repeat split; intros r Hr;
    repeat (destruct Hr as [<-|Hr]; [simpl; lia|]); destruct Hr.
Defined.

Lemma store_ok_kept_witness :
  store_ok (snd (create_indicator demo_parse_boolean demo 5 tagged_create))
  /\ store_ok (snd (update_indicator demo_parse_boolean demo 1 full_update))
  /\ store_ok (snd (create_indicator_status demo (mkValueData "CLOSED"))).
Proof.
  assert (Hnow : in_range 5)
    by (unfold in_range, date_min, date_max; lia).
  destruct (store_ok_kept demo_parse_boolean demo_referenced demo 5 1
              tagged_create full_update (mkValueData "CLOSED")
              demo_store_ok Hnow) as (Hpost & Hput & _ & Hstatus & _).
  split; [exact Hpost|split; [exact Hput|exact Hstatus]].
Defined.

Lemma status_primary_key_kept_witness :
  primary_key
    (indicator_statuses
       (snd (create_indicator_status demo (mkValueData "CLOSED"))))
  /\ primary_key
       (indicator_statuses
          (snd (update_indicator_status demo 2 (mkValueData "CLOSED"))))
  /\ primary_key (indicator_statuses (snd (delete_indicator_status demo 2))).
Proof.
  destruct demo_status_keys as [Hkey _].
  exact (status_primary_key_kept demo 2 (mkValueData "CLOSED") Hkey).
Defined.
